(** * testes_units: the pytest-module generator of [agent/agent.py]

    A shallow embedding of the two Python modules of the agent package,
    [agent/prompt_templates.py] and [agent/agent.py], together with the
    library functions they call ([str.strip], [str.startswith], [in],
    [str.format], [os.path.*], [os.makedirs], [open], [read], [write],
    the constructor of [AzureChatOpenAI]), followed by the properties of
    [generate_tests_for_file].

    Conventions of the embedding.
    - A Python [str] is a list of Unicode code points ([N]), surrogates
      included, as in CPython.
    - [os.path] is [posixpath].
    - The file system is a finite map from absolute normalised paths to
      nodes: a regular file holding UTF-8 text, a regular file whose
      bytes are not UTF-8, or a directory. There are no symbolic links
      and no permissions. The kernel follows a path one component at a
      time where [abspath] works on the text; the two agree on a path
      in which no [..] follows a name and, for [open], whose last
      component names the entry, and [open] and [os.makedirs] are given
      on those paths only ([NotModelled] otherwise).
    - A file is opened in text mode with UTF-8: a path or a text that
      cannot be encoded, a path with a NUL and bytes that cannot be
      decoded raise as they do in CPython; a text with a carriage
      return, which reading would translate, is not read
      ([NotModelled]).
    - The chat endpoint is an external service with a state of its own.
    - Effects are threaded through a state-and-exception monad that also
      records every effect attempted, in order. *)

From Stdlib Require Import String Ascii NArith ZArith QArith_base.
From stdpp Require Import base option list gmap.

Local Open Scope Z_scope.
Local Open Scope list_scope.

(** ** Python strings *)

Module Py.

Abbreviation str := (list N).

(** The text of a string literal without escapes. *)
Definition u (s : string) : str :=
  map N_of_ascii (list_ascii_of_string s).

Definition NL : N := 10%N.
Definition SLASH : N := 47%N.
Definition DOT : N := 46%N.
Definition DQUOTE : N := 34%N.
Definition BACKSLASH : N := 92%N.
Definition LBRACE : N := 123%N.
Definition RBRACE : N := 125%N.
Definition LBRACKET : N := 91%N.
Definition COLON : N := 58%N.
Definition BANG : N := 33%N.

Definition CR : N := 13%N.
Definition NUL : N := 0%N.

Definition str_eqb (a b : str) : bool := bool_decide (a = b).

(** The code points U+D800 to U+DFFF. *)
Definition is_surrogate (c : N) : bool := ((55296 <=? c) && (c <=? 57343))%N.

(** [s.encode("utf-8")] succeeds: strict UTF-8 encodes every character
    but a surrogate. *)
Definition encodable (s : str) : bool :=
  forallb (fun c => negb (is_surrogate c)) s.

(** [str.isspace] on one code point: the ASCII table of CPython and the
    code points of bidirectional type WS, B or S or of category Zs. *)
Definition isspace (c : N) : bool :=
  ((9 <=? c) && (c <=? 13) || (28 <=? c) && (c <=? 32)
   || (c =? 133) || (c =? 160) || (c =? 5760)
   || (8192 <=? c) && (c <=? 8202)
   || (c =? 8232) || (c =? 8233) || (c =? 8239) || (c =? 8287)
   || (c =? 12288))%N.

Fixpoint lstrip (s : str) : str :=
  match s with
  | c :: s' => if isspace c then lstrip s' else s
  | [] => []
  end.

Definition rstrip (s : str) : str := rev (lstrip (rev s)).

(** [s.strip()] *)
Definition strip (s : str) : str := rstrip (lstrip s).

(** [s.startswith(p)] *)
Fixpoint startswith (s p : str) {struct p} : bool :=
  match p, s with
  | [], _ => true
  | _ :: _, [] => false
  | a :: p', b :: s' => (a =? b)%N && startswith s' p'
  end.

(** [sub in s] *)
Fixpoint contains (s sub : str) : bool :=
  startswith s sub ||
  match s with
  | [] => false
  | _ :: s' => contains s' sub
  end.

(** [s.rfind(c)] for a one-character [c]: the last index, or -1. *)
Fixpoint rfind_from (i : Z) (s : str) (c : N) (last : Z) : Z :=
  match s with
  | [] => last
  | x :: s' => rfind_from (i + 1) s' c (if (x =? c)%N then i else last)
  end.

Definition rfind (s : str) (c : N) : Z := rfind_from 0 s c (-1).

(** Slices [s[i:]], [s[:j]] and [s[i:j]] for indices in range ([0 <= i]). *)
Definition slice_from (s : str) (i : Z) : str := drop (Z.to_nat i) s.
Definition slice_to (s : str) (j : Z) : str := take (Z.to_nat j) s.
Definition slice (s : str) (i j : Z) : str := slice_from (slice_to s j) i.

(** [s.split(sep)] for a one-character [sep]. *)
Fixpoint split (s : str) (sep : N) : list str :=
  match s with
  | [] => [[]]
  | c :: s' =>
      if (c =? sep)%N then [] :: split s' sep
      else match split s' sep with
           | w :: ws => (c :: w) :: ws
           | [] => [[c]]
           end
  end.

(** [sep.join(parts)] for a one-character [sep]. *)
Fixpoint join_with (sep : N) (parts : list str) : str :=
  match parts with
  | [] => []
  | [w] => w
  | w :: ws => w ++ sep :: join_with sep ws
  end.

End Py.

(** ** [os.path] (posixpath) *)

Module OsPath.
Import Py.

(** [s.endswith(p)] *)
Definition endswith (s p : str) : bool := startswith (rev s) (rev p).

(** [basename(p)]: [i = p.rfind('/') + 1; return p[i:]] *)
Definition basename (p : str) : str :=
  let i := rfind p SLASH + 1 in
  slice_from p i.

(** [splitext(p)]: the extension starts at the last dot of the last
    component, unless only dots precede it there. The [while] loop of
    [genericpath._splitext] looks for a character other than a dot in
    [p[sepIndex+1:dotIndex]]. *)
Definition splitext (p : str) : str * str :=
  let sepIndex := rfind p SLASH in
  let dotIndex := rfind p DOT in
  if (dotIndex >? sepIndex)
     && existsb (fun c => negb (c =? DOT)%N) (slice p (sepIndex + 1) dotIndex)
  then (slice_to p dotIndex, slice_from p dotIndex)
  else (p, []).

(** [join(a, b)] *)
Definition join (a b : str) : str :=
  if startswith b [SLASH] then b
  else if str_eqb a [] || endswith a [SLASH] then a ++ b
  else a ++ SLASH :: b.

(** The loop body of [normpath] over the components. *)
Definition normpath_step (initial_slashes : nat) (new_comps : list str)
    (comp : str) : list str :=
  if str_eqb comp [] || str_eqb comp (u ".") then new_comps
  else if negb (str_eqb comp (u ".."))
          || (Nat.eqb initial_slashes 0 && bool_decide (new_comps = []))
          || (negb (bool_decide (new_comps = []))
              && bool_decide (last new_comps = Some (u "..")))
       then new_comps ++ [comp]
       else removelast new_comps.

Definition normpath (path : str) : str :=
  if str_eqb path [] then u "."
  else
    let initial_slashes : nat :=
      if startswith path [SLASH] then
        if startswith path [SLASH; SLASH]
           && negb (startswith path [SLASH; SLASH; SLASH])
        then 2%nat else 1%nat
      else 0%nat in
    let comps := fold_left (normpath_step initial_slashes) (split path SLASH) [] in
    let path' := repeat SLASH initial_slashes ++ join_with SLASH comps in
    if str_eqb path' [] then u "." else path'.

(** [abspath(path)], with [os.getcwd()] passed as [cwd]. *)
Definition abspath (cwd path : str) : str :=
  normpath (if startswith path [SLASH] then path else join cwd path).

(** A path made of slashes only names the root. *)
Fixpoint all_slashes (s : str) : bool :=
  match s with
  | [] => true
  | c :: s' => (c =? SLASH)%N && all_slashes s'
  end.

End OsPath.

(** ** Exceptions *)

Inductive exn : Type :=
  | SyntaxError (msg : list N)
  | RuntimeError (msg : list N)
  | ValueError (msg : list N)
  | KeyError (key : list N)
  | FileNotFoundError (path : list N)
  | IsADirectoryError (path : list N)
  | NotADirectoryError (path : list N)
  | FileExistsError (path : list N)
  | UnicodeEncodeError (object : list N)   (* the string that has no encoding *)
  | UnicodeDecodeError (path : list N)     (* the file whose bytes are not UTF-8 *)
  | ValidationError (setting : list N)     (* pydantic: the setting that is missing *)
  | ServiceError (detail : list N)   (* raised by the chat client: transport, provider *)
  | NotModelled (what : string).     (* library behaviour outside this embedding *)

(** The subclasses of [OSError] above. *)
Definition is_OSError (e : exn) : bool :=
  match e with
  | FileNotFoundError _ | IsADirectoryError _
  | NotADirectoryError _ | FileExistsError _ => true
  | _ => false
  end.

(** [ValueError] and its subclasses above. *)
Definition is_ValueError (e : exn) : bool :=
  match e with
  | ValueError _ | UnicodeEncodeError _ | UnicodeDecodeError _
  | ValidationError _ => true
  | _ => false
  end.

Definition result (A : Type) : Type := exn + A.

(** ** [str.format] with keyword arguments

    Literal text is copied, [{{] and [}}] stand for one brace, and a
    replacement field [{name}] whose name is an ASCII identifier is
    replaced by [str] of the keyword argument of that name, which for a
    [str] argument is the argument itself. Fields of any other shape
    (positional, attribute or index access, conversions, format
    specifications) are outside the embedding. *)

Module Format.
Import Py.

Definition is_ident_start (c : N) : bool :=
  ((65 <=? c) && (c <=? 90) || (97 <=? c) && (c <=? 122) || (c =? 95))%N.

Definition is_ident_char (c : N) : bool :=
  (is_ident_start c || (48 <=? c) && (c <=? 57))%N.

Definition is_identifier (name : str) : bool :=
  match name with
  | [] => false
  | c :: rest => is_ident_start c && forallb is_ident_char rest
  end.

Definition get_field (kwargs : gmap (list N) (list N)) (name : str) : result str :=
  if is_identifier name then
    match kwargs !! name with
    | Some v => inr v
    | None => inl (KeyError name)
    end
  else inl (NotModelled "replacement field").

(** [field = None]: scanning literal text; [field = Some name]: inside a
    replacement field whose name so far is [name]. *)
Fixpoint format_from (kwargs : gmap (list N) (list N)) (field : option str)
    (t : str) {struct t} : result str :=
  match field with
  | None =>
      match t with
      | [] => inr []
      | c :: t' =>
          if (c =? LBRACE)%N then
            match t' with
            | [] => inl (ValueError (u "Single '{' encountered in format string"))
            | d :: t'' =>
                if (d =? LBRACE)%N
                then match format_from kwargs None t'' with
                     | inr out => inr (LBRACE :: out)
                     | inl e => inl e
                     end
                else format_from kwargs (Some []) t'
            end
          else if (c =? RBRACE)%N then
            match t' with
            | d :: t'' =>
                if (d =? RBRACE)%N
                then match format_from kwargs None t'' with
                     | inr out => inr (RBRACE :: out)
                     | inl e => inl e
                     end
                else inl (ValueError (u "Single '}' encountered in format string"))
            | [] => inl (ValueError (u "Single '}' encountered in format string"))
            end
          else match format_from kwargs None t' with
               | inr out => inr (c :: out)
               | inl e => inl e
               end
      end
  | Some name =>
      match t with
      | [] => inl (ValueError (u "expected '}' before end of string"))
      | c :: t' =>
          if (c =? RBRACE)%N then
            match get_field kwargs name with
            | inr v =>
                match format_from kwargs None t' with
                | inr out => inr (v ++ out)
                | inl e => inl e
                end
            | inl e => inl e
            end
          else if (c =? LBRACKET)%N || (c =? COLON)%N || (c =? BANG)%N
          then inl (NotModelled "replacement field")
          else if (c =? LBRACE)%N
          then inl (ValueError (u "unexpected '{' in field name"))
          else format_from kwargs (Some (name ++ [c])) t'
      end
  end.

(** [template.format(src_path=..., source=...)], the keyword arguments
    given as a map. *)
Definition format (template : str) (kwargs : gmap (list N) (list N)) : result str :=
  format_from kwargs None template.

End Format.

(** ** [agent/prompt_templates.py]

    The module is one assignment of a triple-quoted string literal to
    [PROMPT_HEADER]. Its value is whatever Python's lexer reads, so the
    text of the file is kept as it is and the literal is scanned by the
    lexer's rule for long strings. *)

Module PromptTemplates.
Import Py.

Definition Q3 : str := [DQUOTE; DQUOTE; DQUOTE].

(** The twenty lines of the file (line 20 is empty). *)
Definition source_lines : list str :=
  [ u "PROMPT_HEADER = " ++ Q3
      ++ u "        You are an automated test generator for Python functions."
      ++ u " Generate a single pure Python file content that is a pytest test module.";
    [];
    u "Requirements:";
    u "- The file must start with exactly: import pytest";
    u "- Use only valid python code (no surrounding markdown or explanation).";
    u "- Create tests for the provided source. For each public function in the source produce:";
    u "  - at least one 'success' test: def test_<func>_success(): ...";
    u "  - at least one 'failure' test: def test_<func>_failure(): ...";
    u "- Use clear, deterministic asserts (avoid random data).";
    u "- When creating inputs, prefer small fixed examples and include edge-case for failure (e.g., invalid type, zero-division, ValueError).";
    u "- Name the file content such that it can be written to test_<module>.py.";
    u "- Keep tests self-contained: import the module under test using its module name (e.g., import examples.math_ops as mod).";
    u "- Do not import or call any network resources.";
    u "- Output ONLY the Python file content.";
    [];
    u "Source file path: {src_path}";
    u "Source code:";
    Q3 ++ u "\n{source}\n" ++ Q3;
    Q3;
    [] ].

Definition source_text : str := flat_map (fun l => l ++ [NL]) source_lines.

(** The body of a long string whose opening quotes have been read: it
    runs to the first triple quote not preceded by a backslash escape.
    Returns the body and the text after the closing quotes; [None] at
    the end of the file. *)
Fixpoint long_string (s : str) : option (str * str) :=
  match s with
  | [] => None
  | c :: s1 =>
      if (c =? BACKSLASH)%N then
        match s1 with
        | [] => None
        | d :: s2 =>
            match long_string s2 with
            | Some (body, rest) => Some (c :: d :: body, rest)
            | None => None
            end
        end
      else if startswith s Q3 then Some ([], drop 3 s)
      else match long_string s1 with
           | Some (body, rest) => Some (c :: body, rest)
           | None => None
           end
  end.

Fixpoint skip_blanks (s : str) : str :=
  match s with
  | c :: s' => if (c =? 32)%N || (c =? 9)%N then skip_blanks s' else s
  | [] => []
  end.

Fixpoint strip_prefix (p s : str) {struct p} : option str :=
  match p, s with
  | [], _ => Some s
  | a :: p', b :: s' => if (a =? b)%N then strip_prefix p' s' else None
  | _ :: _, [] => None
  end.

(** What follows the literal on its logical line. A newline ends the
    statement. A backslash joins lines only when a newline follows it;
    before any other character the lexer stops with a syntax error.
    Other continuations of the expression are outside the embedding. *)
Definition end_of_statement (rest : str) : result str :=
  match skip_blanks rest with
  | [] => inr []
  | c :: rest' =>
      if (c =? NL)%N then inr rest'
      else if (c =? BACKSLASH)%N then
        match rest' with
        | d :: _ =>
            if (d =? NL)%N then inl (NotModelled "explicit line joining")
            else inl (SyntaxError
                        (u "unexpected character after line continuation character"))
        | [] => inl (SyntaxError (u "unexpected EOF while parsing"))
        end
      else inl (NotModelled "expression after the literal")
  end.

(** The value of a literal body without backslash escapes is the body. *)
Definition literal_value (body : str) : result str :=
  if existsb (fun c => (c =? BACKSLASH)%N) body
  then inl (NotModelled "escape sequences")
  else inr body.

(** Executing a module that consists of [NAME = <long string>]. *)
Definition exec_assignment (name text : str) : result str :=
  match strip_prefix (name ++ u " = " ++ Q3) text with
  | None => inl (NotModelled "statement")
  | Some s =>
      match long_string s with
      | None =>
          inl (SyntaxError (u "unterminated triple-quoted string literal"))
      | Some (body, rest) =>
          match end_of_statement rest with
          | inl e => inl e
          | inr remaining =>
              if forallb (fun c => (c =? NL)%N) remaining
              then literal_value body
              else inl (NotModelled "statement")
          end
      end
  end.

(** The binding of [PROMPT_HEADER] that importing the module yields. *)
Definition PROMPT_HEADER : result str :=
  exec_assignment (u "PROMPT_HEADER") source_text.

(** The string literal that the lexer does read on lines 1 to 18. *)
Definition first_literal : option (str * str) :=
  match strip_prefix (u "PROMPT_HEADER = " ++ Q3) source_text with
  | Some s => long_string s
  | None => None
  end.

End PromptTemplates.

(** ** The world: file system, chat service, effect log *)

Inductive node : Type :=
  | File (text : list N)
  | Dir
  | Binary.     (* a regular file whose bytes are not UTF-8 *)

(** The client object built by [AzureChatOpenAI(...)]: the keyword
    arguments of lines 18 to 23 and the API version, which the
    constructor takes from the environment; the float [0.0] is the
    rational 0. *)
Record llm_client : Type := AzureChatOpenAI {
  deployment_name : list N;
  openai_api_base : list N;
  openai_api_key : list N;
  openai_api_version : list N;
  temperature : Q;
  max_tokens : Z;
  request_timeout : Z
}.

Inductive message : Type :=
  | SystemMessage (content : list N)
  | HumanMessage (content : list N).

(** One entry per effect attempted, in program order. *)
Inductive event : Type :=
  | EvOpenRead (path : list N)
  | EvChat (client : llm_client) (messages : list message)
  | EvMakedirs (path : list N)
  | EvOpenWrite (path : list N)
  | EvWrite (path : list N) (text : list N).

Definition is_chat (e : event) : bool :=
  match e with EvChat _ _ => true | _ => false end.

Definition is_output (e : event) : bool :=
  match e with
  | EvMakedirs _ | EvOpenWrite _ | EvWrite _ _ => true
  | _ => false
  end.

Module Fs.
Import Py OsPath.

(** The root directory always exists. *)
Definition lookup_node (fs : gmap (list N) node) (k : str) : option node :=
  if all_slashes k then Some Dir else fs !! k.

Fixpoint leading_slashes (k : str) : str :=
  match k with
  | c :: k' => if (c =? SLASH)%N then c :: leading_slashes k' else []
  | [] => []
  end.

Definition components (k : str) : list str :=
  filter (fun comp => comp <> []) (split k SLASH).

(** The directories on the way to [k], outermost first, then [k]. *)
Definition chain (k : str) : list str :=
  let root := leading_slashes k in
  let comps := components k in
  map (fun i => root ++ join_with SLASH (take i comps)) (seq 1 (length comps)).

(** Every directory on the way to [k] must exist and be a directory. *)
Fixpoint check_dirs (fs : gmap (list N) node) (name : str) (dirs : list str)
    : result unit :=
  match dirs with
  | [] => inr tt
  | d :: rest =>
      match lookup_node fs d with
      | Some Dir => check_dirs fs name rest
      | Some (File _) | Some Binary => inl (NotADirectoryError name)
      | None => inl (FileNotFoundError name)
      end
  end.

(** [os.makedirs(name, exist_ok=True)] along the chain of [name]. *)
Fixpoint mkdirs (fs : gmap (list N) node) (name : str) (dirs : list str)
    : result (gmap (list N) node) :=
  match dirs with
  | [] => inr fs
  | d :: rest =>
      match lookup_node fs d with
      | Some Dir => mkdirs fs name rest
      | Some (File _) | Some Binary =>
          inl (match rest with
               | [] => FileExistsError name
               | _ :: _ => NotADirectoryError name
               end)
      | None => mkdirs (<[d := Dir]> fs) name rest
      end
  end.

(** [os.fsencode(path)] succeeds: UTF-8 with [surrogateescape], under
    which the surrogates U+DC80 to U+DCFF stand for the bytes 128 to
    255 and no other surrogate has an encoding. *)
Definition fs_encodable (path : str) : bool :=
  forallb (fun c => negb (is_surrogate c) || ((56448 <=? c) && (c <=? 56575))%N)
    path.

(** What [open] and [os.mkdir] find wrong with a path before any system
    call: the path is encoded first, then searched for a NUL. *)
Definition path_error (path : str) : option exn :=
  if negb (fs_encodable path) then Some (UnicodeEncodeError path)
  else if existsb (N.eqb NUL) path then Some (ValueError (u "embedded null byte"))
  else None.

(** The paths on which the kernel and [abspath] may disagree: [a/..]
    needs [a] to be a directory, where [normpath] drops both, and Linux
    takes two leading slashes for one. A [..] that no name precedes
    starts from the working directory or the root, which exist. *)
Fixpoint dotdot_after (seen_name : bool) (comps : list str) : bool :=
  match comps with
  | [] => false
  | comp :: rest =>
      if str_eqb comp (u "..")
      then seen_name || dotdot_after seen_name rest
      else dotdot_after
             (seen_name || negb (str_eqb comp [] || str_eqb comp (u "."))) rest
  end.

Definition dotdot_after_name (path : str) : bool :=
  dotdot_after false (split path SLASH).

Definition double_root (path : str) : bool :=
  startswith path [SLASH; SLASH] && negb (startswith path [SLASH; SLASH; SLASH]).

(** The last component names the entry; after a trailing [/] or [/.]
    the kernel wants a directory. *)
Definition names_entry (path : str) : bool :=
  match last (split path SLASH) with
  | Some comp => negb (str_eqb comp [] || str_eqb comp (u "."))
  | None => false
  end.

(** Why [open(path, ...)] stops before it looks at the file system, if
    it does. *)
Definition open_guard (path : str) : option exn :=
  match path_error path with
  | Some e => Some e
  | None =>
      if str_eqb path [] then Some (FileNotFoundError path)
      else if dotdot_after_name path || double_root path || negb (names_entry path)
      then Some (NotModelled "open on a path that abspath may not resolve as the kernel does")
      else None
  end.

(** The same for [os.makedirs(name, exist_ok=True)], which makes the
    directories one by one and may have made some before it finds a
    component that cannot be encoded. *)
Definition makedirs_guard (name : str) : option exn :=
  if str_eqb name [] then Some (FileNotFoundError name)
  else
    match path_error name with
    | Some _ => Some (NotModelled "os.makedirs on a path that cannot be encoded")
    | None =>
        if dotdot_after_name name || double_root name
        then Some (NotModelled "os.makedirs on a path that abspath may not resolve as the kernel does")
        else None
    end.

(** [name] ends with the component [.]: [os.mkdir] then fails with
    [NotADirectoryError] on a regular file, not with [FileExistsError]. *)
Definition ends_in_dot (name : str) : bool :=
  bool_decide (last (components name) = Some (u ".")).

End Fs.

Section World.

(** The state of the chat service and one request to it: the client's
    settings and the messages go in, a completion text or an exception
    comes out. *)
Variable service_state : Type.
Variable chat :
  service_state -> llm_client -> list message -> result (list N) * service_state.

Record world : Type := World {
  cwd : list N;
  files : gmap (list N) node;
  service : service_state;
  trace : list event
}.

Definition log (e : event) (w : world) : world :=
  World (cwd w) (files w) (service w) (trace w ++ [e]).

Definition set_files (fs : gmap (list N) node) (w : world) : world :=
  World (cwd w) fs (service w) (trace w).

Definition set_service (s : service_state) (w : world) : world :=
  World (cwd w) (files w) s (trace w).

(** State and exceptions. *)
Definition M (A : Type) : Type := world -> result A * world.

Definition ret {A} (a : A) : M A := fun w => (inr a, w).

Definition raise {A} (e : exn) : M A := fun w => (inl e, w).

Definition bind {A B} (m : M A) (k : A -> M B) : M B :=
  fun w =>
    match m w with
    | (inr a, w') => k a w'
    | (inl e, w') => (inl e, w')
    end.

Definition lift {A} (r : result A) : M A := fun w => (r, w).

Definition getcwd : M (list N) := fun w => (inr (cwd w), w).

Import Py OsPath.

(** [open(path, "r", encoding="utf-8")]; the handle is the resolved
    path. Opening does not look at the bytes of the file. *)
Definition open_read (path : str) : M str :=
  fun w =>
    let w := log (EvOpenRead path) w in
    match Fs.open_guard path with
    | Some e => (inl e, w)
    | None =>
        let k := abspath (cwd w) path in
        match Fs.check_dirs (files w) path (removelast (Fs.chain k)) with
        | inl e => (inl e, w)
        | inr _ =>
            match Fs.lookup_node (files w) k with
            | Some (File _) | Some Binary => (inr k, w)
            | Some Dir => (inl (IsADirectoryError path), w)
            | None => (inl (FileNotFoundError path), w)
            end
        end
    end.

(** [f.read()] in text mode: the bytes are decoded, and the line ends
    [\r\n] and [\r] would be turned into [\n]. *)
Definition read (handle : str) : M str :=
  fun w =>
    match files w !! handle with
    | Some (File text) =>
        if existsb (N.eqb CR) text
        then (inl (NotModelled "reading a text with a carriage return"), w)
        else (inr text, w)
    | Some Binary => (inl (UnicodeDecodeError handle), w)
    | _ => (inl (NotModelled "read on a closed file"), w)
    end.

(** [llm(messages)] followed by [.content]. *)
Definition call (client : llm_client) (messages : list message) : M str :=
  fun w =>
    let w := log (EvChat client messages) w in
    let '(r, s) := chat (service w) client messages in
    (r, set_service s w).

(** [os.makedirs(name, exist_ok=True)] *)
Definition makedirs (name : str) : M unit :=
  fun w =>
    let w := log (EvMakedirs name) w in
    match Fs.makedirs_guard name with
    | Some e => (inl e, w)
    | None =>
        match Fs.mkdirs (files w) name (Fs.chain (abspath (cwd w) name)) with
        | inl e =>
            (inl (if Fs.ends_in_dot name then NotADirectoryError name else e), w)
        | inr fs => (inr tt, set_files fs w)
        end
    end.

(** [open(path, "w", encoding="utf-8")]: creates or truncates. *)
Definition open_write (path : str) : M str :=
  fun w =>
    let w := log (EvOpenWrite path) w in
    match Fs.open_guard path with
    | Some e => (inl e, w)
    | None =>
        let k := abspath (cwd w) path in
        match Fs.check_dirs (files w) path (removelast (Fs.chain k)) with
        | inl e => (inl e, w)
        | inr _ =>
            match Fs.lookup_node (files w) k with
            | Some Dir => (inl (IsADirectoryError path), w)
            | _ => (inr k, set_files (<[k := File []]> (files w)) w)
            end
        end
    end.

(** [outf.write(text)]: the text is encoded as a whole before anything
    reaches the file, so that a text without an encoding leaves the file
    as [open] left it. *)
Definition write (handle : str) (text : str) : M unit :=
  fun w =>
    let w := log (EvWrite handle text) w in
    match files w !! handle with
    | Some (File old) =>
        if encodable text
        then (inr tt, set_files (<[handle := File (old ++ text)]> (files w)) w)
        else (inl (UnicodeEncodeError text), w)
    | _ => (inl (NotModelled "write on a closed file"), w)
    end.

(** [with open(path, "r", encoding="utf-8") as f: f.read()] *)
Definition read_text (path : str) : M str :=
  bind (open_read path) read.

(** [with open(path, "w", encoding="utf-8") as outf: outf.write(text)] *)
Definition write_text (path text : str) : M unit :=
  bind (open_write path) (fun outf => write outf text).

End World.

Arguments World {service_state}.
Arguments cwd {service_state}.
Arguments files {service_state}.
Arguments service {service_state}.
Arguments trace {service_state}.
Arguments ret {service_state A}.
Arguments raise {service_state A}.
Arguments bind {service_state A B}.
Arguments lift {service_state A}.
Arguments getcwd {service_state}.
Arguments open_read {service_state}.
Arguments read {service_state}.
Arguments call {service_state}.
Arguments makedirs {service_state}.
Arguments open_write {service_state}.
Arguments write {service_state}.
Arguments read_text {service_state}.
Arguments write_text {service_state}.
Arguments log {service_state}.
Arguments set_files {service_state}.
Arguments set_service {service_state}.

Declare Scope py_scope.
Delimit Scope py_scope with py.
Notation "x <- c1 ;; c2" := (bind c1 (fun x => c2))
  (at level 100, c1 at next level, right associativity) : py_scope.
Notation "c1 ;; c2" := (bind c1 (fun _ => c2))
  (at level 100, right associativity) : py_scope.

(** ** [agent/agent.py]

    Line 5 imports [PROMPT_HEADER]. Since the template module does not
    yield a value for it (see [PromptTemplates.PROMPT_HEADER]), the body
    of the module and [generate_tests_for_file] are given for whatever
    string the name is bound to; [import_agent] is the import as it
    actually runs. *)

Module Agent.
Import Py OsPath.
Local Open Scope py_scope.

(** The globals of the module once its body has run. *)
Record agent_module : Type := AgentModule {
  PROMPT_HEADER : list N;
  AZ_ENDPOINT : list N;
  AZ_KEY : list N;
  AZ_DEPLOY : list N;
  llm : llm_client
}.

(** [load_dotenv()]: the variables of the [.env] file are added to the
    environment; variables already set keep their value. *)
Definition load_dotenv (dotenv environ : gmap (list N) (list N))
    : gmap (list N) (list N) :=
  environ ∪ dotenv.

(** [os.getenv(name)]: [None] when the variable is not set. *)
Definition getenv (environ : gmap (list N) (list N)) (name : str) : option str :=
  environ !! name.

(** Truth value of [None] or a string. *)
Definition truthy (v : option str) : bool :=
  match v with
  | Some (_ :: _) => true
  | Some [] | None => false
  end.

(** [get_from_dict_or_env] of [langchain.utils], by which the
    validator of the client class completes a setting: the keyword
    argument when one was passed and is not empty, else the environment
    variable when it is set and not empty, else an exception, which
    pydantic turns into its [ValidationError]. A setting that was not
    passed holds the default of its field, the empty string. *)
Definition get_from_dict_or_env (passed : str)
    (environ : gmap (list N) (list N)) (key env_key : str) : result str :=
  if truthy (Some passed) then inr passed
  else if truthy (getenv environ env_key)
       then inr (default [] (getenv environ env_key))
       else inl (ValidationError key).

(** The call [AzureChatOpenAI(...)] of lines 17 to 24. The class comes
    from [langchain.chat_models]; its validator completes the key, the
    base and the version of the API as above. Line 17 passes no
    [openai_api_version], so the version comes from the variable
    [OPENAI_API_VERSION]. *)
Definition azure_chat_openai (environ : gmap (list N) (list N))
    (deployment_name openai_api_base openai_api_key : str)
    (temperature : Q) (max_tokens request_timeout : Z) : result llm_client :=
  match get_from_dict_or_env openai_api_key environ
          (u "openai_api_key") (u "OPENAI_API_KEY") with
  | inl e => inl e
  | inr api_key =>
      match get_from_dict_or_env openai_api_base environ
              (u "openai_api_base") (u "OPENAI_API_BASE") with
      | inl e => inl e
      | inr api_base =>
          match get_from_dict_or_env [] environ
                  (u "openai_api_version") (u "OPENAI_API_VERSION") with
          | inl e => inl e
          | inr api_version =>
              inr (AzureChatOpenAI deployment_name api_base api_key api_version
                     temperature max_tokens request_timeout)
          end
      end
  end.

(** Lines 7 to 24, after line 5 has bound [PROMPT_HEADER] to
    [prompt_header]. *)
Definition module_body (prompt_header : str)
    (dotenv environ : gmap (list N) (list N)) : result agent_module :=
  let environ := load_dotenv dotenv environ in
  let az_endpoint := getenv environ (u "AZURE_OPENAI_ENDPOINT") in
  let az_key := getenv environ (u "AZURE_OPENAI_KEY") in
  let az_deploy := getenv environ (u "AZURE_OPENAI_DEPLOYMENT") in
  if negb (truthy az_endpoint && truthy az_key && truthy az_deploy)
  then inl (RuntimeError (u "Configure AZURE_OPENAI_* env vars or .env file"))
  else
    let az_endpoint := default [] az_endpoint in
    let az_key := default [] az_key in
    let az_deploy := default [] az_deploy in
    match azure_chat_openai environ az_deploy az_endpoint az_key
            (0 # 1) 1000 120 with
    | inl e => inl e
    | inr client =>
        inr {| PROMPT_HEADER := prompt_header;
               AZ_ENDPOINT := az_endpoint;
               AZ_KEY := az_key;
               AZ_DEPLOY := az_deploy;
               llm := client |}
    end.

(** The variables read on lines 9 to 11. *)
Definition required_names : list (list N) :=
  [u "AZURE_OPENAI_ENDPOINT"; u "AZURE_OPENAI_KEY"; u "AZURE_OPENAI_DEPLOYMENT"].

(** The variables without which the module does not initialise: those
    of lines 9 to 11 and the one that the constructor of line 17 reads. *)
Definition configuration_names : list (list N) :=
  required_names ++ [u "OPENAI_API_VERSION"].

(** Importing the module: line 5 first, then the body. *)
Definition import_agent (dotenv environ : gmap (list N) (list N))
    : result agent_module :=
  match PromptTemplates.PROMPT_HEADER with
  | inl e => inl e
  | inr prompt_header => module_body prompt_header dotenv environ
  end.

(** Line 31, on the resolved path. *)
Definition module_name (cwd src_path : str) : str :=
  fst (splitext (basename (abspath cwd src_path))).

(** Line 50. *)
Definition out_fname (cwd src_path out_dir : str) : str :=
  join out_dir (u "test_" ++ module_name cwd src_path ++ u ".py").

(** The default of the parameter [out_dir]. *)
Definition default_out_dir : str := u ".".

(** Line 35. *)
Definition build_prompt (template src_path source : str) : result str :=
  Format.format template (<[u "src_path" := src_path]> {[ u "source" := source ]}).

(** The prompt builder of the program: the template that importing
    [prompt_templates] binds, filled in as on line 35. *)
Definition prompt_builder (src_path source : str) : result str :=
  match PromptTemplates.PROMPT_HEADER with
  | inl e => inl e
  | inr template => build_prompt template src_path source
  end.

Definition system_text : str :=
  u "You are an expert Python developer and pytest author.".

Definition msg_no_import_pytest : str :=
  u "LLM output did not start with 'import pytest' " ++ [8212%N] ++ u " aborting".

Definition msg_no_tests : str :=
  u "No test functions detected in LLM output".

Section Generate.

Context {service_state : Type}.
Variable chat :
  service_state -> llm_client -> list message -> result (list N) * service_state.

Definition generate_tests_for_file (m : agent_module) (src_path out_dir : str)
    : M service_state str :=
  wd <- getcwd ;;
  let src_path := abspath wd src_path in
  let module_name := fst (splitext (basename src_path)) in
  source <- read_text src_path ;;
  prompt <- lift (build_prompt (PROMPT_HEADER m) src_path source) ;;
  let sys_msg := SystemMessage system_text in
  let user_msg := HumanMessage prompt in
  resp <- call chat (llm m) [sys_msg; user_msg] ;;
  let content := strip resp in
  if negb (startswith content (u "import pytest"))
  then raise (ValueError msg_no_import_pytest)
  else
  if negb (contains content (u "def test_"))
  then raise (ValueError msg_no_tests)
  else
  let out_fname := join out_dir (u "test_" ++ module_name ++ u ".py") in
  makedirs out_dir ;;
  write_text out_fname (content ++ [NL]) ;;
  ret out_fname.

End Generate.

End Agent.

(** ** Names for the stages of a run *)

Section Stages.
Import Py OsPath Agent.
Context {service_state : Type}.

(** The two messages of line 39. *)
Definition request (prompt : str) : list message :=
  [SystemMessage system_text; HumanMessage prompt].

(** The world once the source at [path] has been read and the service
    has answered the request, leaving its own state at [s]. *)
Definition answered (w : world service_state) (m : agent_module)
    (path prompt : str) (s : service_state) : world service_state :=
  set_service s (log (EvChat (llm m) (request prompt)) (log (EvOpenRead path) w)).

(** Lines 50 to 55. *)
Definition write_out (out_dir fname content : str) : M service_state str :=
  (makedirs out_dir ;; write_text fname (content ++ [NL]) ;; ret fname)%py.

(** The events a computation adds to the log. *)
Definition added (w w' : world service_state) (evs : list event) : Prop :=
  trace w' = trace w ++ evs.

End Stages.

(** ** A concrete world

    The repository's own example: [examples/strings.py] under [/repo],
    and a chat service that replays a list of prepared answers. *)

Module Scenario.
Import Py OsPath Agent.

Definition scripted (s : list (result (list N))) (client : llm_client)
    (messages : list message) : result (list N) * list (result (list N)) :=
  match s with
  | r :: s' => (r, s')
  | [] => (inl (ServiceError (u "timeout")), [])
  end.

Definition strings_py : str :=
  flat_map (fun l => l ++ [NL])
    [ u "def reverse(s):";
      u "    return s[::-1]";
      [];
      u "def capitalize_first(s):";
      u "    if not isinstance(s, str):";
      u "        raise TypeError(" ++ [DQUOTE] ++ u "expected str" ++ [DQUOTE] ++ u ")";
      u "    if not s:";
      u "        return s";
      u "    return s[0].upper() + s[1:]" ].

Definition fs0 : gmap (list N) node :=
  <[u "/repo" := Dir]>
    (<[u "/repo/examples" := Dir]>
       {[ u "/repo/examples/strings.py" := File strings_py ]}).

Definition template : str :=
  u "Source file path: {src_path}" ++ [NL] ++ u "Source code:" ++ [NL]
    ++ u "{source}" ++ [NL].

Definition environ0 : gmap (list N) (list N) :=
  <[u "AZURE_OPENAI_ENDPOINT" := u "https://example.openai.azure.com"]>
    (<[u "AZURE_OPENAI_KEY" := u "secret"]>
       (<[u "AZURE_OPENAI_DEPLOYMENT" := u "gpt"]>
          {[ u "OPENAI_API_VERSION" := u "2023-05-15" ]})).

Definition client0 : llm_client :=
  {| deployment_name := u "gpt";
     openai_api_base := u "https://example.openai.azure.com";
     openai_api_key := u "secret";
     openai_api_version := u "2023-05-15";
     temperature := 0 # 1;
     max_tokens := 1000;
     request_timeout := 120 |}.

Definition m0 : agent_module :=
  {| PROMPT_HEADER := template;
     AZ_ENDPOINT := u "https://example.openai.azure.com";
     AZ_KEY := u "secret";
     AZ_DEPLOY := u "gpt";
     llm := client0 |}.

Definition good_answer : str :=
  [NL] ++ u "import pytest" ++ [NL]
    ++ u "import examples.strings as mod" ++ [NL]
    ++ u "def test_reverse_success(): assert mod.reverse('ab') == 'ba'" ++ [NL; NL].

Definition second_answer : str :=
  u "import pytest" ++ [NL]
    ++ u "def test_capitalize_first_success(): pass" ++ [NL].

(** Starts with prose instead of the import. *)
Definition prose_answer : str :=
  u "Here is the module:" ++ [NL] ++ u "import pytest" ++ [NL]
    ++ u "def test_reverse_success(): pass".

(** Starts with the import but defines no test. *)
Definition no_test_answer : str :=
  u "import pytest" ++ [NL] ++ u "def check_reverse(): pass".

(** Passes both checks without importing pytest or defining a test. *)
Definition mock_answer : str :=
  u "import pytest_mock" ++ [NL] ++ u "# def test_ is only mentioned here".

Definition literal_answer : str :=
  u "import pytests" ++ [NL] ++ u "s = 'def test_'".

Definition world_with (answers : list (result (list N)))
    : world (list (result (list N))) :=
  World (u "/repo") fs0 answers [].

Definition src0 : str := u "examples/strings.py".
Definition abs0 : str := u "/repo/examples/strings.py".
Definition prompt0 : str :=
  u "Source file path: /repo/examples/strings.py" ++ [NL] ++ u "Source code:"
    ++ [NL] ++ strings_py ++ [NL].

End Scenario.

(** ** [examples/strings.py]

    The two functions take any Python value. The values modelled are
    [None], booleans, integers, strings, byte strings, lists and tuples.
    [str.upper] maps each character on its own; it is given here on the
    ASCII range, and the mapping of the other code points, which comes
    from the Unicode character database, is a parameter. *)

Module Strings.
Import Py.

#[local] Set Warnings "-register-all".

Inductive value : Type :=
  | VNone
  | VBool (b : bool)
  | VInt (n : Z)
  | VStr (s : list N)
  | VBytes (b : list N)
  | VList (items : list value)
  | VTuple (items : list value).

Inductive raised : Type :=
  | TypeError (msg : list N).

Definition type_name (v : value) : str :=
  match v with
  | VNone => u "NoneType"
  | VBool _ => u "bool"
  | VInt _ => u "int"
  | VStr _ => u "str"
  | VBytes _ => u "bytes"
  | VList _ => u "list"
  | VTuple _ => u "tuple"
  end.

(** [len(v)] of a sequence. *)
Definition len (v : value) : option nat :=
  match v with
  | VStr s => Some (length s)
  | VBytes b => Some (length b)
  | VList items | VTuple items => Some (length items)
  | VNone | VBool _ | VInt _ => None
  end.

(** [isinstance(v, str)] *)
Definition is_str (v : value) : bool :=
  match v with VStr _ => true | _ => false end.

(** [reverse(s)]: [return s[::-1]] *)
Definition reverse (s : value) : raised + value :=
  match s with
  | VStr t => inr (VStr (rev t))
  | VBytes b => inr (VBytes (rev b))
  | VList items => inr (VList (rev items))
  | VTuple items => inr (VTuple (rev items))
  | VNone | VBool _ | VInt _ =>
      inl (TypeError (u "'" ++ type_name s ++ u "' object is not subscriptable"))
  end.

(** Upper case of an ASCII character. *)
Definition ascii_upper (c : N) : N :=
  if ((97 <=? c) && (c <=? 122))%N then (c - 32)%N else c.

Section Upper.

(** The full upper-case mapping of a code point above the ASCII range. *)
Variable upper_table : N -> list N.

(** [t.upper()] *)
Definition upper (t : str) : str :=
  flat_map (fun c => if (c <? 128)%N then [ascii_upper c] else upper_table c) t.

(** [capitalize_first(s)] *)
Definition capitalize_first (s : value) : raised + value :=
  if negb (is_str s) then inl (TypeError (u "expected str"))
  else
    match s with
    | VStr t =>
        if bool_decide (t = []) then inr s
        else inr (VStr (upper (take 1 t) ++ drop 1 t))
    | _ => inl (TypeError (u "expected str"))
    end.

End Upper.

(** A fragment of the Unicode mapping: sharp s becomes [SS], e with
    acute accent becomes its capital, anything else is left alone. *)
Definition sample_upper_table (c : N) : list N :=
  if (c =? 223)%N then [83%N; 83%N]
  else if (c =? 233)%N then [201%N]
  else [c].

End Strings.

(** ** More of the concrete world *)

Module ScenarioMore.
Import Py OsPath Agent Scenario.

(** A template with a field that line 35 does not supply. *)
Definition stray_template : str :=
  u "Source file path: {path}" ++ [NL] ++ u "{source}".

Definition m_stray : agent_module :=
  {| PROMPT_HEADER := stray_template;
     AZ_ENDPOINT := u "https://example.openai.azure.com";
     AZ_KEY := u "secret";
     AZ_DEPLOY := u "gpt";
     llm := client0 |}.

(** A source whose text contains braces and quotes. *)
Definition braces_py : str :=
  u "d = {'a': {1, 2}}" ++ [NL] ++ u "s = f'{d}'" ++ [NL].

(** The answer [good_answer] without its surrounding blank lines. *)
Definition bare_answer : str :=
  u "import pytest" ++ [NL]
    ++ u "import examples.strings as mod" ++ [NL]
    ++ u "def test_reverse_success(): assert mod.reverse('ab') == 'ba'".

(** A service that answers [bare_answer] whatever it is asked. *)
Definition bare_service (s : list (result (list N))) (client : llm_client)
    (messages : list message) : result (list N) * list (result (list N)) :=
  (inr bare_answer, tl s).

(** A path with a NUL character in it, and one with a lone surrogate. *)
Definition nul_src : str := u "examples/strings" ++ [NUL] ++ u ".py".
Definition surrogate_src : str := u "examples/strings" ++ [55296%N] ++ u ".py".

(** The repository with one more source, saved in Latin-1. *)
Definition latin1_src : str := u "examples/latin1.py".
Definition fs_latin1 : gmap (list N) node :=
  <[u "/repo/examples/latin1.py" := Binary]> fs0.

(** An answer that passes both checks and ends with a lone surrogate. *)
Definition surrogate_answer : str :=
  u "import pytest" ++ [NL] ++ u "def test_a(): pass  # " ++ [55296%N].

End ScenarioMore.

(** ** Shape of a normalised path *)

(** A component that [normpath] keeps in an absolute path: not empty,
    neither [.] nor [..], and without a separator. *)
Definition is_name (comp : list N) : Prop :=
  comp <> [] /\ comp <> Py.u "." /\ comp <> Py.u ".." /\ Py.SLASH ∉ comp.

(** * Properties *)

(** ** Strings and paths *)

Section StringFacts.
Import Py OsPath.

Lemma startswith_app (p rest : str) : startswith (p ++ rest) p = true.
Proof.
  induction p as [|a p IH]; simpl; [reflexivity|].
  rewrite N.eqb_refl. exact IH.
Qed.

Lemma contains_unfold (s sub : str) :
  contains s sub =
  startswith s sub || match s with [] => false | _ :: s' => contains s' sub end.
Proof. destruct s; reflexivity. Qed.

Lemma contains_app (a sub b : str) : contains (a ++ sub ++ b) sub = true.
Proof.
  induction a as [|c a IH].
  - simpl. rewrite contains_unfold, startswith_app. reflexivity.
  - simpl. rewrite IH. apply orb_true_r.
Qed.

Lemma rfind_from_notin (s : str) (c : N) :
  c ∉ s -> forall i last, rfind_from i s c last = last.
Proof.
  induction s as [|x s IH]; intros Hc i last; simpl; [reflexivity|].
  apply not_elem_of_cons in Hc as [Hx Hs].
  destruct (N.eqb_spec x c) as [->|_]; [contradiction|].
  apply IH, Hs.
Qed.

Lemma rfind_from_last (x n : str) (c : N) :
  c ∉ n ->
  forall i last, rfind_from i (x ++ c :: n) c last = i + Z.of_nat (length x).
Proof.
  intros Hc. induction x as [|y x IH]; intros i last; simpl.
  - rewrite N.eqb_refl, rfind_from_notin by assumption. lia.
  - rewrite IH. lia.
Qed.

(** Either [c] does not occur, or there is a last occurrence. *)
Lemma last_occurrence (c : N) (s : str) :
  c ∉ s \/ exists x n, s = x ++ c :: n /\ c ∉ n.
Proof.
  induction s as [|y s IH].
  - left. apply not_elem_of_nil.
  - destruct IH as [Hs|(x & n & -> & Hn)].
    + destruct (decide (y = c)) as [->|Hy].
      * right. exists [], s. split; [reflexivity|assumption].
      * left. apply not_elem_of_cons. split; [congruence|assumption].
    + right. exists (y :: x), n. split; [reflexivity|assumption].
Qed.

Lemma rfind_notin (s : str) (c : N) : c ∉ s -> rfind s c = -1.
Proof. intros H. unfold rfind. apply rfind_from_notin, H. Qed.

Lemma rfind_last (x n : str) (c : N) :
  c ∉ n -> rfind (x ++ c :: n) c = Z.of_nat (length x).
Proof. intros H. unfold rfind. rewrite rfind_from_last by assumption. lia. Qed.

Lemma rfind_lower_bound (s : str) (c : N) : -1 <= rfind s c.
Proof.
  destruct (last_occurrence c s) as [H|(x & n & -> & H)].
  - rewrite rfind_notin by assumption. lia.
  - rewrite rfind_last by assumption. lia.
Qed.

Lemma slice_from_app (x n : str) (c : N) :
  slice_from (x ++ c :: n) (Z.of_nat (length x) + 1) = n.
Proof.
  unfold slice_from.
  replace (Z.to_nat (Z.of_nat (length x) + 1)) with (length x + 1)%nat by lia.
  rewrite drop_app_add'; [reflexivity|reflexivity].
Qed.

Lemma basename_no_slash (n : str) : SLASH ∉ n -> basename n = n.
Proof.
  intros H. unfold basename. rewrite rfind_notin by assumption. reflexivity.
Qed.

Lemma basename_after_slash (x n : str) :
  SLASH ∉ n -> basename (x ++ SLASH :: n) = n.
Proof.
  intros H. unfold basename. rewrite rfind_last by assumption.
  apply slice_from_app.
Qed.

Lemma basename_has_no_slash (p : str) : SLASH ∉ basename p.
Proof.
  destruct (last_occurrence SLASH p) as [H|(x & n & -> & H)].
  - rewrite basename_no_slash; assumption.
  - rewrite basename_after_slash; assumption.
Qed.

End StringFacts.

Section PathFacts.
Import Py OsPath.

Lemma startswith_one (s : str) (c : N) :
  startswith s [c] = true -> exists s', s = c :: s'.
Proof.
  destruct s as [|b s]; simpl; [discriminate|].
  destruct (N.eqb_spec c b) as [->|_]; [eauto|discriminate].
Qed.



Lemma splitext_concat (b : str) : fst (splitext b) ++ snd (splitext b) = b.
Proof.
  unfold splitext.
  destruct (_ && _); simpl.
  - apply take_drop.
  - apply app_nil_r.
Qed.

(** The extension is empty, or it is the last dot and what follows it. *)
Lemma splitext_extension (b : str) :
  snd (splitext b) = [] \/
  exists n, snd (splitext b) = DOT :: n /\ DOT ∉ n.
Proof.
  unfold splitext.
  destruct (_ && _) eqn:Hc; simpl; [|left; reflexivity].
  right. apply andb_true_iff in Hc as [Hgt _].
  destruct (last_occurrence DOT b) as [H|(x & n & -> & H)].
  - rewrite rfind_notin in Hgt by assumption.
    pose proof (rfind_lower_bound b SLASH).
    destruct (Z.gtb_spec (-1) (rfind b SLASH)); [lia|discriminate].
  - exists n. split; [|assumption].
    rewrite rfind_last by assumption. unfold slice_from.
    rewrite Nat2Z.id, drop_app_length. reflexivity.
Qed.

Lemma splitext_root_no_slash (b : str) : SLASH ∉ b -> SLASH ∉ fst (splitext b).
Proof.
  intros H Hin. apply H.
  rewrite <- (splitext_concat b). apply elem_of_app. left. exact Hin.
Qed.

Lemma module_name_no_slash (wd src_path : str) :
  SLASH ∉ Agent.module_name wd src_path.
Proof. apply splitext_root_no_slash, basename_has_no_slash. Qed.

Lemma test_file_name_no_slash (name : str) :
  SLASH ∉ name -> SLASH ∉ u "test_" ++ name ++ u ".py".
Proof.
  intros H Hin.
  apply elem_of_app in Hin as [Hin|Hin].
  - vm_compute in Hin. repeat (apply elem_of_cons in Hin as [Hin|Hin]; [discriminate|]).
    apply elem_of_nil in Hin. exact Hin.
  - apply elem_of_app in Hin as [Hin|Hin]; [exact (H Hin)|].
    vm_compute in Hin. repeat (apply elem_of_cons in Hin as [Hin|Hin]; [discriminate|]).
    apply elem_of_nil in Hin. exact Hin.
Qed.

End PathFacts.

(** ** Runs of [generate_tests_for_file] *)

Section Runs.
Import Py OsPath Agent.
Context {service_state : Type}.
Variable chat :
  service_state -> llm_client -> list message -> result (list N) * service_state.

Implicit Types (w : world service_state) (m : agent_module).

Lemma open_read_world (path : str) w (r : result str) w1 :
  open_read path w = (r, w1) -> w1 = log (EvOpenRead path) w.
Proof.
  unfold open_read. cbv zeta. intros H.
  repeat match type of H with
         | context [match ?x with _ => _ end] => destruct x
         end; inversion H; reflexivity.
Qed.

Lemma read_world (handle : str) w (r : result str) w1 :
  read handle w = (r, w1) -> w1 = w.
Proof.
  unfold read. intros H.
  repeat match type of H with
         | context [match ?x with _ => _ end] => destruct x
         end; inversion H; reflexivity.
Qed.

Lemma read_text_world (path : str) w (r : result str) w1 :
  read_text path w = (r, w1) -> w1 = log (EvOpenRead path) w.
Proof.
  unfold read_text, bind. intros H.
  destruct (open_read path w) as [[e|k] w'] eqn:Ho;
    apply open_read_world in Ho as ->.
  - inversion H; reflexivity.
  - apply read_world in H. exact H.
Qed.

Lemma check_dirs_error (fs : gmap (list N) node) (name : str) (dirs : list str)
    (e : exn) :
  Fs.check_dirs fs name dirs = inl e -> is_OSError e = true.
Proof.
  induction dirs as [|d dirs IH]; simpl; [discriminate|].
  destruct (Fs.lookup_node fs d) as [[?| |]|]; intros Hc;
    [inversion Hc; reflexivity|auto|inversion Hc; reflexivity
    |inversion Hc; reflexivity].
Qed.

(** What [open] refuses before it looks at the file system. *)
Lemma open_guard_error (path : str) (e : exn) :
  Fs.open_guard path = Some e ->
  Fs.path_error path = Some e
  \/ (Fs.path_error path = None
      /\ (e = FileNotFoundError path \/ exists what, e = NotModelled what)).
Proof.
  unfold Fs.open_guard.
  destruct (Fs.path_error path) as [e0|]; [intros H; left; exact H|].
  destruct (str_eqb path []).
  - intros H. inversion H. right. split; [reflexivity|]. left. reflexivity.
  - destruct (_ || _); [|discriminate].
    intros H. inversion H. right. split; [reflexivity|]. right. eauto.
Qed.

(** The ways a read can fail: an [OSError] from the file system; the
    exception that [open] raises for a path without an encoding or with
    a NUL; [UnicodeDecodeError] from [read] on a file that is not UTF-8;
    or a read that is outside the embedding. *)
Lemma read_text_error (path : str) w (e : exn) w1 :
  read_text path w = (inl e, w1) ->
  (Fs.path_error path = None /\ is_OSError e = true)
  \/ Fs.path_error path = Some e
  \/ (Fs.path_error path = None
      /\ e = UnicodeDecodeError (abspath (cwd w) path)
      /\ files w !! abspath (cwd w) path = Some Binary)
  \/ (Fs.path_error path = None /\ exists what, e = NotModelled what).
Proof.
  unfold read_text, bind, open_read, read. cbv zeta. intros H.
  destruct (Fs.open_guard path) as [e0|] eqn:Hg.
  { inversion H; subst e0.
    apply open_guard_error in Hg as [Hg|[Hp [-> | [what ->]]]]; eauto 6. }
  assert (Hp : Fs.path_error path = None).
  { unfold Fs.open_guard in Hg. destruct (Fs.path_error path); [discriminate|].
    reflexivity. }
  destruct (Fs.check_dirs _ _ _) as [e'|[]] eqn:Hc.
  - inversion H; subst. left. split; [exact Hp|]. eapply check_dirs_error, Hc.
  - unfold Fs.lookup_node in H. cbn [files log cwd] in H.
    destruct (all_slashes _); [inversion H; left; split; [exact Hp|reflexivity]|].
    destruct (files w !! abspath (cwd w) path) as [[text| |]|] eqn:Hk;
      cbn [files log cwd] in H; try rewrite Hk in H.
    + destruct (existsb (N.eqb CR) text); inversion H. right. right. right. eauto.
    + inversion H. left. split; [exact Hp|reflexivity].
    + inversion H. right. right. left. repeat split; assumption.
    + inversion H. left. split; [exact Hp|reflexivity].
Qed.

(** The run up to the model's answer, then the two checks and the
    output stage. *)
Lemma generate_run m (src_path out_dir : str) w (source prompt resp : str)
    w1 (s : service_state) :
  read_text (abspath (cwd w) src_path) w = (inr source, w1) ->
  build_prompt (PROMPT_HEADER m) (abspath (cwd w) src_path) source = inr prompt ->
  chat (service w) (llm m) (request prompt) = (inr resp, s) ->
  generate_tests_for_file chat m src_path out_dir w =
    (if negb (startswith (strip resp) (u "import pytest"))
     then raise (ValueError msg_no_import_pytest)
     else if negb (contains (strip resp) (u "def test_"))
     then raise (ValueError msg_no_tests)
     else write_out out_dir (out_fname (cwd w) src_path out_dir) (strip resp))
      (answered w m (abspath (cwd w) src_path) prompt s).
Proof.
  intros Hread Hprompt Hchat.
  pose proof (read_text_world _ _ _ _ Hread) as ->.
  unfold generate_tests_for_file, bind at 1, getcwd.
  unfold bind at 1. rewrite Hread.
  unfold bind at 1, lift. rewrite Hprompt.
  unfold bind at 1, call. simpl service. unfold request in Hchat. rewrite Hchat.
  reflexivity.
Qed.

(** A failed read ends the run. *)
Lemma generate_read_failure m (src_path out_dir : str) w (e : exn) w1 :
  read_text (abspath (cwd w) src_path) w = (inl e, w1) ->
  generate_tests_for_file chat m src_path out_dir w
  = (inl e, log (EvOpenRead (abspath (cwd w) src_path)) w).
Proof.
  intros Hread.
  pose proof (read_text_world _ _ _ _ Hread) as ->.
  unfold generate_tests_for_file, bind at 1, getcwd.
  unfold bind at 1. rewrite Hread. reflexivity.
Qed.

End Runs.

Section OutputStage.
Import Py OsPath Agent.
Context {service_state : Type}.
Implicit Types (w : world service_state).

Lemma makedirs_inv (name : str) w w' :
  makedirs name w = (inr tt, w') ->
  exists fs,
    Fs.mkdirs (files w) name (Fs.chain (abspath (cwd w) name)) = inr fs
    /\ w' = set_files fs (log (EvMakedirs name) w).
Proof.
  unfold makedirs. cbv zeta. cbn [files cwd log].
  destruct (Fs.makedirs_guard name); [discriminate|].
  destruct (Fs.mkdirs _ _ _) as [e|fs]; [discriminate|].
  intros H. inversion H. exists fs. split; reflexivity.
Qed.

Lemma open_write_inv (path : str) w (k : str) w' :
  open_write path w = (inr k, w') ->
  k = abspath (cwd w) path
  /\ Fs.lookup_node (files w) k <> Some Dir
  /\ w' = set_files (<[k := File []]> (files w)) (log (EvOpenWrite path) w).
Proof.
  unfold open_write. cbv zeta. cbn [files cwd log].
  destruct (Fs.open_guard path); [discriminate|].
  destruct (Fs.check_dirs _ _ _) as [e|[]]; [discriminate|].
  destruct (Fs.lookup_node _ _) as [[text| |]|] eqn:Hk; intros H;
    inversion H; subst; (split; [reflexivity|]); (split; [|reflexivity]);
    rewrite Hk; discriminate.
Qed.

(** Writing to a file just opened for writing leaves exactly [text],
    when [text] has an encoding, and the file empty otherwise. *)
Lemma write_after_open (k text : str) (fs : gmap (list N) node) w :
  write k text (set_files (<[k := File []]> fs) w)
  = if encodable text
    then (inr tt, set_files (<[k := File text]> fs) (log (EvWrite k text) w))
    else (inl (UnicodeEncodeError text),
          set_files (<[k := File []]> fs) (log (EvWrite k text) w)).
Proof.
  unfold write. cbv zeta. cbn [files log set_files cwd service trace].
  rewrite lookup_insert_eq. cbn [app].
  rewrite insert_insert_eq. destruct (encodable text); reflexivity.
Qed.

(** A write succeeds on a text that has an encoding only. *)
Lemma write_inv (k text : str) w w' :
  write k text w = (inr tt, w') -> encodable text = true.
Proof.
  unfold write. cbv zeta. cbn [files log].
  destruct (files w !! k) as [[old| |]|]; try discriminate.
  destruct (encodable text); [reflexivity|discriminate].
Qed.

End OutputStage.

(** ** The generator: validation, ordering of effects, output *)

Section Generator.
Import Py OsPath Agent.
Context {service_state : Type}.
Variable chat :
  service_state -> llm_client -> list message -> result (list N) * service_state.

Implicit Types (w : world service_state) (m : agent_module).

Lemma answered_files w m (path prompt : str) (s : service_state) :
  files (answered w m path prompt s) = files w.
Proof. reflexivity. Qed.

Lemma answered_trace w m (path prompt : str) (s : service_state) :
  trace (answered w m path prompt s)
  = trace w ++ [EvOpenRead path; EvChat (llm m) (request prompt)].
Proof. unfold answered. cbn [trace set_service log]. rewrite <- app_assoc. reflexivity. Qed.

(** C4. When the model's answer, stripped, does not start with
    [import pytest], the call raises [ValueError]; the file system is
    left as it was, and the only effects attempted are the read of the
    source and the request to the model: no directory is created and no
    file is opened or written. *)
Theorem missing_import_is_rejected m (src_path out_dir : str) w
    (source prompt resp : str) w1 (s : service_state) :
  read_text (abspath (cwd w) src_path) w = (inr source, w1) ->
  build_prompt (PROMPT_HEADER m) (abspath (cwd w) src_path) source = inr prompt ->
  chat (service w) (llm m) (request prompt) = (inr resp, s) ->
  startswith (strip resp) (u "import pytest") = false ->
  exists w',
    generate_tests_for_file chat m src_path out_dir w
    = (inl (ValueError msg_no_import_pytest), w')
    /\ files w' = files w
    /\ added w w' [EvOpenRead (abspath (cwd w) src_path);
                   EvChat (llm m) (request prompt)]
    /\ filter (fun e => is_output e = true) (trace w')
       = filter (fun e => is_output e = true) (trace w).
Proof.
  intros Hread Hprompt Hchat Hstart.
  exists (answered w m (abspath (cwd w) src_path) prompt s).
  rewrite (generate_run chat m src_path out_dir w source prompt resp w1 s)
    by assumption.
  rewrite Hstart. cbn [negb]. unfold added.
  rewrite answered_trace, answered_files.
  repeat split.
  rewrite filter_app. cbn. apply app_nil_r.
Qed.

(** C5. When the model's answer, stripped, does not contain [def test_],
    the call raises [ValueError], also when the answer starts with
    [import pytest] (the second check then raises); nothing is written. *)
Theorem missing_test_is_rejected m (src_path out_dir : str) w
    (source prompt resp : str) w1 (s : service_state) :
  read_text (abspath (cwd w) src_path) w = (inr source, w1) ->
  build_prompt (PROMPT_HEADER m) (abspath (cwd w) src_path) source = inr prompt ->
  chat (service w) (llm m) (request prompt) = (inr resp, s) ->
  contains (strip resp) (u "def test_") = false ->
  exists w',
    generate_tests_for_file chat m src_path out_dir w
    = (inl (ValueError (if startswith (strip resp) (u "import pytest")
                        then msg_no_tests else msg_no_import_pytest)), w')
    /\ files w' = files w
    /\ filter (fun e => is_output e = true) (trace w')
       = filter (fun e => is_output e = true) (trace w).
Proof.
  intros Hread Hprompt Hchat Hcont.
  exists (answered w m (abspath (cwd w) src_path) prompt s).
  rewrite (generate_run chat m src_path out_dir w source prompt resp w1 s)
    by assumption.
  rewrite Hcont, answered_trace, answered_files, filter_app.
  split; [|split; [reflexivity|cbn; apply app_nil_r]].
  destruct (startswith (strip resp) (u "import pytest")); reflexivity.
Qed.

(** C6, as amended. When reading the source fails, the call fails with
    the error of the read and the only effect attempted is the read: the
    model is not called and the service's state is untouched. A path at
    which there is nothing makes the read fail. The error is an I/O
    error ([OSError]) unless [open] refuses the path, which it does
    with [UnicodeEncodeError] or [ValueError] when the path has a
    character without an encoding or a NUL, or the bytes of the file are
    not UTF-8, on which [read] raises [UnicodeDecodeError]. *)
Theorem read_failure_precedes_model_call m (src_path out_dir : str) w :
  (forall e w1,
     read_text (abspath (cwd w) src_path) w = (inl e, w1) ->
     (exists w',
        generate_tests_for_file chat m src_path out_dir w = (inl e, w')
        /\ added w w' [EvOpenRead (abspath (cwd w) src_path)]
        /\ filter (fun ev => is_chat ev = true) (trace w')
           = filter (fun ev => is_chat ev = true) (trace w)
        /\ service w' = service w
        /\ files w' = files w)
     /\ ((Fs.path_error (abspath (cwd w) src_path) = None /\ is_OSError e = true)
         \/ Fs.path_error (abspath (cwd w) src_path) = Some e
         \/ (Fs.path_error (abspath (cwd w) src_path) = None
             /\ e = UnicodeDecodeError (abspath (cwd w) (abspath (cwd w) src_path))
             /\ files w !! abspath (cwd w) (abspath (cwd w) src_path)
                = Some Binary)
         \/ (Fs.path_error (abspath (cwd w) src_path) = None
             /\ exists what, e = NotModelled what)))
  /\ (Fs.lookup_node (files w) (abspath (cwd w) (abspath (cwd w) src_path)) = None ->
      exists e w1,
        read_text (abspath (cwd w) src_path) w = (inl e, w1)
        /\ (Fs.open_guard (abspath (cwd w) src_path) = None -> is_OSError e = true)).
Proof.
  split.
  - intros e w1 Hread. split.
    + exists (log (EvOpenRead (abspath (cwd w) src_path)) w).
      rewrite (generate_read_failure chat m src_path out_dir w e w1) by assumption.
      split; [reflexivity|].
      cbn [trace log service files]. rewrite filter_app. cbn.
      rewrite app_nil_r. repeat split.
    + eapply read_text_error, Hread.
  - intros Hnone. unfold read_text, bind, open_read. cbv zeta.
    cbn [files cwd log].
    destruct (Fs.open_guard _) as [e0|].
    { exists e0. eexists. split; [reflexivity|discriminate]. }
    destruct (Fs.check_dirs _ _ _) as [e|[]] eqn:Hc.
    { exists e. eexists. split; [reflexivity|].
      intros _. eapply check_dirs_error, Hc. }
    rewrite Hnone. eexists. eexists. split; [reflexivity|]. reflexivity.
Qed.

(** C1, as amended. When the source is read, the prompt is built, the
    model's answer, stripped, starts with [import pytest] and contains
    [def test_], the output directory can be created, the output file
    can be opened for writing and the write succeeds, the call returns
    [join(out_dir, "test_" + module_name + ".py")] and the file at that
    path holds the stripped answer followed by one newline. *)
Theorem valid_answer_is_written m (src_path out_dir : str) w
    (source prompt resp : str) w1 (s : service_state) w2 (k : str) w3 w4 :
  read_text (abspath (cwd w) src_path) w = (inr source, w1) ->
  build_prompt (PROMPT_HEADER m) (abspath (cwd w) src_path) source = inr prompt ->
  chat (service w) (llm m) (request prompt) = (inr resp, s) ->
  startswith (strip resp) (u "import pytest") = true ->
  contains (strip resp) (u "def test_") = true ->
  makedirs out_dir (answered w m (abspath (cwd w) src_path) prompt s) = (inr tt, w2) ->
  open_write (out_fname (cwd w) src_path out_dir) w2 = (inr k, w3) ->
  write k (strip resp ++ [NL]) w3 = (inr tt, w4) ->
  generate_tests_for_file chat m src_path out_dir w
  = (inr (join out_dir (u "test_" ++ module_name (cwd w) src_path ++ u ".py")), w4)
  /\ files w4 !! abspath (cwd w)
                   (join out_dir (u "test_" ++ module_name (cwd w) src_path ++ u ".py"))
     = Some (File (strip resp ++ [NL])).
Proof.
  intros Hread Hprompt Hchat Hstart Hcont Hmk Hopen Hwrite.
  rewrite (generate_run chat m src_path out_dir w source prompt resp w1 s)
    by assumption.
  rewrite Hstart, Hcont. cbn [negb].
  unfold write_out, bind at 1. rewrite Hmk.
  unfold bind at 1, write_text, bind at 1. rewrite Hopen, Hwrite.
  split; [reflexivity|].
  pose proof (write_inv _ _ _ _ Hwrite) as Henc.
  apply makedirs_inv in Hmk as (fs & _ & ->).
  apply open_write_inv in Hopen as (-> & _ & ->).
  cbn [files cwd log set_files answered set_service service trace] in Hwrite.
  rewrite write_after_open, Henc in Hwrite.
  inversion Hwrite. cbn [files set_files log]. apply lookup_insert_eq.
Qed.

(** C9. Both checks are tests on the text alone. An answer that, once
    stripped, begins with the characters [import pytest], whatever
    follows them, and in which [def test_] occurs anywhere passes both
    and goes on to the output stage. *)
Theorem checks_are_textual m (src_path out_dir : str) w
    (source prompt resp : str) w1 (s : service_state) (rest a b : str) :
  read_text (abspath (cwd w) src_path) w = (inr source, w1) ->
  build_prompt (PROMPT_HEADER m) (abspath (cwd w) src_path) source = inr prompt ->
  chat (service w) (llm m) (request prompt) = (inr resp, s) ->
  strip resp = u "import pytest" ++ rest ->
  strip resp = a ++ u "def test_" ++ b ->
  startswith (strip resp) (u "import pytest") = true
  /\ contains (strip resp) (u "def test_") = true
  /\ generate_tests_for_file chat m src_path out_dir w
     = write_out out_dir (out_fname (cwd w) src_path out_dir) (strip resp)
         (answered w m (abspath (cwd w) src_path) prompt s).
Proof.
  intros Hread Hprompt Hchat Hpre Hsub.
  assert (Hstart : startswith (strip resp) (u "import pytest") = true)
    by (rewrite Hpre; apply startswith_app).
  assert (Hcont : contains (strip resp) (u "def test_") = true)
    by (rewrite Hsub; apply contains_app).
  repeat split; try assumption.
  rewrite (generate_run chat m src_path out_dir w source prompt resp w1 s)
    by assumption.
  rewrite Hstart, Hcont. reflexivity.
Qed.

End Generator.

(** ** Directories *)

Section FsFacts.
Import Py OsPath.
Implicit Types (fs : gmap (list N) node) (name d k : list N) (dirs : list (list N)).

Lemma lookup_node_insert_dir fs d k :
  Fs.lookup_node fs d = Some Dir ->
  Fs.lookup_node (<[k := Dir]> fs) d = Some Dir.
Proof.
  unfold Fs.lookup_node. destruct (all_slashes d); [reflexivity|].
  intros H. destruct (decide (k = d)) as [->|Hne].
  - apply lookup_insert_eq.
  - rewrite lookup_insert_ne by assumption. exact H.
Qed.

Lemma lookup_node_insert_eq_dir fs d :
  Fs.lookup_node (<[d := Dir]> fs) d = Some Dir.
Proof.
  unfold Fs.lookup_node. destruct (all_slashes d); [reflexivity|].
  apply lookup_insert_eq.
Qed.

(** Inserting a file at a path that was not a directory leaves every
    directory a directory. *)
Lemma lookup_node_insert_file fs d k (text : list N) :
  Fs.lookup_node fs k <> Some Dir ->
  Fs.lookup_node fs d = Some Dir ->
  Fs.lookup_node (<[k := File text]> fs) d = Some Dir.
Proof.
  intros Hk Hd. unfold Fs.lookup_node in *.
  destruct (all_slashes d) eqn:Hs; [reflexivity|].
  destruct (decide (k = d)) as [->|Hne].
  - rewrite Hs in Hk. contradiction.
  - rewrite lookup_insert_ne by assumption. exact Hd.
Qed.

Lemma mkdirs_keeps_dir fs name dirs d fs' :
  Fs.lookup_node fs d = Some Dir ->
  Fs.mkdirs fs name dirs = inr fs' ->
  Fs.lookup_node fs' d = Some Dir.
Proof.
  revert fs. induction dirs as [|x dirs IH]; intros fs Hd; simpl.
  - intros H. inversion H; subst. exact Hd.
  - destruct (Fs.lookup_node fs x) as [[text| |]|]; [discriminate| |discriminate|].
    + apply IH, Hd.
    + apply IH, lookup_node_insert_dir, Hd.
Qed.

Lemma mkdirs_all_dirs fs name dirs fs' :
  Fs.mkdirs fs name dirs = inr fs' ->
  forall d, d ∈ dirs -> Fs.lookup_node fs' d = Some Dir.
Proof.
  revert fs. induction dirs as [|x dirs IH]; intros fs H d Hin.
  - apply elem_of_nil in Hin. contradiction.
  - simpl in H. apply elem_of_cons in Hin as [->|Hin].
    + destruct (Fs.lookup_node fs x) as [[text| |]|] eqn:Hx;
        [discriminate| |discriminate|].
      * eapply mkdirs_keeps_dir; eassumption.
      * eapply mkdirs_keeps_dir; [apply lookup_node_insert_eq_dir|eassumption].
    + destruct (Fs.lookup_node fs x) as [[text| |]|];
        [discriminate| |discriminate|];
        eapply IH; eassumption.
Qed.

(** [makedirs] on directories that all exist changes nothing. *)
Lemma mkdirs_existing fs name dirs :
  (forall d, d ∈ dirs -> Fs.lookup_node fs d = Some Dir) ->
  Fs.mkdirs fs name dirs = inr fs.
Proof.
  induction dirs as [|x dirs IH]; intros H; simpl; [reflexivity|].
  rewrite (H x) by (apply elem_of_cons; left; reflexivity).
  apply IH. intros d Hd. apply H, elem_of_cons. right. exact Hd.
Qed.

Lemma check_dirs_ok fs name dirs :
  Fs.check_dirs fs name dirs = inr tt <->
  forall d, d ∈ dirs -> Fs.lookup_node fs d = Some Dir.
Proof.
  induction dirs as [|x dirs IH]; simpl.
  - split; [|reflexivity]. intros _ d Hd. apply elem_of_nil in Hd. contradiction.
  - split.
    + intros H d Hd.
      destruct (Fs.lookup_node fs x) as [[text| |]|] eqn:Hx; try discriminate.
      apply elem_of_cons in Hd as [->|Hd]; [exact Hx|].
      apply IH; assumption.
    + intros H.
      rewrite (H x) by (apply elem_of_cons; left; reflexivity).
      apply IH. intros d Hd. apply H, elem_of_cons. right. exact Hd.
Qed.

End FsFacts.

Ltac trace_done :=
  unfold ret, log, set_files; cbn [trace];
  repeat rewrite <- app_assoc; cbn [app];
  eexists; split; [reflexivity | repeat constructor].

Section OutputRuns.
Import Py OsPath Agent.
Context {service_state : Type}.
Implicit Types (w : world service_state).

(** The output stage once the directories are there and the file can be
    opened: the file is truncated, and written when its text has an
    encoding. *)
Lemma write_out_opened (out_dir fname content : str) w (fs : gmap (list N) node) :
  Fs.makedirs_guard out_dir = None ->
  Fs.mkdirs (files w) out_dir (Fs.chain (abspath (cwd w) out_dir)) = inr fs ->
  Fs.open_guard fname = None ->
  Fs.check_dirs fs fname (removelast (Fs.chain (abspath (cwd w) fname))) = inr tt ->
  Fs.lookup_node fs (abspath (cwd w) fname) <> Some Dir ->
  write_out out_dir fname content w
  = (if encodable (content ++ [NL]) then inr fname
     else inl (UnicodeEncodeError (content ++ [NL])),
     World (cwd w)
       (<[abspath (cwd w) fname
          := File (if encodable (content ++ [NL]) then content ++ [NL] else [])]> fs)
       (service w)
       (trace w ++ [EvMakedirs out_dir; EvOpenWrite fname;
                    EvWrite (abspath (cwd w) fname) (content ++ [NL])])).
Proof.
  intros Hout Hmk Hname Hchk Hk.
  unfold write_out, bind at 1, makedirs. cbv zeta. cbn [files cwd log].
  rewrite Hout, Hmk.
  unfold bind at 1, write_text, bind at 1, open_write. cbv zeta.
  cbn [files cwd log set_files]. rewrite Hname, Hchk.
  destruct (Fs.lookup_node fs (abspath (cwd w) fname)) as [[text| |]|] eqn:Hn;
    [| contradiction | |];
    unfold write; cbv zeta; cbn [files cwd log set_files service trace];
    rewrite lookup_insert_eq; cbn [app];
    destruct (encodable (content ++ [NL]));
    try rewrite insert_insert_eq; unfold ret, set_files, log;
    cbn [files cwd service trace];
    repeat rewrite <- app_assoc; reflexivity.
Qed.

(** The world after a successful output stage. *)
Lemma write_out_run (out_dir fname content : str) w (fs : gmap (list N) node) :
  Fs.makedirs_guard out_dir = None ->
  Fs.mkdirs (files w) out_dir (Fs.chain (abspath (cwd w) out_dir)) = inr fs ->
  Fs.open_guard fname = None ->
  Fs.check_dirs fs fname (removelast (Fs.chain (abspath (cwd w) fname))) = inr tt ->
  Fs.lookup_node fs (abspath (cwd w) fname) <> Some Dir ->
  encodable (content ++ [NL]) = true ->
  write_out out_dir fname content w
  = (inr fname,
     World (cwd w)
       (<[abspath (cwd w) fname := File (content ++ [NL])]> fs)
       (service w)
       (trace w ++ [EvMakedirs out_dir; EvOpenWrite fname;
                    EvWrite (abspath (cwd w) fname) (content ++ [NL])])).
Proof.
  intros Hout Hmk Hname Hchk Hk Henc.
  rewrite (write_out_opened out_dir fname content w fs) by assumption.
  rewrite Henc. reflexivity.
Qed.

(** How far the output stage has got when the file is opened. *)
Lemma write_out_stages (out_dir fname content : str) w (r : result str) w' :
  write_out out_dir fname content w = (r, w') ->
  (exists e, r = inl e /\ w' = log (EvMakedirs out_dir) w)
  \/ (exists e fs,
        Fs.mkdirs (files w) out_dir (Fs.chain (abspath (cwd w) out_dir)) = inr fs
        /\ r = inl e
        /\ w' = log (EvOpenWrite fname) (set_files fs (log (EvMakedirs out_dir) w)))
  \/ (exists fs,
        Fs.makedirs_guard out_dir = None
        /\ Fs.mkdirs (files w) out_dir (Fs.chain (abspath (cwd w) out_dir)) = inr fs
        /\ Fs.open_guard fname = None
        /\ Fs.check_dirs fs fname (removelast (Fs.chain (abspath (cwd w) fname)))
           = inr tt
        /\ Fs.lookup_node fs (abspath (cwd w) fname) <> Some Dir).
Proof.
  intros H.
  unfold write_out, bind at 1, makedirs in H. cbv zeta in H.
  cbn [files cwd log] in H.
  destruct (Fs.makedirs_guard out_dir) as [e|] eqn:Hout;
    [left; inversion H; eauto|].
  destruct (Fs.mkdirs (files w) out_dir (Fs.chain (abspath (cwd w) out_dir)))
    as [e|fs] eqn:Hmk; [left; inversion H; eauto|].
  right.
  unfold bind at 1, write_text, bind at 1, open_write in H. cbv zeta in H.
  cbn [files cwd log set_files] in H.
  destruct (Fs.open_guard fname) as [e|] eqn:Hname;
    [left; inversion H; eauto 6|].
  destruct (Fs.check_dirs fs fname
              (removelast (Fs.chain (abspath (cwd w) fname))))
    as [e|[]] eqn:Hchk; [left; inversion H; eauto 6|].
  destruct (Fs.lookup_node fs (abspath (cwd w) fname)) as [[text| |]|] eqn:Hk.
  2: { left. inversion H. exists (IsADirectoryError fname), fs.
       repeat split. }
  all: right; exists fs; repeat (split; [first [reflexivity|assumption]|]);
    rewrite ?Hk; discriminate.
Qed.

Lemma write_out_inv (out_dir fname content : str) w (p : str) w' :
  write_out out_dir fname content w = (inr p, w') ->
  exists fs,
    Fs.makedirs_guard out_dir = None
    /\ Fs.mkdirs (files w) out_dir (Fs.chain (abspath (cwd w) out_dir)) = inr fs
    /\ Fs.open_guard fname = None
    /\ Fs.check_dirs fs fname (removelast (Fs.chain (abspath (cwd w) fname))) = inr tt
    /\ Fs.lookup_node fs (abspath (cwd w) fname) <> Some Dir
    /\ encodable (content ++ [NL]) = true.
Proof.
  intros H.
  destruct (write_out_stages _ _ _ _ _ _ H)
    as [(e & He & _)|[(e & fs & _ & He & _)|(fs & Hout & Hmk & Hname & Hchk & Hk)]];
    [discriminate|discriminate|].
  exists fs. repeat (split; [assumption|]).
  rewrite (write_out_opened out_dir fname content w fs) in H by assumption.
  destruct (encodable (content ++ [NL])); [reflexivity|discriminate].
Qed.

(** Whatever its outcome, the output stage logs output events only. *)
Lemma write_out_trace (out_dir fname content : str) w (r : result str) w' :
  write_out out_dir fname content w = (r, w') ->
  exists evs, trace w' = trace w ++ evs /\ Forall (fun e => is_chat e = false) evs.
Proof.
  intros H.
  destruct (write_out_stages _ _ _ _ _ _ H)
    as [(e & _ & ->)|[(e & fs & _ & _ & ->)
                     |(fs & Hout & Hmk & Hname & Hchk & Hk)]];
    [trace_done|trace_done|].
  rewrite (write_out_opened out_dir fname content w fs) in H by assumption.
  inversion H. cbn [trace]. eexists. split; [reflexivity|repeat constructor].
Qed.

(** The output stage does not talk to the service. *)
Lemma write_out_service (out_dir fname content : str) w (r : result str) w' :
  write_out out_dir fname content w = (r, w') -> service w' = service w.
Proof.
  intros H.
  destruct (write_out_stages _ _ _ _ _ _ H)
    as [(e & _ & ->)|[(e & fs & _ & _ & ->)
                     |(fs & Hout & Hmk & Hname & Hchk & Hk)]];
    [reflexivity|reflexivity|].
  rewrite (write_out_opened out_dir fname content w fs) in H by assumption.
  inversion H. reflexivity.
Qed.

End OutputRuns.

Section Requests.
Import Py OsPath Agent.
Context {service_state : Type}.
Variable chat :
  service_state -> llm_client -> list message -> result (list N) * service_state.

Implicit Types (w : world service_state) (m : agent_module).

Lemma generate_prompt_failure m (src_path out_dir : str) w (source : str) w1
    (e : exn) :
  read_text (abspath (cwd w) src_path) w = (inr source, w1) ->
  build_prompt (PROMPT_HEADER m) (abspath (cwd w) src_path) source = inl e ->
  generate_tests_for_file chat m src_path out_dir w
  = (inl e, log (EvOpenRead (abspath (cwd w) src_path)) w).
Proof.
  intros Hread Hprompt.
  pose proof (read_text_world _ _ _ _ Hread) as ->.
  unfold generate_tests_for_file, bind at 1, getcwd.
  unfold bind at 1. rewrite Hread.
  unfold bind at 1, lift. rewrite Hprompt. reflexivity.
Qed.

Lemma generate_chat_failure m (src_path out_dir : str) w (source prompt : str)
    w1 (e : exn) (s : service_state) :
  read_text (abspath (cwd w) src_path) w = (inr source, w1) ->
  build_prompt (PROMPT_HEADER m) (abspath (cwd w) src_path) source = inr prompt ->
  chat (service w) (llm m) (request prompt) = (inl e, s) ->
  generate_tests_for_file chat m src_path out_dir w
  = (inl e, answered w m (abspath (cwd w) src_path) prompt s).
Proof.
  intros Hread Hprompt Hchat.
  pose proof (read_text_world _ _ _ _ Hread) as ->.
  unfold generate_tests_for_file, bind at 1, getcwd.
  unfold bind at 1. rewrite Hread.
  unfold bind at 1, lift. rewrite Hprompt.
  unfold bind at 1, call. simpl service. unfold request in Hchat. rewrite Hchat.
  reflexivity.
Qed.

(** What the module holds once its body has run. *)
Lemma module_body_inv (prompt_header : str)
    (dotenv environ : gmap (list N) (list N)) m :
  module_body prompt_header dotenv environ = inr m ->
  exists endpoint key deploy version : str,
    load_dotenv dotenv environ !! u "AZURE_OPENAI_ENDPOINT" = Some endpoint
    /\ load_dotenv dotenv environ !! u "AZURE_OPENAI_KEY" = Some key
    /\ load_dotenv dotenv environ !! u "AZURE_OPENAI_DEPLOYMENT" = Some deploy
    /\ load_dotenv dotenv environ !! u "OPENAI_API_VERSION" = Some version
    /\ endpoint <> [] /\ key <> [] /\ deploy <> [] /\ version <> []
    /\ m = AgentModule prompt_header endpoint key deploy
             (AzureChatOpenAI deploy endpoint key version (0 # 1) 1000 120).
Proof.
  unfold module_body. cbv zeta. unfold getenv.
  destruct (load_dotenv dotenv environ !! u "AZURE_OPENAI_ENDPOINT")
    as [[|c1 endpoint]|]; try discriminate.
  destruct (load_dotenv dotenv environ !! u "AZURE_OPENAI_KEY")
    as [[|c2 key]|]; try discriminate.
  destruct (load_dotenv dotenv environ !! u "AZURE_OPENAI_DEPLOYMENT")
    as [[|c3 deploy]|]; try discriminate.
  cbn [truthy andb negb default].
  unfold azure_chat_openai, get_from_dict_or_env, getenv. cbn [truthy].
  destruct (load_dotenv dotenv environ !! u "OPENAI_API_VERSION")
    as [[|c4 version]|]; try discriminate.
  cbn [truthy default]. intros H. inversion H.
  exists (c1 :: endpoint), (c2 :: key), (c3 :: deploy), (c4 :: version).
  repeat split; discriminate.
Qed.

Lemma module_body_client (prompt_header : str)
    (dotenv environ : gmap (list N) (list N)) m :
  module_body prompt_header dotenv environ = inr m ->
  PROMPT_HEADER m = prompt_header
  /\ temperature (llm m) = 0 # 1
  /\ max_tokens (llm m) = 1000
  /\ request_timeout (llm m) = 120.
Proof.
  intros H. apply module_body_inv in H as (e & k & d & v & _ & _ & _ & _ & _ & _ & _ & _ & ->).
  repeat split.
Qed.

(** Once the source is read and the prompt built, the request to the
    model is the second effect of the call and its only request, and the
    service is left in the state in which that request has put it. *)
Lemma generate_requests_once m (src_path out_dir : str) w (source prompt : str)
    w1 (r : result str) w' :
  read_text (abspath (cwd w) src_path) w = (inr source, w1) ->
  build_prompt (PROMPT_HEADER m) (abspath (cwd w) src_path) source = inr prompt ->
  generate_tests_for_file chat m src_path out_dir w = (r, w') ->
  exists evs',
    trace w' = trace w ++ EvOpenRead (abspath (cwd w) src_path)
                          :: EvChat (llm m) (request prompt) :: evs'
    /\ Forall (fun ev => is_chat ev = false) evs'
    /\ service w' = snd (chat (service w) (llm m) (request prompt)).
Proof.
  intros Hread Hprompt Hgen.
  destruct (chat (service w) (llm m) (request prompt)) as [[e|resp] s] eqn:Hchat.
  { rewrite (generate_chat_failure m src_path out_dir w source prompt w1 e s)
      in Hgen by assumption.
    inversion Hgen; subst. exists [].
    split; [apply answered_trace|]. split; [constructor|reflexivity]. }
  rewrite (generate_run chat m src_path out_dir w source prompt resp w1 s)
    in Hgen by assumption.
  destruct (negb (startswith (strip resp) (u "import pytest"))).
  { inversion Hgen; subst. exists [].
    split; [apply answered_trace|]. split; [constructor|reflexivity]. }
  destruct (negb (contains (strip resp) (u "def test_"))).
  { inversion Hgen; subst. exists [].
    split; [apply answered_trace|]. split; [constructor|reflexivity]. }
  pose proof (write_out_service _ _ _ _ _ _ Hgen) as Hs.
  apply write_out_trace in Hgen as (evs' & Htr & Hevs).
  exists evs'.
  split; [rewrite Htr, answered_trace, <- app_assoc; reflexivity|].
  split; [exact Hevs|]. rewrite Hs. reflexivity.
Qed.

(** C7. A call of [generate_tests_for_file] that has read the source
    and built the prompt sends one request to the model, right after the
    read: the effects of the call are the read, then that request, then
    effects that are no requests, and the service ends in the state in
    which the request has put it. Every request that a call sends goes
    through the client of the module, whose temperature is 0.0, whose
    [max_tokens] is 1000 and whose [request_timeout] is 120, and carries
    exactly two messages, the system message with the fixed text and
    then the user message holding the prompt built from the resolved
    path and the text of the source. *)
Theorem model_request_shape (prompt_header : str)
    (dotenv environ : gmap (list N) (list N)) m
    (src_path out_dir : str) w (r : result str) w' :
  module_body prompt_header dotenv environ = inr m ->
  generate_tests_for_file chat m src_path out_dir w = (r, w') ->
  (temperature (llm m) = 0 # 1
   /\ max_tokens (llm m) = 1000
   /\ request_timeout (llm m) = 120)
  /\ exists evs,
       added w w' evs
       /\ (forall client messages,
             EvChat client messages ∈ evs ->
             client = llm m
             /\ exists source prompt w1,
                  read_text (abspath (cwd w) src_path) w = (inr source, w1)
                  /\ build_prompt prompt_header (abspath (cwd w) src_path) source
                     = inr prompt
                  /\ messages
                     = [SystemMessage
                          (u "You are an expert Python developer and pytest author.");
                        HumanMessage prompt])
       /\ (forall source prompt w1,
             read_text (abspath (cwd w) src_path) w = (inr source, w1) ->
             build_prompt prompt_header (abspath (cwd w) src_path) source
             = inr prompt ->
             exists evs',
               evs = EvOpenRead (abspath (cwd w) src_path)
                     :: EvChat (llm m)
                          [SystemMessage
                             (u "You are an expert Python developer and pytest author.");
                           HumanMessage prompt]
                     :: evs'
               /\ Forall (fun ev => is_chat ev = false) evs'
               /\ service w'
                  = snd (chat (service w) (llm m)
                           [SystemMessage
                              (u "You are an expert Python developer and pytest author.");
                            HumanMessage prompt])).
Proof.
  intros Hm Hgen.
  apply module_body_client in Hm as (Hhdr & Htemp & Hmax & Htime).
  subst prompt_header.
  split; [repeat split; assumption|].
  unfold added.
  destruct (read_text (abspath (cwd w) src_path) w) as [[e|source] w1] eqn:Hread.
  { rewrite (generate_read_failure chat m src_path out_dir w e w1) in Hgen
      by assumption.
    inversion Hgen; subst. exists [EvOpenRead (abspath (cwd w) src_path)].
    split; [reflexivity|]. split.
    - intros client messages Hin.
      apply list_elem_of_singleton in Hin. discriminate.
    - intros source prompt w1' Hr. discriminate. }
  destruct (build_prompt (PROMPT_HEADER m) (abspath (cwd w) src_path) source)
    as [e|prompt] eqn:Hprompt.
  { rewrite (generate_prompt_failure m src_path out_dir w source w1 e) in Hgen
      by assumption.
    inversion Hgen; subst. exists [EvOpenRead (abspath (cwd w) src_path)].
    split; [reflexivity|]. split.
    - intros client messages Hin.
      apply list_elem_of_singleton in Hin. discriminate.
    - intros source' prompt w1' Hr Hp. inversion Hr; subst source'.
      rewrite Hprompt in Hp. discriminate. }
  destruct (generate_requests_once m src_path out_dir w source prompt w1 r w'
              Hread Hprompt Hgen) as (evs' & Htr & Hevs & Hsvc).
  exists (EvOpenRead (abspath (cwd w) src_path)
          :: EvChat (llm m) (request prompt) :: evs').
  split; [exact Htr|]. split.
  - intros client messages Hin.
    apply elem_of_cons in Hin as [Hin|Hin]; [discriminate|].
    apply elem_of_cons in Hin as [Hin|Hin].
    + inversion Hin; subst client messages. split; [reflexivity|].
      exists source, prompt, w1. repeat split. exact Hprompt.
    + rewrite Forall_forall in Hevs. apply Hevs in Hin. discriminate.
  - intros source' prompt' w1' Hr Hp. inversion Hr; subst source' w1'.
    rewrite Hprompt in Hp. inversion Hp; subst prompt'.
    exists evs'. split; [reflexivity|]. split; [exact Hevs|exact Hsvc].
Qed.

End Requests.

Section Reinvocation.
Import Py OsPath Agent.
Context {service_state : Type}.
Variable chat :
  service_state -> llm_client -> list message -> result (list N) * service_state.

Implicit Types (w : world service_state) (m : agent_module).

(** What a successful call has gone through. *)
Lemma generate_success_inv m (src_path out_dir : str) w (p : str) w' :
  generate_tests_for_file chat m src_path out_dir w = (inr p, w') ->
  exists (source prompt resp : str) w1 (s : service_state)
         (fs : gmap (list N) node),
    read_text (abspath (cwd w) src_path) w = (inr source, w1)
    /\ build_prompt (PROMPT_HEADER m) (abspath (cwd w) src_path) source = inr prompt
    /\ chat (service w) (llm m) (request prompt) = (inr resp, s)
    /\ startswith (strip resp) (u "import pytest") = true
    /\ contains (strip resp) (u "def test_") = true
    /\ Fs.makedirs_guard out_dir = None
    /\ Fs.mkdirs (files w) out_dir (Fs.chain (abspath (cwd w) out_dir)) = inr fs
    /\ Fs.open_guard (out_fname (cwd w) src_path out_dir) = None
    /\ Fs.check_dirs fs (out_fname (cwd w) src_path out_dir)
         (removelast
            (Fs.chain (abspath (cwd w) (out_fname (cwd w) src_path out_dir))))
       = inr tt
    /\ Fs.lookup_node fs (abspath (cwd w) (out_fname (cwd w) src_path out_dir))
       <> Some Dir
    /\ encodable (strip resp ++ [NL]) = true
    /\ p = out_fname (cwd w) src_path out_dir
    /\ cwd w' = cwd w
    /\ service w' = s
    /\ files w'
       = <[abspath (cwd w) (out_fname (cwd w) src_path out_dir)
           := File (strip resp ++ [NL])]> fs.
Proof.
  intros Hgen.
  destruct (read_text (abspath (cwd w) src_path) w) as [[e|source] w1] eqn:Hread.
  { rewrite (generate_read_failure chat m src_path out_dir w e w1) in Hgen
      by assumption. discriminate. }
  destruct (build_prompt (PROMPT_HEADER m) (abspath (cwd w) src_path) source)
    as [e|prompt] eqn:Hprompt.
  { rewrite (generate_prompt_failure chat m src_path out_dir w source w1 e)
      in Hgen by assumption. discriminate. }
  destruct (chat (service w) (llm m) (request prompt)) as [[e|resp] s] eqn:Hchat.
  { rewrite (generate_chat_failure chat m src_path out_dir w source prompt w1 e s)
      in Hgen by assumption. discriminate. }
  rewrite (generate_run chat m src_path out_dir w source prompt resp w1 s)
    in Hgen by assumption.
  destruct (startswith (strip resp) (u "import pytest")) eqn:Hstart;
    [|discriminate].
  destruct (contains (strip resp) (u "def test_")) eqn:Hcont; [|discriminate].
  cbn [negb] in Hgen.
  pose proof (write_out_inv _ _ _ _ _ _ Hgen)
    as (fs & Hout & Hmk & Hname & Hchk & Hk & Henc).
  rewrite (write_out_run out_dir (out_fname (cwd w) src_path out_dir)
             (strip resp) (answered w m (abspath (cwd w) src_path) prompt s) fs)
    in Hgen by assumption.
  inversion Hgen; subst p w'. clear Hgen.
  exists source, prompt, resp, w1, s, fs.
  repeat (split; [first [reflexivity|assumption]|]). reflexivity.
Qed.

(** C8. After a successful call, a second call with the same arguments
    whose answer passes the checks and has an encoding, so that the
    write succeeds, returns the same path, replaces the text of the file
    written by the first call by the new answer, and changes nothing
    else in the file system. *)
Theorem reinvocation_overwrites m (src_path out_dir : str) w (p1 : str) w1
    (source2 prompt2 resp2 : str) w1' (s2 : service_state) :
  generate_tests_for_file chat m src_path out_dir w = (inr p1, w1) ->
  read_text (abspath (cwd w1) src_path) w1 = (inr source2, w1') ->
  build_prompt (PROMPT_HEADER m) (abspath (cwd w1) src_path) source2 = inr prompt2 ->
  chat (service w1) (llm m) (request prompt2) = (inr resp2, s2) ->
  startswith (strip resp2) (u "import pytest") = true ->
  contains (strip resp2) (u "def test_") = true ->
  encodable (strip resp2) = true ->
  exists w2 (old : str),
    generate_tests_for_file chat m src_path out_dir w1 = (inr p1, w2)
    /\ files w1 !! abspath (cwd w) p1 = Some (File old)
    /\ files w2 = <[abspath (cwd w) p1 := File (strip resp2 ++ [NL])]> (files w1)
    /\ dom (files w2) = dom (files w1).
Proof.
  intros Hfirst Hread2 Hprompt2 Hchat2 Hstart2 Hcont2 Henc2.
  apply generate_success_inv in Hfirst
    as (source & prompt & resp & w0 & s & fs & _ & _ & _ & _ & _
        & Hout & Hmk & Hname & Hchk & Hk & _ & -> & Hcwd & _ & Hfiles).
  rewrite (generate_run chat m src_path out_dir w1 source2 prompt2 resp2 w1' s2)
    by assumption.
  rewrite Hstart2, Hcont2. cbn [negb]. rewrite Hcwd.
  set (fname := out_fname (cwd w) src_path out_dir) in *.
  set (k := abspath (cwd w) fname) in *.
  assert (Hroot : all_slashes k = false).
  { destruct (all_slashes k) eqn:Hs; [|reflexivity].
    exfalso. apply Hk. unfold Fs.lookup_node. rewrite Hs. reflexivity. }
  assert (Hkeep : forall d, Fs.lookup_node fs d = Some Dir ->
                            Fs.lookup_node (files w1) d = Some Dir).
  { intros d Hd. rewrite Hfiles. apply lookup_node_insert_file; assumption. }
  assert (Henc : encodable (strip resp2 ++ [NL]) = true).
  { unfold encodable in *. rewrite forallb_app, Henc2. reflexivity. }
  rewrite (write_out_run out_dir fname (strip resp2)
             (answered w1 m (abspath (cwd w) src_path) prompt2 s2) (files w1)).
  - exists (World (cwd (answered w1 m (abspath (cwd w) src_path) prompt2 s2))
              (<[abspath (cwd (answered w1 m (abspath (cwd w) src_path) prompt2 s2))
                   fname := File (strip resp2 ++ [NL])]> (files w1))
              (service (answered w1 m (abspath (cwd w) src_path) prompt2 s2))
              (trace (answered w1 m (abspath (cwd w) src_path) prompt2 s2)
                 ++ [EvMakedirs out_dir; EvOpenWrite fname;
                     EvWrite (abspath
                                (cwd (answered w1 m (abspath (cwd w) src_path)
                                        prompt2 s2)) fname)
                       (strip resp2 ++ [NL])])),
           (strip resp ++ [NL]).
    cbn [cwd files answered set_service log]. rewrite Hcwd. fold k.
    split; [reflexivity|].
    split; [rewrite Hfiles; apply lookup_insert_eq|].
    split; [reflexivity|].
    rewrite dom_insert_L.
    apply subseteq_union_1_L, singleton_subseteq_l, elem_of_dom.
    rewrite Hfiles, lookup_insert_eq. eauto.
  - exact Hout.
  - cbn [cwd files answered set_service log]. rewrite Hcwd.
    apply mkdirs_existing. intros d Hd.
    apply Hkeep. eapply mkdirs_all_dirs; eassumption.
  - exact Hname.
  - cbn [cwd files answered set_service log]. rewrite Hcwd. fold k.
    apply check_dirs_ok. intros d Hd. apply Hkeep.
    revert d Hd. apply check_dirs_ok with (name := fname). exact Hchk.
  - cbn [cwd files answered set_service log]. rewrite Hcwd. fold k.
    unfold Fs.lookup_node. rewrite Hroot, Hfiles, lookup_insert_eq. discriminate.
  - exact Henc.
Qed.

End Reinvocation.

(** ** The name of the output file *)

Section OutputName.
Import Py OsPath Agent.


End OutputName.

(** ** Module initialisation *)

Section Initialisation.
Import Py OsPath Agent.

Lemma module_body_run (prompt_header : str)
    (dotenv environ : gmap (list N) (list N)) (endpoint key deploy version : str) :
  load_dotenv dotenv environ !! u "AZURE_OPENAI_ENDPOINT" = Some endpoint ->
  load_dotenv dotenv environ !! u "AZURE_OPENAI_KEY" = Some key ->
  load_dotenv dotenv environ !! u "AZURE_OPENAI_DEPLOYMENT" = Some deploy ->
  load_dotenv dotenv environ !! u "OPENAI_API_VERSION" = Some version ->
  endpoint <> [] -> key <> [] -> deploy <> [] -> version <> [] ->
  module_body prompt_header dotenv environ
  = inr (AgentModule prompt_header endpoint key deploy
           (AzureChatOpenAI deploy endpoint key version (0 # 1) 1000 120)).
Proof.
  intros He Hk Hd Hv Ne Nk Nd Nv.
  unfold module_body. cbv zeta. unfold getenv. rewrite He, Hk, Hd.
  destruct endpoint as [|c1 endpoint]; [contradiction|].
  destruct key as [|c2 key]; [contradiction|].
  destruct deploy as [|c3 deploy]; [contradiction|].
  destruct version as [|c4 version]; [contradiction|].
  cbn [truthy andb negb default].
  unfold azure_chat_openai, get_from_dict_or_env, getenv. cbn [truthy].
  rewrite Hv. reflexivity.
Qed.

Lemma truthy_inv (v : option str) :
  truthy v = true -> exists s, v = Some s /\ s <> [].
Proof.
  destruct v as [[|c s]|]; try discriminate.
  intros _. exists (c :: s). split; [reflexivity|discriminate].
Qed.

(** The constructor is reached once line 13 has let the three variables
    through, and raises when it does not find the API version. *)
Lemma module_body_without_version (prompt_header : str)
    (dotenv environ : gmap (list N) (list N)) :
  (forall name, name ∈ required_names ->
                truthy (load_dotenv dotenv environ !! name) = true) ->
  truthy (load_dotenv dotenv environ !! u "OPENAI_API_VERSION") = false ->
  module_body prompt_header dotenv environ
  = inl (ValidationError (u "openai_api_version")).
Proof.
  intros Hall Hv.
  destruct (truthy_inv (load_dotenv dotenv environ !! u "AZURE_OPENAI_ENDPOINT"))
    as (endpoint & He & Ne);
    [apply Hall; unfold required_names; rewrite !elem_of_cons; auto|].
  destruct (truthy_inv (load_dotenv dotenv environ !! u "AZURE_OPENAI_KEY"))
    as (key & Hk & Nk);
    [apply Hall; unfold required_names; rewrite !elem_of_cons; auto|].
  destruct (truthy_inv (load_dotenv dotenv environ !! u "AZURE_OPENAI_DEPLOYMENT"))
    as (deploy & Hd & Nd);
    [apply Hall; unfold required_names; rewrite !elem_of_cons; auto|].
  unfold module_body. cbv zeta. unfold getenv. rewrite He, Hk, Hd.
  destruct endpoint as [|c1 endpoint]; [contradiction|].
  destruct key as [|c2 key]; [contradiction|].
  destruct deploy as [|c3 deploy]; [contradiction|].
  cbn [truthy andb negb default].
  unfold azure_chat_openai, get_from_dict_or_env, getenv. cbn [truthy].
  rewrite Hv. reflexivity.
Qed.

Lemma module_body_without_variable (prompt_header : str)
    (dotenv environ : gmap (list N) (list N)) (name : str) :
  name ∈ required_names ->
  truthy (load_dotenv dotenv environ !! name) = false ->
  module_body prompt_header dotenv environ
  = inl (RuntimeError (u "Configure AZURE_OPENAI_* env vars or .env file")).
Proof.
  intros Hin Hfalse. unfold module_body. cbv zeta. unfold getenv.
  unfold required_names in Hin.
  repeat (apply elem_of_cons in Hin as [->|Hin]);
    [ | | | apply elem_of_nil in Hin; contradiction];
    rewrite Hfalse; repeat rewrite andb_false_r; reflexivity.
Qed.

(** C3. The module does not initialise without four values taken from
    the environment (completed by the [.env] file): the endpoint, the
    key and the deployment, which lines 9 to 11 read, and the version of
    the API, which the constructor of the client reads on line 17. When
    one of the first three is missing, or empty, line 14 raises
    [RuntimeError]; when they are there and the version is missing, or
    empty, the constructor raises. Either way the body of the module
    fails, so that no module exists whose [generate_tests_for_file]
    could be called. When the four are set and not empty the module
    initialises, whatever else the environment holds, and its client is
    made of them. *)
Theorem four_values_are_required (prompt_header : str)
    (dotenv environ : gmap (list N) (list N)) :
  let env := load_dotenv dotenv environ in
  (configuration_names
   = [u "AZURE_OPENAI_ENDPOINT"; u "AZURE_OPENAI_KEY";
      u "AZURE_OPENAI_DEPLOYMENT"; u "OPENAI_API_VERSION"]
   /\ NoDup configuration_names)
  /\ (forall name,
        name ∈ configuration_names ->
        env !! name = None \/ env !! name = Some [] ->
        exists e,
          module_body prompt_header dotenv environ = inl e
          /\ (name ∈ required_names ->
              e = RuntimeError (u "Configure AZURE_OPENAI_* env vars or .env file")))
  /\ ((forall name, name ∈ required_names -> truthy (env !! name) = true) ->
      env !! u "OPENAI_API_VERSION" = None
      \/ env !! u "OPENAI_API_VERSION" = Some [] ->
      module_body prompt_header dotenv environ
      = inl (ValidationError (u "openai_api_version")))
  /\ ((forall name, name ∈ configuration_names -> truthy (env !! name) = true) ->
      exists m, module_body prompt_header dotenv environ = inr m
                /\ PROMPT_HEADER m = prompt_header
                /\ Some (openai_api_base (llm m)) = env !! u "AZURE_OPENAI_ENDPOINT"
                /\ Some (openai_api_key (llm m)) = env !! u "AZURE_OPENAI_KEY"
                /\ Some (deployment_name (llm m)) = env !! u "AZURE_OPENAI_DEPLOYMENT"
                /\ Some (openai_api_version (llm m)) = env !! u "OPENAI_API_VERSION").
Proof.
  intros env.
  assert (Hfalsy : forall v : option str, v = None \/ v = Some [] -> truthy v = false)
    by (intros v [-> | ->]; reflexivity).
  split.
  { split; [reflexivity|].
    unfold configuration_names, required_names. cbn [app].
    repeat (apply NoDup_cons_2;
            [rewrite ?elem_of_cons; intros H;
             repeat (destruct H as [H|H]; [discriminate|]);
             apply elem_of_nil in H; exact H|]).
    apply NoDup_nil_2. }
  split.
  { intros name Hin Hmiss. apply Hfalsy in Hmiss.
    destruct (decide (name ∈ required_names)) as [Hreq|Hreq].
    - eexists. split; [|intros _; reflexivity].
      eapply module_body_without_variable; eassumption.
    - assert (Hname : name = u "OPENAI_API_VERSION").
      { unfold configuration_names in Hin.
        apply elem_of_app in Hin as [Hin|Hin]; [contradiction|].
        apply list_elem_of_singleton in Hin. exact Hin. }
      subst name.
      destruct (forallb (fun n => truthy (env !! n)) required_names) eqn:Hall.
      + exists (ValidationError (u "openai_api_version")).
        split; [|intros H; contradiction].
        apply module_body_without_version; [|exact Hmiss].
        intros n Hn. rewrite forallb_forall in Hall.
        apply Hall, list_elem_of_In, Hn.
      + exists (RuntimeError (u "Configure AZURE_OPENAI_* env vars or .env file")).
        split; [|intros _; reflexivity].
        apply not_true_iff_false in Hall.
        destruct (existsb (fun n => negb (truthy (env !! n))) required_names)
          eqn:Hex.
        * apply existsb_exists in Hex as (n & Hn & Hf).
          apply negb_true_iff in Hf.
          eapply module_body_without_variable;
            [apply list_elem_of_In; exact Hn|exact Hf].
        * exfalso. apply Hall. apply forallb_forall. intros n Hn.
          destruct (truthy (env !! n)) eqn:Ht; [reflexivity|].
          assert (existsb (fun n => negb (truthy (env !! n))) required_names = true)
            by (apply existsb_exists; exists n; rewrite Ht; split; [exact Hn|reflexivity]).
          congruence. }
  split.
  { intros Hall Hmiss. apply module_body_without_version; [exact Hall|].
    apply Hfalsy, Hmiss. }
  intros Hall.
  assert (Hin : forall name,
             name ∈ [u "AZURE_OPENAI_ENDPOINT"; u "AZURE_OPENAI_KEY";
                     u "AZURE_OPENAI_DEPLOYMENT"; u "OPENAI_API_VERSION"] ->
             exists s, env !! name = Some s /\ s <> [])
    by (intros name Hname; apply truthy_inv, Hall, Hname).
  destruct (Hin (u "AZURE_OPENAI_ENDPOINT")) as (endpoint & He & Ne);
    [rewrite !elem_of_cons; auto|].
  destruct (Hin (u "AZURE_OPENAI_KEY")) as (key & Hk & Nk);
    [rewrite !elem_of_cons; auto|].
  destruct (Hin (u "AZURE_OPENAI_DEPLOYMENT")) as (deploy & Hd & Nd);
    [rewrite !elem_of_cons; auto|].
  destruct (Hin (u "OPENAI_API_VERSION")) as (version & Hv & Nv);
    [rewrite !elem_of_cons; auto 6|].
  eexists. split; [apply (module_body_run prompt_header dotenv environ
                            endpoint key deploy version); assumption|].
  cbn [PROMPT_HEADER llm openai_api_base openai_api_key deployment_name
         openai_api_version].
  rewrite He, Hk, Hd, Hv. repeat split.
Qed.

End Initialisation.

(** ** Filling in a template *)

Section FormatFacts.
Import Py Format.
Implicit Types (kwargs : gmap (list N) (list N)).

Lemma format_from_literal kwargs (t rest : str) :
  LBRACE ∉ t -> RBRACE ∉ t ->
  format_from kwargs None (t ++ rest)
  = match format_from kwargs None rest with
    | inr out => inr (t ++ out)
    | inl e => inl e
    end.
Proof.
  induction t as [|c t IH]; intros Hl Hr.
  - simpl. destruct (format_from kwargs None rest); reflexivity.
  - apply not_elem_of_cons in Hl as [Hcl Hl].
    apply not_elem_of_cons in Hr as [Hcr Hr].
    cbn [app format_from].
    destruct (N.eqb_spec c LBRACE) as [->|_]; [contradiction|].
    destruct (N.eqb_spec c RBRACE) as [->|_]; [contradiction|].
    rewrite IH by assumption.
    destruct (format_from kwargs None rest); reflexivity.
Qed.

Lemma ident_char_plain (c : N) :
  is_ident_char c = true ->
  (c =? RBRACE)%N = false /\ (c =? LBRACE)%N = false
  /\ (c =? LBRACKET)%N = false /\ (c =? COLON)%N = false /\ (c =? BANG)%N = false.
Proof.
  intros H.
  repeat split;
    match goal with
    | |- (c =? ?k)%N = false =>
        destruct (N.eqb_spec c k) as [->|_]; [vm_compute in H; discriminate|reflexivity]
    end.
Qed.

Lemma format_from_field_name kwargs (acc name rest : str) :
  forallb is_ident_char name = true ->
  format_from kwargs (Some acc) (name ++ RBRACE :: rest)
  = match get_field kwargs (acc ++ name) with
    | inr v =>
        match format_from kwargs None rest with
        | inr out => inr (v ++ out)
        | inl e => inl e
        end
    | inl e => inl e
    end.
Proof.
  revert acc. induction name as [|c name IH]; intros acc Hname.
  - cbn [app format_from]. rewrite N.eqb_refl, app_nil_r. reflexivity.
  - cbn [forallb] in Hname. apply andb_true_iff in Hname as [Hc Hname].
    apply ident_char_plain in Hc as (H1 & H2 & H3 & H4 & H5).
    cbn [app format_from]. rewrite H1, H2, H3, H4, H5. cbn [orb].
    rewrite IH by assumption. rewrite <- app_assoc. reflexivity.
Qed.

Lemma format_from_open kwargs (d : N) (t : str) :
  (d =? LBRACE)%N = false ->
  format_from kwargs None (LBRACE :: d :: t) = format_from kwargs (Some []) (d :: t).
Proof.
  intros H. change (format_from kwargs None (LBRACE :: d :: t))
    with (if (LBRACE =? LBRACE)%N
          then if (d =? LBRACE)%N
               then match format_from kwargs None t with
                    | inr out => inr (LBRACE :: out)
                    | inl e => inl e
                    end
               else format_from kwargs (Some []) (d :: t)
          else if (LBRACE =? RBRACE)%N
               then match d :: t with
                    | d0 :: t'' =>
                        if (d0 =? RBRACE)%N
                        then match format_from kwargs None t'' with
                             | inr out => inr (RBRACE :: out)
                             | inl e => inl e
                             end
                        else inl (ValueError
                                    (u "Single '}' encountered in format string"))
                    | [] => inl (ValueError
                                   (u "Single '}' encountered in format string"))
                    end
               else match format_from kwargs None (d :: t) with
                    | inr out => inr (LBRACE :: out)
                    | inl e => inl e
                    end).
  rewrite N.eqb_refl, H. reflexivity.
Qed.

(** A field [{name}] is replaced by the argument, whatever characters
    the argument contains. *)
Lemma format_from_field kwargs (name v rest : str) :
  is_identifier name = true ->
  kwargs !! name = Some v ->
  format_from kwargs None (LBRACE :: name ++ RBRACE :: rest)
  = match format_from kwargs None rest with
    | inr out => inr (v ++ out)
    | inl e => inl e
    end.
Proof.
  intros Hid Hv.
  destruct name as [|c name]; [discriminate|].
  pose proof Hid as Hid'.
  cbn [is_identifier] in Hid'. apply andb_true_iff in Hid' as [Hc Hname].
  assert (Hc' : is_ident_char c = true)
    by (unfold is_ident_char; rewrite Hc; reflexivity).
  pose proof (ident_char_plain c Hc') as (_ & H2 & _).
  cbn [app]. rewrite format_from_open by exact H2.
  change (c :: name ++ RBRACE :: rest) with ((c :: name) ++ RBRACE :: rest).
  rewrite format_from_field_name
    by (change (is_ident_char c && forallb is_ident_char name = true);
        rewrite Hc', Hname; reflexivity).
  cbn [app]. unfold get_field. rewrite Hid, Hv. reflexivity.
Qed.

(** What line 35 computes on a template with the two placeholders and
    no other brace: the two values are copied as they are. *)
Lemma build_prompt_verbatim (pre mid post src_path source : str) :
  LBRACE ∉ pre -> RBRACE ∉ pre ->
  LBRACE ∉ mid -> RBRACE ∉ mid ->
  LBRACE ∉ post -> RBRACE ∉ post ->
  Agent.build_prompt (pre ++ u "{src_path}" ++ mid ++ u "{source}" ++ post)
    src_path source
  = inr (pre ++ src_path ++ mid ++ source ++ post).
Proof.
  intros H1 H2 H3 H4 H5 H6. unfold Agent.build_prompt, format.
  rewrite format_from_literal by assumption.
  change (u "{src_path}" ++ mid ++ u "{source}" ++ post)
    with (LBRACE :: u "src_path" ++ RBRACE :: (mid ++ u "{source}" ++ post)).
  rewrite (format_from_field _ (u "src_path") src_path)
    by (try reflexivity; apply lookup_insert_eq).
  rewrite format_from_literal by assumption.
  change (u "{source}" ++ post) with (LBRACE :: u "source" ++ RBRACE :: post).
  rewrite (format_from_field _ (u "source") source).
  - rewrite <- (app_nil_r post) at 1.
    rewrite format_from_literal by assumption.
    cbn [format_from]. rewrite app_nil_r. reflexivity.
  - reflexivity.
  - rewrite lookup_insert_ne by (vm_compute; discriminate).
    apply lookup_singleton_eq.
Qed.

End FormatFacts.

(** ** The prompt template as written *)

Section Template.
Import Py OsPath Agent.

Lemma prompt_header_syntax_error :
  PromptTemplates.PROMPT_HEADER
  = inl (SyntaxError (u "unexpected character after line continuation character")).
Proof. vm_compute. reflexivity. Qed.

(** C2. The string literal of [prompt_templates.py] ends at the triple
    quote that opens line 18, before the [{source}] placeholder; the
    backslash that follows it is not followed by a newline, so the
    module does not lex. Importing it, and with it [agent], raises
    [SyntaxError], and for every path and every source text the prompt
    builder fails instead of returning the filled-in template. *)
Theorem prompt_builder_fails (src_path source : str) :
  prompt_builder src_path source
  = inl (SyntaxError (u "unexpected character after line continuation character"))
  /\ (exists body rest,
        PromptTemplates.first_literal = Some (body, rest)
        /\ contains body (u "{src_path}") = true
        /\ contains body (u "{source}") = false
        /\ startswith rest (u "\n{source}\n") = true)
  /\ (forall dotenv environ : gmap (list N) (list N),
        import_agent dotenv environ
        = inl (SyntaxError
                 (u "unexpected character after line continuation character"))).
Proof.
  split.
  { unfold prompt_builder. rewrite prompt_header_syntax_error. reflexivity. }
  split.
  { destruct PromptTemplates.first_literal as [[body rest]|] eqn:H;
      [|vm_compute in H; discriminate].
    exists body, rest. split; [reflexivity|].
    vm_compute in H. inversion H. subst body rest. clear H.
    repeat split; vm_compute; reflexivity. }
  intros dotenv environ. unfold import_agent.
  rewrite prompt_header_syntax_error. reflexivity.
Qed.

End Template.

(** ** The claims on the concrete world *)

Section OnScenario.
Import Py OsPath Agent Scenario ScenarioMore.

(** C1 as stated does not hold: the source is read, the answer passes
    both checks, and the call still fails. In the first run the output
    directory given is an existing regular file, and nothing is written;
    in the second the path of the output file is a directory; in the
    third the answer ends with a lone surrogate, which has no encoding:
    the directory is made and the file opened, then the write raises and
    the file stays empty. *)
Lemma output_stage_may_fail :
  let w := world_with [inr good_answer] in
  let out_dir := u "examples/strings.py" in
  let wd :=
    World (u "/repo") (<[u "/repo/out/test_strings.py" := Dir]> fs0)
      [inr good_answer] [] in
  let ws := world_with [inr surrogate_answer] in
  (read_text (abspath (cwd w) src0) w = (inr strings_py, log (EvOpenRead abs0) w)
   /\ build_prompt (PROMPT_HEADER m0) (abspath (cwd w) src0) strings_py = inr prompt0
   /\ scripted (service w) (llm m0) (request prompt0) = (inr good_answer, [])
   /\ startswith (strip good_answer) (u "import pytest") = true
   /\ contains (strip good_answer) (u "def test_") = true
   /\ fst (generate_tests_for_file scripted m0 src0 out_dir w)
      = inl (FileExistsError out_dir)
   /\ files (snd (generate_tests_for_file scripted m0 src0 out_dir w)) = files w)
  /\ fst (generate_tests_for_file scripted m0 src0 (u "out") wd)
     = inl (IsADirectoryError (u "out/test_strings.py"))
  /\ (scripted (service ws) (llm m0) (request prompt0) = (inr surrogate_answer, [])
      /\ startswith (strip surrogate_answer) (u "import pytest") = true
      /\ contains (strip surrogate_answer) (u "def test_") = true
      /\ fst (generate_tests_for_file scripted m0 src0 (u "out") ws)
         = inl (UnicodeEncodeError (surrogate_answer ++ [NL]))
      /\ files (snd (generate_tests_for_file scripted m0 src0 (u "out") ws))
           !! u "/repo/out/test_strings.py"
         = Some (File [])).
Proof. vm_compute. repeat split. Qed.

Lemma missing_import_is_rejected_witness :
  let w := world_with [inr prose_answer] in
  (read_text (abspath (cwd w) src0) w = (inr strings_py, log (EvOpenRead abs0) w)
   /\ build_prompt (PROMPT_HEADER m0) (abspath (cwd w) src0) strings_py = inr prompt0
   /\ scripted (service w) (llm m0) (request prompt0) = (inr prose_answer, [])
   /\ startswith (strip prose_answer) (u "import pytest") = false)
  /\ exists w',
       generate_tests_for_file scripted m0 src0 (u "out") w
       = (inl (ValueError msg_no_import_pytest), w')
       /\ files w' = files w
       /\ added w w' [EvOpenRead (abspath (cwd w) src0);
                      EvChat (llm m0) (request prompt0)]
       /\ filter (fun e => is_output e = true) (trace w')
          = filter (fun e => is_output e = true) (trace w).
Proof.
  intros w.
  assert (H1 : read_text (abspath (cwd w) src0) w
               = (inr strings_py, log (EvOpenRead abs0) w))
    by (vm_compute; reflexivity).
  assert (H2 : build_prompt (PROMPT_HEADER m0) (abspath (cwd w) src0) strings_py
               = inr prompt0)
    by (vm_compute; reflexivity).
  assert (H3 : scripted (service w) (llm m0) (request prompt0)
               = (inr prose_answer, []))
    by reflexivity.
  assert (H4 : startswith (strip prose_answer) (u "import pytest") = false)
    by (vm_compute; reflexivity).
  split; [repeat split; assumption|].
  exact (missing_import_is_rejected scripted m0 src0 (u "out") w
           strings_py prompt0 prose_answer _ [] H1 H2 H3 H4).
Defined.

Lemma missing_test_is_rejected_witness :
  let w := world_with [inr no_test_answer] in
  (read_text (abspath (cwd w) src0) w = (inr strings_py, log (EvOpenRead abs0) w)
   /\ build_prompt (PROMPT_HEADER m0) (abspath (cwd w) src0) strings_py = inr prompt0
   /\ scripted (service w) (llm m0) (request prompt0) = (inr no_test_answer, [])
   /\ contains (strip no_test_answer) (u "def test_") = false)
  /\ exists w',
       generate_tests_for_file scripted m0 src0 (u "out") w
       = (inl (ValueError
                 (if startswith (strip no_test_answer) (u "import pytest")
                  then msg_no_tests else msg_no_import_pytest)), w')
       /\ files w' = files w
       /\ filter (fun e => is_output e = true) (trace w')
          = filter (fun e => is_output e = true) (trace w).
Proof.
  intros w.
  assert (H1 : read_text (abspath (cwd w) src0) w
               = (inr strings_py, log (EvOpenRead abs0) w))
    by (vm_compute; reflexivity).
  assert (H2 : build_prompt (PROMPT_HEADER m0) (abspath (cwd w) src0) strings_py
               = inr prompt0)
    by (vm_compute; reflexivity).
  assert (H3 : scripted (service w) (llm m0) (request prompt0)
               = (inr no_test_answer, []))
    by reflexivity.
  assert (H4 : contains (strip no_test_answer) (u "def test_") = false)
    by (vm_compute; reflexivity).
  split; [repeat split; assumption|].
  exact (missing_test_is_rejected scripted m0 src0 (u "out") w
           strings_py prompt0 no_test_answer _ [] H1 H2 H3 H4).
Defined.

(** C6 as stated does not hold. Nothing exists at a path with a NUL
    character in it, and the call fails before any request to the model,
    but with the [ValueError] that [open] raises for such a path, which
    is no [OSError]; for a path with a lone surrogate it is
    [UnicodeEncodeError]. A source that exists and is not UTF-8 cannot
    be read either, and the call fails with [UnicodeDecodeError]. *)
Lemma read_error_need_not_be_an_io_error :
  let w := world_with [inr good_answer] in
  let wb := World (u "/repo") fs_latin1 [inr good_answer] [] in
  (Fs.lookup_node (files w) (abspath (cwd w) nul_src) = None
   /\ generate_tests_for_file scripted m0 nul_src (u "out") w
      = (inl (ValueError (u "embedded null byte")),
         log (EvOpenRead (abspath (cwd w) nul_src)) w)
   /\ is_OSError (ValueError (u "embedded null byte")) = false)
  /\ (Fs.lookup_node (files w) (abspath (cwd w) surrogate_src) = None
      /\ generate_tests_for_file scripted m0 surrogate_src (u "out") w
         = (inl (UnicodeEncodeError (abspath (cwd w) surrogate_src)),
            log (EvOpenRead (abspath (cwd w) surrogate_src)) w)
      /\ is_OSError (UnicodeEncodeError (abspath (cwd w) surrogate_src)) = false)
  /\ (generate_tests_for_file scripted m0 latin1_src (u "out") wb
      = (inl (UnicodeDecodeError (u "/repo/examples/latin1.py")),
         log (EvOpenRead (u "/repo/examples/latin1.py")) wb)
      /\ is_OSError (UnicodeDecodeError (u "/repo/examples/latin1.py")) = false).
Proof. vm_compute. repeat split. Qed.

Lemma read_failure_precedes_model_call_witness :
  let w := world_with [inr good_answer] in
  let missing := u "examples/missing.py" in
  (Fs.lookup_node (files w) (abspath (cwd w) (abspath (cwd w) missing)) = None
   /\ read_text (abspath (cwd w) missing) w
      = (inl (FileNotFoundError (u "/repo/examples/missing.py")),
         log (EvOpenRead (u "/repo/examples/missing.py")) w)
   /\ Fs.open_guard (abspath (cwd w) missing) = None)
  /\ (exists w',
        generate_tests_for_file scripted m0 missing (u "out") w
        = (inl (FileNotFoundError (u "/repo/examples/missing.py")), w')
        /\ added w w' [EvOpenRead (abspath (cwd w) missing)]
        /\ filter (fun ev => is_chat ev = true) (trace w')
           = filter (fun ev => is_chat ev = true) (trace w)
        /\ service w' = service w
        /\ files w' = files w)
  /\ (exists e w1, read_text (abspath (cwd w) missing) w = (inl e, w1)
                   /\ is_OSError e = true).
Proof.
  intros w missing.
  assert (H0 : Fs.lookup_node (files w)
                 (abspath (cwd w) (abspath (cwd w) missing)) = None)
    by (vm_compute; reflexivity).
  assert (H1 : read_text (abspath (cwd w) missing) w
               = (inl (FileNotFoundError (u "/repo/examples/missing.py")),
                  log (EvOpenRead (u "/repo/examples/missing.py")) w))
    by (vm_compute; reflexivity).
  assert (H2 : Fs.open_guard (abspath (cwd w) missing) = None)
    by (vm_compute; reflexivity).
  split; [repeat split; assumption|].
  destruct (read_failure_precedes_model_call scripted m0 missing (u "out") w)
    as [Hfail Hmissing].
  split.
  - exact (proj1 (Hfail _ _ H1)).
  - destruct (Hmissing H0) as (e & w1 & Hr & Hos).
    exists e, w1. split; [exact Hr|exact (Hos H2)].
Defined.

End OnScenario.

Section OnScenarioOutput.
Import Py OsPath Agent Scenario ScenarioMore.

Lemma valid_answer_is_written_witness :
  let w := world_with [inr good_answer] in
  let out_dir := u "out/gen" in
  let w_a := answered w m0 (abspath (cwd w) src0) prompt0 [] in
  let w2 := snd (makedirs out_dir w_a) in
  let k := u "/repo/out/gen/test_strings.py" in
  let w3 := snd (open_write (out_fname (cwd w) src0 out_dir) w2) in
  let w4 := snd (write k (strip good_answer ++ [NL]) w3) in
  (read_text (abspath (cwd w) src0) w = (inr strings_py, log (EvOpenRead abs0) w)
   /\ build_prompt (PROMPT_HEADER m0) (abspath (cwd w) src0) strings_py = inr prompt0
   /\ scripted (service w) (llm m0) (request prompt0) = (inr good_answer, [])
   /\ startswith (strip good_answer) (u "import pytest") = true
   /\ contains (strip good_answer) (u "def test_") = true
   /\ makedirs out_dir w_a = (inr tt, w2)
   /\ open_write (out_fname (cwd w) src0 out_dir) w2 = (inr k, w3)
   /\ write k (strip good_answer ++ [NL]) w3 = (inr tt, w4))
  /\ generate_tests_for_file scripted m0 src0 out_dir w
     = (inr (join out_dir (u "test_" ++ module_name (cwd w) src0 ++ u ".py")), w4)
  /\ files w4 !! abspath (cwd w)
                    (join out_dir
                       (u "test_" ++ module_name (cwd w) src0 ++ u ".py"))
     = Some (File (strip good_answer ++ [NL])).
Proof.
  intros w out_dir w_a w2 k w3 w4.
  assert (H1 : read_text (abspath (cwd w) src0) w
               = (inr strings_py, log (EvOpenRead abs0) w))
    by (vm_compute; reflexivity).
  assert (H2 : build_prompt (PROMPT_HEADER m0) (abspath (cwd w) src0) strings_py
               = inr prompt0)
    by (vm_compute; reflexivity).
  assert (H3 : scripted (service w) (llm m0) (request prompt0)
               = (inr good_answer, []))
    by reflexivity.
  assert (H4 : startswith (strip good_answer) (u "import pytest") = true)
    by (vm_compute; reflexivity).
  assert (H5 : contains (strip good_answer) (u "def test_") = true)
    by (vm_compute; reflexivity).
  assert (H6 : makedirs out_dir w_a = (inr tt, w2))
    by (vm_compute; reflexivity).
  assert (H7 : open_write (out_fname (cwd w) src0 out_dir) w2 = (inr k, w3))
    by (vm_compute; reflexivity).
  assert (H8 : write k (strip good_answer ++ [NL]) w3 = (inr tt, w4))
    by (vm_compute; reflexivity).
  split; [repeat split; assumption|].
  exact (valid_answer_is_written scripted m0 src0 out_dir w
           strings_py prompt0 good_answer _ [] w2 k w3 w4
           H1 H2 H3 H4 H5 H6 H7 H8).
Defined.

(** The example scenario: with the default output directory the answer
    is written to [./test_strings.py], stripped and followed by one
    newline. *)
Example strings_py_scenario :
  let w := world_with [inr good_answer] in
  let r := generate_tests_for_file scripted m0 src0 default_out_dir w in
  fst r = inr (u "./test_strings.py")
  /\ files (snd r) !! u "/repo/test_strings.py"
     = Some (File (u "import pytest" ++ [NL]
                     ++ u "import examples.strings as mod" ++ [NL]
                     ++ u "def test_reverse_success(): assert mod.reverse('ab') == 'ba'"
                     ++ [NL])).
Proof. vm_compute. split; reflexivity. Qed.

Lemma checks_are_textual_witness :
  let w := world_with [inr mock_answer] in
  (read_text (abspath (cwd w) src0) w = (inr strings_py, log (EvOpenRead abs0) w)
   /\ build_prompt (PROMPT_HEADER m0) (abspath (cwd w) src0) strings_py = inr prompt0
   /\ scripted (service w) (llm m0) (request prompt0) = (inr mock_answer, [])
   /\ strip mock_answer
      = u "import pytest" ++ (u "_mock" ++ [NL] ++ u "# def test_ is only mentioned here")
   /\ strip mock_answer
      = (u "import pytest_mock" ++ [NL] ++ u "# ") ++ u "def test_"
          ++ u " is only mentioned here")
  /\ startswith (strip mock_answer) (u "import pytest") = true
  /\ contains (strip mock_answer) (u "def test_") = true
  /\ generate_tests_for_file scripted m0 src0 (u "out") w
     = write_out (u "out") (out_fname (cwd w) src0 (u "out")) (strip mock_answer)
         (answered w m0 (abspath (cwd w) src0) prompt0 []).
Proof.
  intros w.
  assert (H1 : read_text (abspath (cwd w) src0) w
               = (inr strings_py, log (EvOpenRead abs0) w))
    by (vm_compute; reflexivity).
  assert (H2 : build_prompt (PROMPT_HEADER m0) (abspath (cwd w) src0) strings_py
               = inr prompt0)
    by (vm_compute; reflexivity).
  assert (H3 : scripted (service w) (llm m0) (request prompt0)
               = (inr mock_answer, []))
    by reflexivity.
  assert (H4 : strip mock_answer
               = u "import pytest"
                   ++ (u "_mock" ++ [NL] ++ u "# def test_ is only mentioned here"))
    by (vm_compute; reflexivity).
  assert (H5 : strip mock_answer
               = (u "import pytest_mock" ++ [NL] ++ u "# ") ++ u "def test_"
                   ++ u " is only mentioned here")
    by (vm_compute; reflexivity).
  split; [repeat split; assumption|].
  exact (checks_are_textual scripted m0 src0 (u "out") w
           strings_py prompt0 mock_answer _ [] _ _ _ H1 H2 H3 H4 H5).
Defined.

(** Two answers that pass both checks without importing [pytest] or
    defining a test are written out like any other. *)
Example lookalike_answers_are_written :
  fst (generate_tests_for_file scripted m0 src0 (u "out")
         (world_with [inr mock_answer]))
  = inr (u "out/test_strings.py")
  /\ files (snd (generate_tests_for_file scripted m0 src0 (u "out")
                   (world_with [inr mock_answer])))
       !! u "/repo/out/test_strings.py"
     = Some (File (mock_answer ++ [NL]))
  /\ fst (generate_tests_for_file scripted m0 src0 (u "out")
            (world_with [inr literal_answer]))
     = inr (u "out/test_strings.py")
  /\ files (snd (generate_tests_for_file scripted m0 src0 (u "out")
                   (world_with [inr literal_answer])))
       !! u "/repo/out/test_strings.py"
     = Some (File (literal_answer ++ [NL])).
Proof. vm_compute. repeat split. Qed.

End OnScenarioOutput.

Section OnScenarioRequests.
Import Py OsPath Agent Scenario.

Lemma model_request_shape_witness :
  let w := world_with [inr good_answer] in
  let run := generate_tests_for_file scripted m0 src0 (u "out") w in
  let sent :=
    EvChat client0
      [SystemMessage (u "You are an expert Python developer and pytest author.");
       HumanMessage prompt0] in
  (module_body template ∅ environ0 = inr m0
   /\ run = (fst run, snd run))
  /\ (temperature client0 = 0 # 1
      /\ max_tokens client0 = 1000
      /\ request_timeout client0 = 120)
  /\ exists evs',
       trace (snd run) = trace w ++ EvOpenRead abs0 :: sent :: evs'
       /\ Forall (fun ev => is_chat ev = false) evs'
       /\ service (snd run) = []
       /\ forall client messages,
            EvChat client messages ∈ EvOpenRead abs0 :: sent :: evs' ->
            client = client0
            /\ exists source prompt w1,
                 read_text (abspath (cwd w) src0) w = (inr source, w1)
                 /\ build_prompt template (abspath (cwd w) src0) source = inr prompt
                 /\ messages
                    = [SystemMessage
                         (u "You are an expert Python developer and pytest author.");
                       HumanMessage prompt].
Proof.
  intros w run sent.
  assert (H1 : module_body template ∅ environ0 = inr m0)
    by (vm_compute; reflexivity).
  assert (H2 : run = (fst run, snd run)) by apply surjective_pairing.
  assert (H3 : read_text (abspath (cwd w) src0) w
               = (inr strings_py, log (EvOpenRead abs0) w))
    by (vm_compute; reflexivity).
  assert (H4 : build_prompt template (abspath (cwd w) src0) strings_py
               = inr prompt0)
    by (vm_compute; reflexivity).
  split; [split; assumption|].
  destruct (model_request_shape scripted template ∅ environ0 m0 src0 (u "out") w
              (fst run) (snd run) H1 H2)
    as (Hclient & evs & Hadded & Hevery & Honce).
  split; [exact Hclient|].
  destruct (Honce _ _ _ H3 H4) as (evs' & Hevs & Hrest & Hsvc).
  exists evs'. rewrite Hevs in Hadded, Hevery.
  split; [exact Hadded|]. split; [exact Hrest|]. split; [exact Hsvc|].
  exact Hevery.
Defined.

Lemma reinvocation_overwrites_witness :
  let w := world_with [inr good_answer; inr second_answer] in
  let p1 := u "out/test_strings.py" in
  let w1 := snd (generate_tests_for_file scripted m0 src0 (u "out") w) in
  (generate_tests_for_file scripted m0 src0 (u "out") w = (inr p1, w1)
   /\ read_text (abspath (cwd w1) src0) w1
      = (inr strings_py, log (EvOpenRead abs0) w1)
   /\ build_prompt (PROMPT_HEADER m0) (abspath (cwd w1) src0) strings_py = inr prompt0
   /\ scripted (service w1) (llm m0) (request prompt0) = (inr second_answer, [])
   /\ startswith (strip second_answer) (u "import pytest") = true
   /\ contains (strip second_answer) (u "def test_") = true
   /\ encodable (strip second_answer) = true)
  /\ exists w2 old,
       generate_tests_for_file scripted m0 src0 (u "out") w1 = (inr p1, w2)
       /\ files w1 !! abspath (cwd w) p1 = Some (File old)
       /\ files w2
          = <[abspath (cwd w) p1 := File (strip second_answer ++ [NL])]> (files w1)
       /\ dom (files w2) = dom (files w1).
Proof.
  intros w p1 w1.
  assert (H1 : generate_tests_for_file scripted m0 src0 (u "out") w = (inr p1, w1))
    by (vm_compute; reflexivity).
  assert (H2 : read_text (abspath (cwd w1) src0) w1
               = (inr strings_py, log (EvOpenRead abs0) w1))
    by (vm_compute; reflexivity).
  assert (H3 : build_prompt (PROMPT_HEADER m0) (abspath (cwd w1) src0) strings_py
               = inr prompt0)
    by (vm_compute; reflexivity).
  assert (H4 : scripted (service w1) (llm m0) (request prompt0)
               = (inr second_answer, []))
    by (vm_compute; reflexivity).
  assert (H5 : startswith (strip second_answer) (u "import pytest") = true)
    by (vm_compute; reflexivity).
  assert (H6 : contains (strip second_answer) (u "def test_") = true)
    by (vm_compute; reflexivity).
  assert (H7 : encodable (strip second_answer) = true)
    by (vm_compute; reflexivity).
  split; [repeat split; assumption|].
  exact (reinvocation_overwrites scripted m0 src0 (u "out") w p1 w1
           strings_py prompt0 second_answer _ [] H1 H2 H3 H4 H5 H6 H7).
Defined.


End OnScenarioRequests.

Section OnScenarioInitialisation.
Import Py OsPath Agent Scenario.

Lemma four_values_are_required_witness :
  let without_version : gmap (list N) (list N) :=
    <[u "AZURE_OPENAI_ENDPOINT" := u "https://example.openai.azure.com"]>
      (<[u "AZURE_OPENAI_KEY" := u "secret"]>
         {[ u "AZURE_OPENAI_DEPLOYMENT" := u "gpt" ]}) in
  let without_key : gmap (list N) (list N) :=
    <[u "AZURE_OPENAI_ENDPOINT" := u "https://example.openai.azure.com"]>
      (<[u "AZURE_OPENAI_DEPLOYMENT" := u "gpt"]>
         {[ u "OPENAI_API_VERSION" := u "2023-05-15" ]}) in
  let key_only : gmap (list N) (list N) := {[ u "AZURE_OPENAI_KEY" := u "secret" ]} in
  (u "AZURE_OPENAI_KEY" ∈ configuration_names
   /\ u "AZURE_OPENAI_KEY" ∈ required_names
   /\ (load_dotenv ∅ without_key !! u "AZURE_OPENAI_KEY" = None
       \/ load_dotenv ∅ without_key !! u "AZURE_OPENAI_KEY" = Some [])
   /\ (forall name, name ∈ required_names ->
                    truthy (load_dotenv ∅ without_version !! name) = true)
   /\ (load_dotenv ∅ without_version !! u "OPENAI_API_VERSION" = None
       \/ load_dotenv ∅ without_version !! u "OPENAI_API_VERSION" = Some [])
   /\ (forall name, name ∈ configuration_names ->
                    truthy (load_dotenv key_only without_key !! name) = true))
  /\ module_body template ∅ without_key
     = inl (RuntimeError (u "Configure AZURE_OPENAI_* env vars or .env file"))
  /\ module_body template ∅ without_version
     = inl (ValidationError (u "openai_api_version"))
  /\ exists m, module_body template key_only without_key = inr m
               /\ PROMPT_HEADER m = template
               /\ Some (openai_api_base (llm m))
                  = load_dotenv key_only without_key !! u "AZURE_OPENAI_ENDPOINT"
               /\ Some (openai_api_key (llm m))
                  = load_dotenv key_only without_key !! u "AZURE_OPENAI_KEY"
               /\ Some (deployment_name (llm m))
                  = load_dotenv key_only without_key !! u "AZURE_OPENAI_DEPLOYMENT"
               /\ Some (openai_api_version (llm m))
                  = load_dotenv key_only without_key !! u "OPENAI_API_VERSION".
Proof.
  intros without_version without_key key_only.
  assert (Hin : u "AZURE_OPENAI_KEY" ∈ configuration_names).
  { unfold configuration_names, required_names. cbn [app].
    apply elem_of_cons. right. apply elem_of_cons. left. reflexivity. }
  assert (Hreq : u "AZURE_OPENAI_KEY" ∈ required_names).
  { unfold required_names. apply elem_of_cons. right.
    apply elem_of_cons. left. reflexivity. }
  assert (Hnone : load_dotenv ∅ without_key !! u "AZURE_OPENAI_KEY" = None
                  \/ load_dotenv ∅ without_key !! u "AZURE_OPENAI_KEY" = Some [])
    by (left; vm_compute; reflexivity).
  assert (H3 : forall name, name ∈ required_names ->
                            truthy (load_dotenv ∅ without_version !! name) = true).
  { intros name Hname. unfold required_names in Hname.
    repeat (apply elem_of_cons in Hname as [->|Hname];
            [vm_compute; reflexivity|]).
    apply elem_of_nil in Hname. contradiction. }
  assert (Hv : load_dotenv ∅ without_version !! u "OPENAI_API_VERSION" = None
               \/ load_dotenv ∅ without_version !! u "OPENAI_API_VERSION" = Some [])
    by (left; vm_compute; reflexivity).
  assert (H4 : forall name, name ∈ configuration_names ->
                            truthy (load_dotenv key_only without_key !! name) = true).
  { intros name Hname. unfold configuration_names, required_names in Hname.
    cbn [app] in Hname.
    repeat (apply elem_of_cons in Hname as [->|Hname];
            [vm_compute; reflexivity|]).
    apply elem_of_nil in Hname. contradiction. }
  split; [repeat split; assumption|].
  split.
  { destruct (proj1 (proj2 (four_values_are_required template ∅ without_key))
                _ Hin Hnone) as (e & He & Hkind).
    rewrite He, (Hkind Hreq). reflexivity. }
  split.
  { exact (proj1 (proj2 (proj2 (four_values_are_required template ∅ without_version)))
             H3 Hv). }
  exact (proj2 (proj2 (proj2 (four_values_are_required template key_only without_key)))
           H4).
Defined.

End OnScenarioInitialisation.

(** ** [examples/strings.py] *)

Section StringsFacts.
Import Py Strings.

(** X1. Reversing twice gives the value back: when [reverse] returns,
    applying it to the result returns the argument, and the result has
    the type and the length of the argument. *)
Theorem reverse_twice (v v' : value) :
  reverse v = inr v' ->
  reverse v' = inr v /\ len v' = len v /\ type_name v' = type_name v.
Proof.
  destruct v; simpl; intros H; inversion H; subst; simpl;
    rewrite ?rev_involutive, ?length_rev; repeat split.
Qed.

(** X2. [capitalize_first] accepts strings only. Every other value,
    also the byte strings, lists and tuples that [reverse] accepts, and
    [None], raises [TypeError("expected str")]; a string never raises
    and gives a string. *)
Theorem capitalize_first_accepts_only_str (upper_table : N -> list N)
    (v : value) :
  (is_str v = false ->
   capitalize_first upper_table v = inl (TypeError (u "expected str")))
  /\ (is_str v = true ->
      exists r, capitalize_first upper_table v = inr (VStr r))
  /\ (forall w, reverse v = inr w ->
      (exists r, capitalize_first upper_table w = inr (VStr r))
      <-> is_str v = true).
Proof.
  split; [|split].
  - intros H. unfold capitalize_first. rewrite H. reflexivity.
  - intros H. destruct v; try discriminate. unfold capitalize_first. simpl.
    destruct (bool_decide (s = [])); eauto.
  - intros w Hw.
    destruct v; simpl in Hw; inversion Hw; subst; simpl; split;
      try discriminate; try (intros [r Hr]; discriminate).
    + intros _. reflexivity.
    + intros _. unfold capitalize_first. simpl.
      destruct (bool_decide (rev s = [])); eauto.
Qed.

Lemma ascii_upper_bound (c : N) : (c < 128)%N -> (ascii_upper c < 128)%N.
Proof.
  unfold ascii_upper. intros H.
  destruct ((97 <=? c) && (c <=? 122))%N eqn:E; [|exact H].
  apply andb_true_iff in E as [E1 E2].
  apply N.leb_le in E1. apply N.leb_le in E2. lia.
Qed.

Lemma ascii_upper_not_lower (c : N) :
  ((97 <=? ascii_upper c) && (ascii_upper c <=? 122))%N = false.
Proof.
  unfold ascii_upper.
  destruct ((97 <=? c) && (c <=? 122))%N eqn:E; [|exact E].
  apply andb_true_iff in E as [E1 E2].
  apply N.leb_le in E1. apply N.leb_le in E2.
  apply andb_false_iff. left. apply N.leb_gt. lia.
Qed.

Lemma capitalize_first_cons (upper_table : N -> list N) (c : N) (rest : str) :
  capitalize_first upper_table (VStr (c :: rest))
  = inr (VStr ((if (c <? 128)%N then [ascii_upper c] else upper_table c) ++ rest)).
Proof.
  unfold capitalize_first. simpl. rewrite app_nil_r. reflexivity.
Qed.

(** X3. On a string that starts with an ASCII character,
    [capitalize_first] returns a string of the same length that differs
    from it at most in the first character, which is the upper case of
    the original one and is not a lower-case letter. The empty string
    is returned as it is. *)
Theorem capitalize_first_touches_first_only (upper_table : N -> list N)
    (c : N) (rest : str) :
  (c < 128)%N ->
  exists r,
    capitalize_first upper_table (VStr (c :: rest)) = inr (VStr r)
    /\ length r = length (c :: rest)
    /\ head r = Some (ascii_upper c)
    /\ ((97 <=? ascii_upper c) && (ascii_upper c <=? 122))%N = false
    /\ drop 1 r = rest
    /\ (forall i, (1 <= i)%nat -> r !! i = (c :: rest) !! i)
    /\ capitalize_first upper_table (VStr []) = inr (VStr []).
Proof.
  intros Hc. exists (ascii_upper c :: rest).
  rewrite capitalize_first_cons.
  apply N.ltb_lt in Hc. rewrite Hc.
  repeat split.
  - apply ascii_upper_not_lower.
  - intros i Hi. destruct i; [lia|reflexivity].
Qed.

(** X4. On strings that start with an ASCII character, and on the
    empty string, [capitalize_first] is idempotent: applied to its own
    result it returns that result. *)
Theorem capitalize_first_idempotent (upper_table : N -> list N)
    (t : str) (v : value) :
  (forall c, head t = Some c -> (c < 128)%N) ->
  capitalize_first upper_table (VStr t) = inr v ->
  capitalize_first upper_table v = inr v.
Proof.
  intros Hascii H. destruct t as [|c rest].
  - inversion H; subst. reflexivity.
  - rewrite capitalize_first_cons in H.
    pose proof (Hascii c eq_refl) as Hc.
    pose proof Hc as Hlt. apply N.ltb_lt in Hlt. rewrite Hlt in H.
    inversion H; subst. cbn [app]. rewrite capitalize_first_cons.
    pose proof (ascii_upper_bound c Hc) as Hu. apply N.ltb_lt in Hu.
    rewrite Hu. cbn [app]. unfold ascii_upper at 1.
    rewrite ascii_upper_not_lower. reflexivity.
Qed.

Lemma reverse_twice_witness :
  reverse (VList [VInt 1; VStr (u "ab"); VNone])
  = inr (VList [VNone; VStr (u "ab"); VInt 1])
  /\ reverse (VList [VNone; VStr (u "ab"); VInt 1])
     = inr (VList [VInt 1; VStr (u "ab"); VNone])
  /\ len (VList [VNone; VStr (u "ab"); VInt 1])
     = len (VList [VInt 1; VStr (u "ab"); VNone])
  /\ type_name (VList [VNone; VStr (u "ab"); VInt 1])
     = type_name (VList [VInt 1; VStr (u "ab"); VNone]).
Proof.
  split; [reflexivity|].
  exact (reverse_twice (VList [VInt 1; VStr (u "ab"); VNone])
           (VList [VNone; VStr (u "ab"); VInt 1]) eq_refl).
Defined.

Lemma capitalize_first_accepts_only_str_witness :
  (is_str (VList [VStr (u "ab")]) = false
   /\ is_str (VStr (u "ab")) = true
   /\ reverse (VStr (u "ab")) = inr (VStr (u "ba")))
  /\ capitalize_first sample_upper_table (VList [VStr (u "ab")])
     = inl (TypeError (u "expected str"))
  /\ (exists r, capitalize_first sample_upper_table (VStr (u "ab")) = inr (VStr r))
  /\ ((exists r, capitalize_first sample_upper_table (VStr (u "ba")) = inr (VStr r))
      <-> is_str (VStr (u "ab")) = true).
Proof.
  split; [repeat split|].
  split.
  { exact (proj1 (capitalize_first_accepts_only_str sample_upper_table
                    (VList [VStr (u "ab")])) eq_refl). }
  split.
  { exact (proj1 (proj2 (capitalize_first_accepts_only_str sample_upper_table
                           (VStr (u "ab")))) eq_refl). }
  exact (proj2 (proj2 (capitalize_first_accepts_only_str sample_upper_table
                         (VStr (u "ab")))) (VStr (u "ba")) eq_refl).
Defined.

Lemma capitalize_first_touches_first_only_witness :
  (104 < 128)%N
  /\ exists r,
       capitalize_first sample_upper_table (VStr (u "hello world")) = inr (VStr r)
       /\ length r = length (u "hello world")
       /\ head r = Some (ascii_upper 104)
       /\ ((97 <=? ascii_upper 104) && (ascii_upper 104 <=? 122))%N = false
       /\ drop 1 r = u "ello world"
       /\ (forall i, (1 <= i)%nat -> r !! i = u "hello world" !! i)
       /\ capitalize_first sample_upper_table (VStr []) = inr (VStr []).
Proof.
  assert (H : (104 < 128)%N) by reflexivity.
  split; [exact H|].
  exact (capitalize_first_touches_first_only sample_upper_table 104%N
           (u "ello world") H).
Defined.

Lemma capitalize_first_idempotent_witness :
  ((forall c, head (u "hello") = Some c -> (c < 128)%N)
   /\ capitalize_first sample_upper_table (VStr (u "hello")) = inr (VStr (u "Hello")))
  /\ capitalize_first sample_upper_table (VStr (u "Hello")) = inr (VStr (u "Hello")).
Proof.
  assert (H1 : forall c, head (u "hello") = Some c -> (c < 128)%N).
  { intros c Hc. inversion Hc; subst. reflexivity. }
  assert (H2 : capitalize_first sample_upper_table (VStr (u "hello"))
               = inr (VStr (u "Hello")))
    by reflexivity.
  split; [split; assumption|].
  exact (capitalize_first_idempotent sample_upper_table (u "hello")
           (VStr (u "Hello")) H1 H2).
Defined.

(** Outside the ASCII range the length can change: with sharp s
    becoming [SS] the result is one character longer. *)
Example capitalize_first_sharp_s :
  capitalize_first sample_upper_table (VStr [223%N; 116%N])
  = inr (VStr (u "SSt")).
Proof. reflexivity. Qed.

End StringsFacts.

(** ** Every outcome of a call *)

Section Outcomes.
Import Py OsPath Agent.
Context {service_state : Type}.
Variable chat :
  service_state -> llm_client -> list message -> result (list N) * service_state.

Implicit Types (w : world service_state) (m : agent_module).

(** The four ways the output stage can end: [makedirs] fails, opening
    the file fails after the directories exist, the file is written, or
    the write fails and leaves the file empty. *)
Lemma write_out_cases (out_dir fname content : str) w (r : result str) w' :
  write_out out_dir fname content w = (r, w') ->
  (exists e, r = inl e /\ w' = log (EvMakedirs out_dir) w)
  \/ (exists e fs,
        Fs.mkdirs (files w) out_dir (Fs.chain (abspath (cwd w) out_dir)) = inr fs
        /\ r = inl e
        /\ w' = log (EvOpenWrite fname) (set_files fs (log (EvMakedirs out_dir) w)))
  \/ (exists fs,
        Fs.mkdirs (files w) out_dir (Fs.chain (abspath (cwd w) out_dir)) = inr fs
        /\ Fs.lookup_node fs (abspath (cwd w) fname) <> Some Dir
        /\ r = inr fname
        /\ w' = World (cwd w)
                  (<[abspath (cwd w) fname := File (content ++ [NL])]> fs)
                  (service w)
                  (trace w ++ [EvMakedirs out_dir; EvOpenWrite fname;
                               EvWrite (abspath (cwd w) fname) (content ++ [NL])]))
  \/ (exists fs,
        Fs.mkdirs (files w) out_dir (Fs.chain (abspath (cwd w) out_dir)) = inr fs
        /\ Fs.lookup_node fs (abspath (cwd w) fname) <> Some Dir
        /\ r = inl (UnicodeEncodeError (content ++ [NL]))
        /\ w' = World (cwd w)
                  (<[abspath (cwd w) fname := File []]> fs)
                  (service w)
                  (trace w ++ [EvMakedirs out_dir; EvOpenWrite fname;
                               EvWrite (abspath (cwd w) fname) (content ++ [NL])])).
Proof.
  intros H.
  destruct (write_out_stages _ _ _ _ _ _ H)
    as [Hmk|[Hopen|(fs & Hout & Hmk & Hname & Hchk & Hk)]];
    [left; exact Hmk|right; left; exact Hopen|].
  rewrite (write_out_opened out_dir fname content w fs) in H by assumption.
  right. right.
  destruct (encodable (content ++ [NL])); inversion H; subst; [left|right];
    exists fs; repeat (split; [first [reflexivity|assumption]|]); reflexivity.
Qed.

(** The ways a call can end. *)
Lemma generate_cases m (src_path out_dir : str) w (r : result str) w' :
  generate_tests_for_file chat m src_path out_dir w = (r, w') ->
  (exists e, r = inl e /\ w' = log (EvOpenRead (abspath (cwd w) src_path)) w)
  \/ exists (source prompt : str) w1 (s : service_state),
       read_text (abspath (cwd w) src_path) w = (inr source, w1)
       /\ build_prompt (PROMPT_HEADER m) (abspath (cwd w) src_path) source
          = inr prompt
       /\ ((exists e, r = inl e
                      /\ w' = answered w m (abspath (cwd w) src_path) prompt s)
           \/ exists resp,
                chat (service w) (llm m) (request prompt) = (inr resp, s)
                /\ startswith (strip resp) (u "import pytest") = true
                /\ contains (strip resp) (u "def test_") = true
                /\ write_out out_dir (out_fname (cwd w) src_path out_dir)
                     (strip resp)
                     (answered w m (abspath (cwd w) src_path) prompt s)
                   = (r, w')).
Proof.
  intros Hgen.
  destruct (read_text (abspath (cwd w) src_path) w) as [[e|source] w1] eqn:Hread.
  { rewrite (generate_read_failure chat m src_path out_dir w e w1) in Hgen
      by assumption.
    inversion Hgen; subst. left. eauto. }
  destruct (build_prompt (PROMPT_HEADER m) (abspath (cwd w) src_path) source)
    as [e|prompt] eqn:Hprompt.
  { rewrite (generate_prompt_failure chat m src_path out_dir w source w1 e)
      in Hgen by assumption.
    inversion Hgen; subst. left. eauto. }
  right.
  destruct (chat (service w) (llm m) (request prompt)) as [[e|resp] s] eqn:Hchat.
  { rewrite (generate_chat_failure chat m src_path out_dir w source prompt w1 e s)
      in Hgen by assumption.
    inversion Hgen; subst.
    exists source, prompt, w1, s. repeat (split; [first [reflexivity|assumption]|]).
    left. eauto. }
  rewrite (generate_run chat m src_path out_dir w source prompt resp w1 s)
    in Hgen by assumption.
  exists source, prompt, w1, s. repeat (split; [first [reflexivity|assumption]|]).
  destruct (startswith (strip resp) (u "import pytest")) eqn:Hstart;
    [|inversion Hgen; subst; left; eauto].
  destruct (contains (strip resp) (u "def test_")) eqn:Hcont;
    [|inversion Hgen; subst; left; eauto].
  right. exists resp. repeat (split; [first [reflexivity|assumption]|]). exact Hgen.
Qed.

End Outcomes.

Section WhitespaceFacts.
Import Py.

Lemma lstrip_spaces (ws s : str) :
  forallb isspace ws = true -> lstrip (ws ++ s) = lstrip s.
Proof.
  induction ws as [|c ws IH]; simpl; [reflexivity|].
  intros H. apply andb_true_iff in H as [Hc Hws]. rewrite Hc. apply IH, Hws.
Qed.

Lemma lstrip_all_spaces (ws : str) : forallb isspace ws = true -> lstrip ws = [].
Proof.
  intros H. rewrite <- (app_nil_r ws), lstrip_spaces by assumption. reflexivity.
Qed.

Lemma forallb_rev (f : N -> bool) (l : str) :
  forallb f (rev l) = forallb f l.
Proof.
  induction l as [|c l IH]; simpl; [reflexivity|].
  rewrite forallb_app, IH. simpl. rewrite andb_true_r. apply andb_comm.
Qed.

Lemma rstrip_spaces (s ws : str) :
  forallb isspace ws = true -> rstrip (s ++ ws) = rstrip s.
Proof.
  intros H. unfold rstrip. rewrite rev_app_distr, lstrip_spaces; [reflexivity|].
  rewrite forallb_rev. exact H.
Qed.

Lemma lstrip_app_spaces (s ws : str) :
  forallb isspace ws = true ->
  lstrip (s ++ ws) = lstrip s ++ ws \/ (lstrip s = [] /\ lstrip (s ++ ws) = []).
Proof.
  intros H. induction s as [|c s IH]; simpl.
  - right. split; [reflexivity|]. apply lstrip_all_spaces, H.
  - destruct (isspace c); [exact IH|]. left. reflexivity.
Qed.

(** White space around a text does not change what [strip] returns. *)
Lemma strip_surrounded (ws1 s ws2 : str) :
  forallb isspace ws1 = true -> forallb isspace ws2 = true ->
  strip (ws1 ++ s ++ ws2) = strip s.
Proof.
  intros H1 H2. unfold strip. rewrite lstrip_spaces by assumption.
  destruct (lstrip_app_spaces s ws2 H2) as [->|[-> ->]].
  - apply rstrip_spaces, H2.
  - reflexivity.
Qed.

Lemma lstrip_head (s : str) (x : N) (t : str) :
  lstrip s = x :: t -> isspace x = false.
Proof.
  induction s as [|c s IH]; simpl; [discriminate|].
  destruct (isspace c) eqn:Hc; [exact IH|].
  intros H. inversion H; subst. exact Hc.
Qed.

Lemma last_rev_head (l : str) : last (rev l) = head l.
Proof.
  destruct l as [|c l]; [reflexivity|]. simpl. apply last_snoc.
Qed.

(** The stripped text does not end with white space. *)
Lemma strip_last (s : str) (x : N) :
  last (strip s) = Some x -> isspace x = false.
Proof.
  unfold strip, rstrip. rewrite last_rev_head.
  destruct (lstrip (rev (lstrip s))) as [|y t] eqn:H; [discriminate|].
  intros Hx. inversion Hx; subst. eapply lstrip_head, H.
Qed.

End WhitespaceFacts.

Section FsMoreFacts.
Import Py OsPath.
Implicit Types (fs : gmap (list N) node) (name d k : list N) (dirs : list (list N)).

Lemma lookup_node_None fs d : Fs.lookup_node fs d = None -> fs !! d = None.
Proof. unfold Fs.lookup_node. destruct (all_slashes d); [discriminate|auto]. Qed.

(** [makedirs] adds directories at paths where there was nothing. *)
Lemma mkdirs_keeps_entries fs name dirs fs' k (n : node) :
  Fs.mkdirs fs name dirs = inr fs' -> fs !! k = Some n -> fs' !! k = Some n.
Proof.
  revert fs. induction dirs as [|d dirs IH]; intros fs H Hk; simpl in H.
  - inversion H; subst. exact Hk.
  - destruct (Fs.lookup_node fs d) as [[text| |]|] eqn:Hd;
      [discriminate| |discriminate|].
    + eapply IH; eassumption.
    + eapply IH; [eassumption|].
      apply lookup_node_None in Hd.
      rewrite lookup_insert_ne by congruence. exact Hk.
Qed.

Lemma mkdirs_adds_no_file fs name dirs fs' k (text : list N) :
  Fs.mkdirs fs name dirs = inr fs' ->
  fs' !! k = Some (File text) -> fs !! k = Some (File text).
Proof.
  revert fs. induction dirs as [|d dirs IH]; intros fs H Hk; simpl in H.
  - inversion H; subst. exact Hk.
  - destruct (Fs.lookup_node fs d) as [[t| |]|] eqn:Hd;
      [discriminate| |discriminate|].
    + eapply IH; eassumption.
    + pose proof (IH _ H Hk) as Hins.
      destruct (decide (d = k)) as [->|Hne].
      * rewrite lookup_insert_eq in Hins. discriminate.
      * rewrite lookup_insert_ne in Hins by assumption. exact Hins.
Qed.

End FsMoreFacts.

(** ** Failures, order of effects, what a call leaves behind *)

Section CallFacts.
Import Py OsPath Agent.
Context {service_state : Type}.
Variable chat :
  service_state -> llm_client -> list message -> result (list N) * service_state.

Implicit Types (w : world service_state) (m : agent_module).

(** X5. An exception raised by the model call is not caught: the call
    raises it, after one request and no second attempt, and the file
    system is left as it was. *)
Theorem model_error_propagates m (src_path out_dir : str) w
    (source prompt : str) w1 (e : exn) (s : service_state) :
  read_text (abspath (cwd w) src_path) w = (inr source, w1) ->
  build_prompt (PROMPT_HEADER m) (abspath (cwd w) src_path) source = inr prompt ->
  chat (service w) (llm m) (request prompt) = (inl e, s) ->
  exists w',
    generate_tests_for_file chat m src_path out_dir w = (inl e, w')
    /\ files w' = files w
    /\ service w' = s
    /\ added w w' [EvOpenRead (abspath (cwd w) src_path);
                   EvChat (llm m) (request prompt)].
Proof.
  intros Hread Hprompt Hchat.
  exists (answered w m (abspath (cwd w) src_path) prompt s).
  rewrite (generate_chat_failure chat m src_path out_dir w source prompt w1 e s)
    by assumption.
  unfold added. rewrite answered_trace. repeat split.
Qed.

(** X6. When the template has a replacement field whose name is
    neither [src_path] nor [source], line 35 raises [KeyError] with that
    name, whatever the path and the source are; the call raises it
    right after reading the source, without calling the model and
    without writing anything. *)
Theorem unknown_field_stops_call m (src_path out_dir : str) w
    (source : str) w1 (pre name rest : str) :
  read_text (abspath (cwd w) src_path) w = (inr source, w1) ->
  PROMPT_HEADER m = pre ++ LBRACE :: name ++ RBRACE :: rest ->
  LBRACE ∉ pre -> RBRACE ∉ pre ->
  Format.is_identifier name = true ->
  name <> u "src_path" -> name <> u "source" ->
  exists w',
    generate_tests_for_file chat m src_path out_dir w = (inl (KeyError name), w')
    /\ files w' = files w
    /\ service w' = service w
    /\ added w w' [EvOpenRead (abspath (cwd w) src_path)].
Proof.
  intros Hread Hhdr Hl Hr Hid Hn1 Hn2.
  assert (Hprompt : build_prompt (PROMPT_HEADER m) (abspath (cwd w) src_path) source
                    = inl (KeyError name)).
  { rewrite Hhdr. unfold build_prompt, Format.format.
    rewrite format_from_literal by assumption.
    destruct name as [|c name]; [discriminate|].
    pose proof Hid as Hid'.
    cbn [Format.is_identifier] in Hid'. apply andb_true_iff in Hid' as [Hc Hname].
    assert (Hc' : Format.is_ident_char c = true)
      by (unfold Format.is_ident_char; rewrite Hc; reflexivity).
    pose proof (ident_char_plain c Hc') as (_ & H2 & _).
    cbn [app]. rewrite format_from_open by exact H2.
    change (c :: name ++ RBRACE :: rest) with ((c :: name) ++ RBRACE :: rest).
    rewrite format_from_field_name
      by (change (Format.is_ident_char c
                  && forallb Format.is_ident_char name = true);
          rewrite Hc', Hname; reflexivity).
    cbn [app]. unfold Format.get_field. rewrite Hid.
    rewrite lookup_insert_ne by congruence.
    rewrite lookup_singleton_ne by congruence. reflexivity. }
  exists (log (EvOpenRead (abspath (cwd w) src_path)) w).
  rewrite (generate_prompt_failure chat m src_path out_dir w source w1 _)
    by eassumption.
  repeat split.
Qed.

(** X7. The effects of a call always come in the same order: whatever
    the outcome, what the call attempts is a non-empty initial part of
    the sequence read the source, ask the model, create the directory,
    open the output file, write it. In particular the source is read at
    most once and the model is asked at most once. *)
Theorem effects_in_order m (src_path out_dir : str) w (r : result str) w' :
  generate_tests_for_file chat m src_path out_dir w = (r, w') ->
  exists (evs : list event) (prompt text : str),
    added w w' evs
    /\ evs <> []
    /\ evs `prefix_of`
         [EvOpenRead (abspath (cwd w) src_path);
          EvChat (llm m) (request prompt);
          EvMakedirs out_dir;
          EvOpenWrite (out_fname (cwd w) src_path out_dir);
          EvWrite (abspath (cwd w) (out_fname (cwd w) src_path out_dir)) text].
Proof.
  intros Hgen. unfold added.
  apply generate_cases in Hgen
    as [(e & -> & ->)
       |(source & prompt & w1 & s & Hread & Hprompt
         & [(e & -> & ->)|(resp & Hchat & Hstart & Hcont & Hout)])].
  - exists [EvOpenRead (abspath (cwd w) src_path)], [], [].
    split; [reflexivity|]. split; [discriminate|].
    eexists. reflexivity.
  - exists [EvOpenRead (abspath (cwd w) src_path);
            EvChat (llm m) (request prompt)], prompt, [].
    split; [apply answered_trace|]. split; [discriminate|].
    eexists. reflexivity.
  - apply write_out_cases in Hout
      as [(e & -> & ->)|[(e & fs & _ & -> & ->)
                        |[(fs & _ & _ & -> & ->)|(fs & _ & _ & -> & ->)]]].
    + exists [EvOpenRead (abspath (cwd w) src_path);
              EvChat (llm m) (request prompt); EvMakedirs out_dir], prompt, [].
      split; [cbn [trace log]; rewrite answered_trace, <- app_assoc; reflexivity|].
      split; [discriminate|]. eexists. reflexivity.
    + exists [EvOpenRead (abspath (cwd w) src_path);
              EvChat (llm m) (request prompt); EvMakedirs out_dir;
              EvOpenWrite (out_fname (cwd w) src_path out_dir)], prompt, [].
      split; [cbn [trace log set_files]; rewrite answered_trace, <- !app_assoc;
              reflexivity|].
      split; [discriminate|]. eexists. reflexivity.
    + exists [EvOpenRead (abspath (cwd w) src_path);
              EvChat (llm m) (request prompt); EvMakedirs out_dir;
              EvOpenWrite (out_fname (cwd w) src_path out_dir);
              EvWrite (abspath (cwd w) (out_fname (cwd w) src_path out_dir))
                (strip resp ++ [NL])], prompt, (strip resp ++ [NL]).
      split; [cbn [trace]; rewrite answered_trace, <- !app_assoc; reflexivity|].
      split; [discriminate|]. exists []. reflexivity.
    + exists [EvOpenRead (abspath (cwd w) src_path);
              EvChat (llm m) (request prompt); EvMakedirs out_dir;
              EvOpenWrite (out_fname (cwd w) src_path out_dir);
              EvWrite (abspath (cwd w) (out_fname (cwd w) src_path out_dir))
                (strip resp ++ [NL])], prompt, (strip resp ++ [NL]).
      split; [cbn [trace]; rewrite answered_trace, <- !app_assoc; reflexivity|].
      split; [discriminate|]. exists []. reflexivity.
Qed.

(** What a call does to the entries of the file system. *)
Lemma generate_keeps_entries m (src_path out_dir : str) w (r : result str) w'
    (k : str) (n : node) :
  generate_tests_for_file chat m src_path out_dir w = (r, w') ->
  k <> abspath (cwd w) (out_fname (cwd w) src_path out_dir) ->
  files w !! k = Some n -> files w' !! k = Some n.
Proof.
  intros Hgen Hne Hk.
  apply generate_cases in Hgen
    as [(e & -> & ->)
       |(source & prompt & w1 & s & Hread & Hprompt
         & [(e & -> & ->)|(resp & Hchat & Hstart & Hcont & Hout)])];
    [exact Hk|exact Hk|].
  apply write_out_cases in Hout
    as [(e & -> & ->)|[(e & fs & Hmk & -> & ->)
                      |[(fs & Hmk & _ & -> & ->)|(fs & Hmk & _ & -> & ->)]]].
  - exact Hk.
  - cbn [files log set_files]. eapply mkdirs_keeps_entries; eassumption.
  - cbn [files cwd answered set_service log] in *.
    rewrite lookup_insert_ne by congruence.
    eapply mkdirs_keeps_entries; eassumption.
  - cbn [files cwd answered set_service log] in *.
    rewrite lookup_insert_ne by congruence.
    eapply mkdirs_keeps_entries; eassumption.
Qed.

(** X8. A call never removes an entry of the file system and never
    changes one other than the output file: whatever the outcome, every
    path other than the output path that held a file or a directory
    before the call holds the same one after it. *)
Theorem other_entries_survive m (src_path out_dir : str) w (r : result str) w'
    (k : str) (n : node) :
  generate_tests_for_file chat m src_path out_dir w = (r, w') ->
  k <> abspath (cwd w) (out_fname (cwd w) src_path out_dir) ->
  files w !! k = Some n ->
  files w' !! k = Some n.
Proof. apply generate_keeps_entries. Qed.

(** X9. A call that fails without getting as far as the write changes
    no regular file: after it, the regular files and their texts are
    those of before. Only directories may have been created, when the
    failure comes from opening the output file. (A write that fails has
    left the output file empty.) *)
Theorem failed_call_changes_no_file m (src_path out_dir : str) w (e : exn) w' :
  generate_tests_for_file chat m src_path out_dir w = (inl e, w') ->
  (exists evs, added w w' evs /\ forall k text, EvWrite k text ∉ evs) ->
  (forall (k text : str),
     files w' !! k = Some (File text) <-> files w !! k = Some (File text))
  /\ (forall k, files w' !! k = Some Dir ->
                files w !! k = Some Dir \/ files w !! k = None).
Proof.
  intros Hgen (evs & Hadded & Hnowrite).
  apply generate_cases in Hgen
    as [(e0 & He & ->)
       |(source & prompt & w1 & s & Hread & Hprompt
         & [(e0 & He & ->)|(resp & Hchat & Hstart & Hcont & Hout)])];
    [split; [reflexivity|auto]|split; [reflexivity|auto]|].
  apply write_out_cases in Hout
    as [(e0 & He & ->)|[(e0 & fs & Hmk & He & ->)
                       |[(fs & _ & _ & He & _)|(fs & _ & _ & _ & ->)]]];
    [split; [reflexivity|auto]| |discriminate|].
  - cbn [files log set_files answered set_service] in *.
    split.
    + intros k text. split.
      * eapply mkdirs_adds_no_file; eassumption.
      * eapply mkdirs_keeps_entries; eassumption.
    + intros k Hk.
      destruct (files w !! k) as [[text| |]|] eqn:Hw; [|auto| |auto].
      * pose proof (mkdirs_keeps_entries _ _ _ _ _ _ Hmk Hw) as Hkeep.
        rewrite Hk in Hkeep. discriminate.
      * pose proof (mkdirs_keeps_entries _ _ _ _ _ _ Hmk Hw) as Hkeep.
        rewrite Hk in Hkeep. discriminate.
  - exfalso. unfold added in Hadded. cbn [trace] in Hadded.
    rewrite answered_trace, <- app_assoc in Hadded.
    apply app_inv_head in Hadded. subst evs.
    eapply Hnowrite. cbn [app].
    rewrite !elem_of_cons. right. right. right. right. left. reflexivity.
Qed.

(** X10. The file that a successful call has written starts with
    [import pytest], contains [def test_], and ends with one newline
    that follows a character that is not white space: there is no blank
    line and no trailing space at its end. *)
Theorem written_file_shape m (src_path out_dir : str) w (p : str) w' :
  generate_tests_for_file chat m src_path out_dir w = (inr p, w') ->
  exists (body : str) (x : N),
    files w' !! abspath (cwd w) p = Some (File (body ++ [NL]))
    /\ startswith body (u "import pytest") = true
    /\ contains body (u "def test_") = true
    /\ last body = Some x
    /\ isspace x = false.
Proof.
  intros Hgen.
  apply generate_success_inv in Hgen
    as (source & prompt & resp & w0 & s & fs & _ & _ & _ & Hstart & Hcont
        & _ & _ & _ & _ & _ & _ & -> & _ & _ & Hfiles).
  destruct (last (strip resp)) as [x|] eqn:Hlast.
  - exists (strip resp), x.
    rewrite Hfiles, lookup_insert_eq.
    repeat split; try assumption. eapply strip_last, Hlast.
  - apply last_None in Hlast. rewrite Hlast in Hstart. discriminate.
Qed.

End CallFacts.

Section SurroundingWhitespace.
Import Py OsPath Agent.
Context {service_state : Type}.
Variables chat1 chat2 :
  service_state -> llm_client -> list message -> result (list N) * service_state.

Implicit Types (w : world service_state) (m : agent_module).

(** X11. White space around the model's answer makes no difference:
    a service that wraps its answer in white space leads to the same
    result, the same files and the same log as one that returns the
    answer bare. *)
Theorem surrounding_whitespace_is_ignored m (src_path out_dir : str) w
    (source prompt resp ws1 ws2 : str) w1 (s : service_state) :
  read_text (abspath (cwd w) src_path) w = (inr source, w1) ->
  build_prompt (PROMPT_HEADER m) (abspath (cwd w) src_path) source = inr prompt ->
  chat1 (service w) (llm m) (request prompt) = (inr resp, s) ->
  chat2 (service w) (llm m) (request prompt) = (inr (ws1 ++ resp ++ ws2), s) ->
  forallb isspace ws1 = true ->
  forallb isspace ws2 = true ->
  generate_tests_for_file chat2 m src_path out_dir w
  = generate_tests_for_file chat1 m src_path out_dir w.
Proof.
  intros Hread Hprompt H1 H2 Hws1 Hws2.
  rewrite (generate_run chat1 m src_path out_dir w source prompt resp w1 s)
    by assumption.
  rewrite (generate_run chat2 m src_path out_dir w source prompt
             (ws1 ++ resp ++ ws2) w1 s) by assumption.
  rewrite strip_surrounded by assumption. reflexivity.
Qed.

End SurroundingWhitespace.

Section OnScenarioMore.
Import Py OsPath Agent Scenario ScenarioMore.

Lemma model_error_propagates_witness :
  let w := world_with [inl (ServiceError (u "rate limit")); inr good_answer] in
  (read_text (abspath (cwd w) src0) w = (inr strings_py, log (EvOpenRead abs0) w)
   /\ build_prompt (PROMPT_HEADER m0) (abspath (cwd w) src0) strings_py = inr prompt0
   /\ scripted (service w) (llm m0) (request prompt0)
      = (inl (ServiceError (u "rate limit")), [inr good_answer]))
  /\ exists w',
       generate_tests_for_file scripted m0 src0 (u "out") w
       = (inl (ServiceError (u "rate limit")), w')
       /\ files w' = files w
       /\ service w' = [inr good_answer]
       /\ added w w' [EvOpenRead (abspath (cwd w) src0);
                      EvChat (llm m0) (request prompt0)].
Proof.
  intros w.
  assert (H1 : read_text (abspath (cwd w) src0) w
               = (inr strings_py, log (EvOpenRead abs0) w))
    by (vm_compute; reflexivity).
  assert (H2 : build_prompt (PROMPT_HEADER m0) (abspath (cwd w) src0) strings_py
               = inr prompt0)
    by (vm_compute; reflexivity).
  assert (H3 : scripted (service w) (llm m0) (request prompt0)
               = (inl (ServiceError (u "rate limit")), [inr good_answer]))
    by reflexivity.
  split; [repeat split; assumption|].
  exact (model_error_propagates scripted m0 src0 (u "out") w
           strings_py prompt0 _ _ _ H1 H2 H3).
Defined.

Lemma unknown_field_stops_call_witness :
  let w := world_with [inr good_answer] in
  (read_text (abspath (cwd w) src0) w = (inr strings_py, log (EvOpenRead abs0) w)
   /\ PROMPT_HEADER m_stray
      = u "Source file path: " ++ LBRACE :: u "path" ++ RBRACE :: (NL :: u "{source}")
   /\ (LBRACE ∉ u "Source file path: ")
   /\ (RBRACE ∉ u "Source file path: ")
   /\ Format.is_identifier (u "path") = true
   /\ u "path" <> u "src_path"
   /\ u "path" <> u "source")
  /\ exists w',
       generate_tests_for_file scripted m_stray src0 (u "out") w
       = (inl (KeyError (u "path")), w')
       /\ files w' = files w
       /\ service w' = service w
       /\ added w w' [EvOpenRead (abspath (cwd w) src0)].
Proof.
  intros w.
  assert (H1 : read_text (abspath (cwd w) src0) w
               = (inr strings_py, log (EvOpenRead abs0) w))
    by (vm_compute; reflexivity).
  assert (H2 : PROMPT_HEADER m_stray
               = u "Source file path: " ++ LBRACE :: u "path"
                   ++ RBRACE :: (NL :: u "{source}"))
    by reflexivity.
  assert (H3 : LBRACE ∉ u "Source file path: ").
  { vm_compute. intros H.
    repeat (apply elem_of_cons in H as [H|H]; [discriminate|]).
    apply elem_of_nil in H. exact H. }
  assert (H4 : RBRACE ∉ u "Source file path: ").
  { vm_compute. intros H.
    repeat (apply elem_of_cons in H as [H|H]; [discriminate|]).
    apply elem_of_nil in H. exact H. }
  assert (H5 : Format.is_identifier (u "path") = true) by reflexivity.
  assert (H6 : u "path" <> u "src_path") by discriminate.
  assert (H7 : u "path" <> u "source") by discriminate.
  split; [repeat split; assumption|].
  exact (unknown_field_stops_call scripted m_stray src0 (u "out") w
           strings_py _ _ _ _ H1 H2 H3 H4 H5 H6 H7).
Defined.

Lemma effects_in_order_witness :
  let w := world_with [inr good_answer] in
  let run := generate_tests_for_file scripted m0 src0 (u "out") w in
  run = (fst run, snd run)
  /\ exists (evs : list event) (prompt text : str),
       added w (snd run) evs
       /\ evs <> []
       /\ evs `prefix_of`
            [EvOpenRead (abspath (cwd w) src0);
             EvChat (llm m0) (request prompt);
             EvMakedirs (u "out");
             EvOpenWrite (out_fname (cwd w) src0 (u "out"));
             EvWrite (abspath (cwd w) (out_fname (cwd w) src0 (u "out"))) text].
Proof.
  intros w run.
  assert (H : run = (fst run, snd run)) by apply surjective_pairing.
  split; [exact H|].
  exact (effects_in_order scripted m0 src0 (u "out") w (fst run) (snd run) H).
Defined.

Lemma other_entries_survive_witness :
  let w := world_with [inr good_answer] in
  let run := generate_tests_for_file scripted m0 src0 (u "examples") w in
  (run = (fst run, snd run)
   /\ abs0 <> abspath (cwd w) (out_fname (cwd w) src0 (u "examples"))
   /\ files w !! abs0 = Some (File strings_py))
  /\ files (snd run) !! abs0 = Some (File strings_py).
Proof.
  intros w run.
  assert (H1 : run = (fst run, snd run)) by apply surjective_pairing.
  assert (H2 : abs0 <> abspath (cwd w) (out_fname (cwd w) src0 (u "examples")))
    by (vm_compute; discriminate).
  assert (H3 : files w !! abs0 = Some (File strings_py))
    by (vm_compute; reflexivity).
  split; [repeat split; assumption|].
  exact (other_entries_survive scripted m0 src0 (u "examples") w
           (fst run) (snd run) abs0 (File strings_py) H1 H2 H3).
Defined.

Lemma failed_call_changes_no_file_witness :
  let w := world_with [inr good_answer] in
  let out_dir := u "new/dir" in
  let w0 :=
    World (cwd w) (<[u "/repo/new/dir/test_strings.py" := Dir]> (files w))
      (service w) (trace w) in
  let w' := snd (generate_tests_for_file scripted m0 src0 out_dir w0) in
  let evs :=
    [EvOpenRead abs0; EvChat (llm m0) (request prompt0); EvMakedirs out_dir;
     EvOpenWrite (u "new/dir/test_strings.py")] in
  (generate_tests_for_file scripted m0 src0 out_dir w0
   = (inl (IsADirectoryError (u "new/dir/test_strings.py")), w')
   /\ added w0 w' evs
   /\ forall k text, EvWrite k text ∉ evs)
  /\ (forall (k text : str),
        files w' !! k = Some (File text)
        <-> (<[u "/repo/new/dir/test_strings.py" := Dir]> (files w)) !! k
            = Some (File text))
  /\ (forall k, files w' !! k = Some Dir ->
                (<[u "/repo/new/dir/test_strings.py" := Dir]> (files w)) !! k
                = Some Dir
                \/ (<[u "/repo/new/dir/test_strings.py" := Dir]> (files w)) !! k
                   = None).
Proof.
  intros w out_dir w0 w' evs.
  assert (H : generate_tests_for_file scripted m0 src0 out_dir w0
              = (inl (IsADirectoryError (u "new/dir/test_strings.py")), w'))
    by (vm_compute; reflexivity).
  assert (Hadded : added w0 w' evs) by (vm_compute; reflexivity).
  assert (Hnowrite : forall k text, EvWrite k text ∉ evs).
  { intros k text Hin. unfold evs in Hin.
    repeat (apply elem_of_cons in Hin as [Hin|Hin]; [discriminate|]).
    apply elem_of_nil in Hin. exact Hin. }
  split; [repeat split; assumption|].
  exact (failed_call_changes_no_file scripted m0 src0 out_dir w0 _ w' H
           (ex_intro _ evs (conj Hadded Hnowrite))).
Defined.

Lemma written_file_shape_witness :
  let w := world_with [inr good_answer] in
  let w' := snd (generate_tests_for_file scripted m0 src0 (u "out") w) in
  generate_tests_for_file scripted m0 src0 (u "out") w
  = (inr (u "out/test_strings.py"), w')
  /\ exists (body : str) (x : N),
       files w' !! abspath (cwd w) (u "out/test_strings.py")
       = Some (File (body ++ [NL]))
       /\ startswith body (u "import pytest") = true
       /\ contains body (u "def test_") = true
       /\ last body = Some x
       /\ isspace x = false.
Proof.
  intros w w'.
  assert (H : generate_tests_for_file scripted m0 src0 (u "out") w
              = (inr (u "out/test_strings.py"), w'))
    by (vm_compute; reflexivity).
  split; [exact H|].
  exact (written_file_shape scripted m0 src0 (u "out") w _ _ H).
Defined.

Lemma surrounding_whitespace_is_ignored_witness :
  let w := world_with [inr good_answer] in
  (read_text (abspath (cwd w) src0) w = (inr strings_py, log (EvOpenRead abs0) w)
   /\ build_prompt (PROMPT_HEADER m0) (abspath (cwd w) src0) strings_py = inr prompt0
   /\ bare_service (service w) (llm m0) (request prompt0) = (inr bare_answer, [])
   /\ scripted (service w) (llm m0) (request prompt0)
      = (inr ([NL] ++ bare_answer ++ [NL; NL]), [])
   /\ forallb isspace [NL] = true
   /\ forallb isspace [NL; NL] = true)
  /\ generate_tests_for_file scripted m0 src0 (u "out") w
     = generate_tests_for_file bare_service m0 src0 (u "out") w.
Proof.
  intros w.
  assert (H1 : read_text (abspath (cwd w) src0) w
               = (inr strings_py, log (EvOpenRead abs0) w))
    by (vm_compute; reflexivity).
  assert (H2 : build_prompt (PROMPT_HEADER m0) (abspath (cwd w) src0) strings_py
               = inr prompt0)
    by (vm_compute; reflexivity).
  assert (H3 : bare_service (service w) (llm m0) (request prompt0)
               = (inr bare_answer, []))
    by reflexivity.
  assert (H4 : scripted (service w) (llm m0) (request prompt0)
               = (inr ([NL] ++ bare_answer ++ [NL; NL]), []))
    by (vm_compute; reflexivity).
  assert (H5 : forallb isspace [NL] = true) by reflexivity.
  assert (H6 : forallb isspace [NL; NL] = true) by reflexivity.
  split; [repeat split; assumption|].
  exact (surrounding_whitespace_is_ignored bare_service scripted m0 src0 (u "out") w
           strings_py prompt0 bare_answer [NL] [NL; NL] _ [] H1 H2 H3 H4 H5 H6).
Defined.

End OnScenarioMore.

(** ** Normalised paths *)

Section NormpathFacts.
Import Py OsPath.

Lemma split_nonempty (s : str) (sep : N) : split s sep <> [].
Proof.
  destruct s as [|c s]; simpl; [discriminate|].
  destruct (c =? sep)%N; [discriminate|].
  destruct (split s sep); discriminate.
Qed.

Lemma split_no_sep (w : str) (sep : N) : sep ∉ w -> split w sep = [w].
Proof.
  induction w as [|c w IH]; intros H; simpl; [reflexivity|].
  apply not_elem_of_cons in H as [Hc Hw].
  destruct (N.eqb_spec c sep) as [->|_]; [contradiction|].
  rewrite IH by assumption. reflexivity.
Qed.

Lemma split_app_sep (x y : str) (sep : N) :
  split (x ++ sep :: y) sep = split x sep ++ split y sep.
Proof.
  induction x as [|c x IH]; simpl.
  - rewrite N.eqb_refl. reflexivity.
  - destruct (c =? sep)%N.
    + rewrite IH. reflexivity.
    + rewrite IH. pose proof (split_nonempty x sep) as Hne.
      destruct (split x sep) as [|w ws]; [contradiction|]. reflexivity.
Qed.

Lemma split_pieces_no_sep (s : str) (sep : N) :
  Forall (fun piece => sep ∉ piece) (split s sep).
Proof.
  induction s as [|c s IH]; simpl.
  - constructor; [apply not_elem_of_nil|constructor].
  - destruct (N.eqb_spec c sep) as [->|Hc].
    + constructor; [apply not_elem_of_nil|exact IH].
    + destruct (split s sep) as [|w ws]; [repeat constructor|].
      * intros H. apply elem_of_cons in H as [H|H]; [congruence|].
        apply elem_of_nil in H. exact H.
      * inversion IH; subst. constructor; [|assumption].
        intros H. apply elem_of_cons in H as [H|H]; [congruence|contradiction].
Qed.

Lemma normpath_step_name (i : nat) (acc : list str) (comp : str) :
  is_name comp -> normpath_step i acc comp = acc ++ [comp].
Proof.
  intros (H1 & H2 & H3 & _). unfold normpath_step, str_eqb.
  rewrite !bool_decide_eq_false_2 by assumption. reflexivity.
Qed.

Lemma normpath_step_empty (i : nat) (acc : list str) :
  normpath_step i acc [] = acc.
Proof. reflexivity. Qed.

Lemma Forall_removelast {A} (P : A -> Prop) (l : list A) :
  Forall P l -> Forall P (removelast l).
Proof.
  induction l as [|a l IH]; intros H; simpl; [constructor|].
  inversion H; subst. destruct l; [constructor|].
  constructor; [assumption|]. apply IH. assumption.
Qed.

Lemma last_Forall {A} (P : A -> Prop) (l : list A) (a : A) :
  Forall P l -> last l = Some a -> P a.
Proof.
  intros H Hl. rewrite Forall_forall in H. apply H.
  apply last_Some in Hl as [l' ->]. apply elem_of_app. right.
  apply elem_of_cons. left. reflexivity.
Qed.

(** In an absolute path every component kept is a name. *)
Lemma normpath_step_names (i : nat) (acc : list str) (comp : str) :
  (1 <= i)%nat -> Forall is_name acc -> SLASH ∉ comp ->
  Forall is_name (normpath_step i acc comp).
Proof.
  intros Hi Hacc Hcomp. unfold normpath_step, str_eqb.
  destruct (bool_decide (comp = [])) eqn:E1; [exact Hacc|].
  destruct (bool_decide (comp = u ".")) eqn:E2; [exact Hacc|].
  cbn [orb].
  apply bool_decide_eq_false in E1. apply bool_decide_eq_false in E2.
  destruct (bool_decide (comp = u "..")) eqn:E3.
  - cbn [negb orb].
    replace (Nat.eqb i 0) with false by (destruct i; [lia|reflexivity]).
    cbn [andb orb].
    destruct (bool_decide (acc = [])) eqn:E4; cbn [negb andb].
    + apply Forall_removelast, Hacc.
    + destruct (bool_decide (last acc = Some (u ".."))) eqn:E5.
      * apply bool_decide_eq_true in E5.
        pose proof (last_Forall _ _ _ Hacc E5) as (_ & _ & Hdd & _).
        contradiction.
      * apply Forall_removelast, Hacc.
  - apply bool_decide_eq_false in E3. cbn [negb orb].
    apply Forall_app. split; [exact Hacc|].
    constructor; [|constructor]. repeat split; assumption.
Qed.

Lemma fold_normpath_names (i : nat) (l acc : list str) :
  (1 <= i)%nat -> Forall is_name acc -> Forall (fun piece => SLASH ∉ piece) l ->
  Forall is_name (fold_left (normpath_step i) l acc).
Proof.
  intros Hi. revert acc. induction l as [|c l IH]; intros acc Hacc Hl; simpl.
  - exact Hacc.
  - inversion Hl; subst. apply IH; [|assumption].
    apply normpath_step_names; assumption.
Qed.

Lemma fold_normpath_on_names (i : nat) (l acc : list str) :
  Forall is_name l -> fold_left (normpath_step i) l acc = acc ++ l.
Proof.
  revert acc. induction l as [|c l IH]; intros acc Hl; simpl.
  - symmetry. apply app_nil_r.
  - inversion Hl; subst. rewrite normpath_step_name by assumption.
    rewrite IH by assumption. rewrite <- app_assoc. reflexivity.
Qed.

(** [normpath] on a path that starts with a slash, with the number of
    leading slashes kept made explicit. *)
Lemma normpath_absolute (path : str) :
  startswith path [SLASH] = true ->
  exists i : nat,
    (i = 1 \/ i = 2)%nat
    /\ normpath path
       = repeat SLASH i
           ++ join_with SLASH (fold_left (normpath_step i) (split path SLASH) []).
Proof.
  intros H. unfold normpath. rewrite H.
  apply startswith_one in H as [rest ->].
  unfold str_eqb at 1. rewrite bool_decide_eq_false_2 by discriminate.
  destruct (startswith (SLASH :: rest) [SLASH; SLASH]
            && negb (startswith (SLASH :: rest) [SLASH; SLASH; SLASH])).
  - exists 2%nat. split; [right; reflexivity|].
    unfold str_eqb. rewrite bool_decide_eq_false_2 by discriminate. reflexivity.
  - exists 1%nat. split; [left; reflexivity|].
    unfold str_eqb. rewrite bool_decide_eq_false_2 by discriminate. reflexivity.
Qed.

Lemma normpath_absolute_shape (path : str) :
  startswith path [SLASH] = true ->
  exists (i : nat) (comps : list str),
    (i = 1 \/ i = 2)%nat
    /\ Forall is_name comps
    /\ normpath path = repeat SLASH i ++ join_with SLASH comps.
Proof.
  intros H. destruct (normpath_absolute path H) as (i & Hi & ->).
  exists i, (fold_left (normpath_step i) (split path SLASH) []).
  split; [exact Hi|]. split; [|reflexivity].
  apply fold_normpath_names; [destruct Hi; lia|constructor|].
  apply split_pieces_no_sep.
Qed.

End NormpathFacts.

Section NormalFormFacts.
Import Py OsPath.

Lemma join_with_cons2 (sep : N) (w w2 : str) (ws : list str) :
  join_with sep (w :: w2 :: ws) = w ++ sep :: join_with sep (w2 :: ws).
Proof. reflexivity. Qed.

(** The joined names do not start with a slash. *)
Lemma join_names_head (comps : list str) :
  Forall is_name comps -> startswith (join_with SLASH comps) [SLASH] = false.
Proof.
  intros H. destruct comps as [|w ws]; [reflexivity|].
  inversion H as [|? ? (Hne & _ & _ & Hs) ?]; subst.
  destruct w as [|c w]; [contradiction|].
  assert (Hc : (SLASH =? c)%N = false).
  { apply N.eqb_neq. intros <-. apply Hs, elem_of_cons. left. reflexivity. }
  destruct ws; cbn [join_with app startswith]; rewrite Hc; reflexivity.
Qed.

Lemma split_join_names (comps : list str) :
  Forall is_name comps -> comps <> [] ->
  split (join_with SLASH comps) SLASH = comps.
Proof.
  induction comps as [|w ws IH]; intros H Hne; [contradiction|].
  inversion H as [|? ? (_ & _ & _ & Hs) Hws]; subst.
  destruct ws as [|w2 ws].
  - simpl. apply split_no_sep, Hs.
  - rewrite join_with_cons2, split_app_sep, split_no_sep by assumption.
    rewrite IH by (assumption || discriminate). reflexivity.
Qed.

Lemma split_leading_slashes (i : nat) (rest : str) :
  split (repeat SLASH i ++ rest) SLASH = repeat [] i ++ split rest SLASH.
Proof.
  induction i as [|i IH]; [reflexivity|].
  cbn [repeat app split]. rewrite N.eqb_refl, IH. reflexivity.
Qed.

Lemma fold_normpath_empties (i n : nat) (l acc : list str) :
  fold_left (normpath_step i) (repeat [] n ++ l) acc
  = fold_left (normpath_step i) l acc.
Proof.
  induction n as [|n IH]; [reflexivity|].
  cbn [repeat app fold_left]. rewrite normpath_step_empty. exact IH.
Qed.

(** A path in normal form is left as it is. *)
Lemma normpath_normal_form (i : nat) (comps : list str) :
  (i = 1 \/ i = 2)%nat -> Forall is_name comps ->
  normpath (repeat SLASH i ++ join_with SLASH comps)
  = repeat SLASH i ++ join_with SLASH comps.
Proof.
  intros Hi Hcomps.
  pose proof (join_names_head comps Hcomps) as Hhead.
  set (J := join_with SLASH comps) in *.
  assert (Hfold : fold_left (normpath_step i)
                    (split (repeat SLASH i ++ J) SLASH) [] = comps).
  { rewrite split_leading_slashes, fold_normpath_empties.
    destruct comps as [|w ws].
    - reflexivity.
    - unfold J. rewrite split_join_names by (assumption || discriminate).
      rewrite fold_normpath_on_names by assumption. reflexivity. }
  unfold normpath.
  destruct Hi as [-> | ->].
  - cbn [repeat app] in *.
    unfold str_eqb at 1. rewrite bool_decide_eq_false_2 by discriminate.
    change (startswith (SLASH :: J) [SLASH]) with true.
    change (startswith (SLASH :: J) [SLASH; SLASH]) with (startswith J [SLASH]).
    rewrite Hhead. cbn [andb]. rewrite Hfold.
    unfold str_eqb. rewrite bool_decide_eq_false_2 by discriminate. reflexivity.
  - cbn [repeat app] in *.
    unfold str_eqb at 1. rewrite bool_decide_eq_false_2 by discriminate.
    change (startswith (SLASH :: SLASH :: J) [SLASH]) with true.
    change (startswith (SLASH :: SLASH :: J) [SLASH; SLASH]) with true.
    change (startswith (SLASH :: SLASH :: J) [SLASH; SLASH; SLASH])
      with (startswith J [SLASH]).
    rewrite Hhead. cbn [andb negb]. rewrite Hfold.
    unfold str_eqb. rewrite bool_decide_eq_false_2 by discriminate. reflexivity.
Qed.

Lemma join_absolute (a b : str) :
  startswith a [SLASH] = true -> startswith (join a b) [SLASH] = true.
Proof.
  intros Ha. unfold join.
  destruct (startswith b [SLASH]) eqn:Hb; [exact Hb|].
  apply startswith_one in Ha as [a' ->].
  destruct (_ || _); reflexivity.
Qed.

Lemma abspath_argument_absolute (wd path : str) :
  startswith wd [SLASH] = true ->
  startswith (if startswith path [SLASH] then path else join wd path) [SLASH]
  = true.
Proof.
  intros Hwd. destruct (startswith path [SLASH]) eqn:Hp; [exact Hp|].
  apply join_absolute, Hwd.
Qed.

Lemma abspath_shape (wd path : str) :
  startswith wd [SLASH] = true ->
  exists (i : nat) (comps : list str),
    (i = 1 \/ i = 2)%nat
    /\ Forall is_name comps
    /\ abspath wd path = repeat SLASH i ++ join_with SLASH comps.
Proof.
  intros Hwd. unfold abspath.
  apply normpath_absolute_shape, abspath_argument_absolute, Hwd.
Qed.

Lemma abspath_stable (wd path : str) :
  startswith wd [SLASH] = true ->
  abspath wd (abspath wd path) = abspath wd path.
Proof.
  intros Hwd.
  destruct (abspath_shape wd path Hwd) as (i & comps & Hi & Hcomps & ->).
  unfold abspath.
  replace (startswith (repeat SLASH i ++ join_with SLASH comps) [SLASH])
    with true by (destruct Hi as [-> | ->]; reflexivity).
  apply normpath_normal_form; assumption.
Qed.

End NormalFormFacts.

Section ResolvedPath.
Import Py OsPath Agent.
Context {service_state : Type}.
Implicit Types (w : world service_state).

Lemma read_text_inv (path source : str) w w1 :
  read_text path w = (inr source, w1) ->
  files w !! abspath (cwd w) path = Some (File source).
Proof.
  unfold read_text, bind, open_read, read. cbv zeta.
  cbn [files cwd log].
  destruct (Fs.open_guard path); [discriminate|].
  destruct (Fs.check_dirs _ _ _) as [e|[]]; [discriminate|].
  unfold Fs.lookup_node.
  destruct (all_slashes (abspath (cwd w) path)); [discriminate|].
  destruct (files w !! abspath (cwd w) path) as [[text| |]|] eqn:Hk;
    cbn [files log]; try rewrite Hk; try discriminate.
  destruct (existsb (N.eqb CR) text); [discriminate|].
  intros H; inversion H; reflexivity.
Qed.

Lemma split_normal_form (i : nat) (comps : list str) (comp : str) :
  Forall is_name comps ->
  comp ∈ split (repeat SLASH i ++ join_with SLASH comps) SLASH ->
  comp = [] \/ is_name comp.
Proof.
  intros Hcomps Hin. rewrite split_leading_slashes in Hin.
  apply elem_of_app in Hin as [Hin|Hin].
  - left. apply list_elem_of_In, repeat_spec in Hin. exact Hin.
  - destruct comps as [|c cs].
    + left. apply list_elem_of_singleton in Hin. exact Hin.
    + rewrite split_join_names in Hin by (assumption || discriminate).
      right. rewrite Forall_forall in Hcomps. apply Hcomps, Hin.
Qed.

(** X12. With an absolute working directory, the path that line 30
    computes is absolute and normalised: it starts with a slash, none
    of its components is [.] or [..], and resolving it again gives the
    same path. So the file that is opened is the one at the very path
    that is put in the prompt, and the text in the prompt is the text
    of that file. *)
Theorem resolved_path_is_normal (src_path : str) w :
  startswith (cwd w) [SLASH] = true ->
  startswith (abspath (cwd w) src_path) [SLASH] = true
  /\ abspath (cwd w) (abspath (cwd w) src_path) = abspath (cwd w) src_path
  /\ (forall comp, comp ∈ split (abspath (cwd w) src_path) SLASH ->
                   comp <> u "." /\ comp <> u "..")
  /\ (forall (source : str) w1,
        read_text (abspath (cwd w) src_path) w = (inr source, w1) ->
        files w !! abspath (cwd w) src_path = Some (File source)).
Proof.
  intros Hwd.
  split.
  { destruct (abspath_shape (cwd w) src_path Hwd) as (i & comps & Hi & _ & ->).
    destruct Hi as [-> | ->]; reflexivity. }
  split; [apply abspath_stable, Hwd|].
  split.
  { intros comp Hin.
    destruct (abspath_shape (cwd w) src_path Hwd) as (i & comps & Hi & Hcomps & E).
    rewrite E in Hin.
    destruct (split_normal_form i comps comp Hcomps Hin) as [->|(_ & H1 & H2 & _)].
    - split; discriminate.
    - split; assumption. }
  intros source w1 Hread. apply read_text_inv in Hread.
  rewrite abspath_stable in Hread by assumption. exact Hread.
Qed.

End ResolvedPath.

Section OutputPathFacts.
Import Py OsPath Agent.

Lemma join_ends_with (a b : str) :
  startswith b [SLASH] = false ->
  join a b = b \/ exists y, join a b = y ++ SLASH :: b.
Proof.
  intros Hb. unfold join. rewrite Hb.
  destruct (str_eqb a [] || endswith a [SLASH]) eqn:Ha.
  - apply orb_true_iff in Ha as [Ha|Ha].
    + apply bool_decide_eq_true in Ha as ->. left. reflexivity.
    + unfold endswith in Ha. apply startswith_one in Ha as [r Hr].
      right. exists (rev r).
      rewrite <- (rev_involutive a), Hr. simpl.
      rewrite <- app_assoc. reflexivity.
  - right. exists a. reflexivity.
Qed.

(** The path that is normalised for the output file ends with a slash
    and the file name. *)
Lemma output_argument_ends_with_name (wd out_dir name : str) :
  startswith wd [SLASH] = true ->
  startswith name [SLASH] = false ->
  exists x,
    (if startswith (join out_dir name) [SLASH]
     then join out_dir name else join wd (join out_dir name))
    = x ++ SLASH :: name.
Proof.
  intros Hwd Hname.
  destruct (startswith (join out_dir name) [SLASH]) eqn:Hj.
  - destruct (join_ends_with out_dir name Hname) as [E|[y E]].
    + rewrite E, Hname in Hj. discriminate.
    + eauto.
  - destruct (join_ends_with wd (join out_dir name) Hj) as [E|[y E]].
    + pose proof (join_absolute wd (join out_dir name) Hwd) as Habs.
      rewrite E, Hj in Habs. discriminate.
    + rewrite E.
      destruct (join_ends_with out_dir name Hname) as [E'|[y' E']]; rewrite E'.
      * eauto.
      * exists (y ++ SLASH :: y'). rewrite <- app_assoc. reflexivity.
Qed.

Lemma join_with_snoc (sep : N) (acc : list str) (n : str) :
  join_with sep (acc ++ [n])
  = match acc with
    | [] => n
    | _ :: _ => join_with sep acc ++ sep :: n
    end.
Proof.
  induction acc as [|a acc IH]; [reflexivity|].
  destruct acc as [|a2 acc]; [reflexivity|].
  change ((a :: a2 :: acc) ++ [n]) with (a :: a2 :: (acc ++ [n])).
  rewrite !join_with_cons2.
  change (a2 :: acc ++ [n]) with ((a2 :: acc) ++ [n]).
  rewrite IH, <- app_assoc. reflexivity.
Qed.

(** Normalising an absolute path that ends with a name keeps that name
    as the last component. *)
Lemma basename_normpath_name (x name : str) :
  startswith (x ++ SLASH :: name) [SLASH] = true ->
  is_name name ->
  basename (normpath (x ++ SLASH :: name)) = name.
Proof.
  intros Habs Hname.
  destruct (normpath_absolute _ Habs) as (i & Hi & ->).
  pose proof Hname as (_ & _ & _ & Hs).
  rewrite split_app_sep, (split_no_sep name) by assumption.
  rewrite fold_left_app. cbn [fold_left].
  rewrite normpath_step_name by assumption.
  rewrite join_with_snoc.
  destruct (fold_left (normpath_step i) (split x SLASH) []) as [|a acc].
  - destruct Hi as [-> | ->].
    + apply (basename_after_slash [] name Hs).
    + apply (basename_after_slash [SLASH] name Hs).
  - rewrite app_assoc. apply basename_after_slash, Hs.
Qed.

Lemma test_name_is_name (mn : str) :
  SLASH ∉ mn -> is_name (u "test_" ++ mn ++ u ".py").
Proof.
  intros H. repeat split; try discriminate.
  apply test_file_name_no_slash, H.
Qed.

(** The name of the output file is never the name of the source. *)
Lemma output_name_differs (b : str) :
  u "test_" ++ fst (splitext b) ++ u ".py" <> b.
Proof.
  intros E.
  pose proof (splitext_concat b) as Hb.
  destruct (splitext_extension b) as [Hext|(n & Hext & Hn)]; rewrite Hext in Hb.
  - rewrite app_nil_r in Hb. rewrite Hb in E.
    apply (f_equal length) in E. rewrite !length_app in E. simpl in E. lia.
  - rewrite <- Hb in E at 2.
    assert (Hpy : DOT ∉ u "py").
    { intros H. vm_compute in H.
      repeat (apply elem_of_cons in H as [H|H]; [discriminate|]).
      apply elem_of_nil in H. exact H. }
    pose proof (rfind_last (u "test_" ++ fst (splitext b)) (u "py") DOT Hpy) as R1.
    pose proof (rfind_last (fst (splitext b)) n DOT Hn) as R2.
    change (u "test_" ++ fst (splitext b) ++ u ".py")
      with (u "test_" ++ fst (splitext b) ++ DOT :: u "py") in E.
    rewrite app_assoc in E. rewrite E, R2 in R1.
    rewrite length_app in R1. simpl in R1. lia.
Qed.

Lemma output_key_differs (wd src_path out_dir : str) :
  startswith wd [SLASH] = true ->
  abspath wd (out_fname wd src_path out_dir) <> abspath wd src_path.
Proof.
  intros Hwd E. apply (f_equal basename) in E.
  unfold out_fname, abspath at 1 in E.
  pose proof (test_name_is_name _ (module_name_no_slash wd src_path)) as Hname.
  destruct (output_argument_ends_with_name wd out_dir
              (u "test_" ++ module_name wd src_path ++ u ".py") Hwd eq_refl)
    as [x Hx].
  pose proof (abspath_argument_absolute wd
                (join out_dir (u "test_" ++ module_name wd src_path ++ u ".py"))
                Hwd) as Habs.
  rewrite Hx in E, Habs.
  rewrite basename_normpath_name in E by assumption.
  exact (output_name_differs _ E).
Qed.

End OutputPathFacts.

Section ChainFacts.
Import Py OsPath.

Lemma leading_slashes_normal (i : nat) (J : str) :
  startswith J [SLASH] = false ->
  Fs.leading_slashes (repeat SLASH i ++ J) = repeat SLASH i.
Proof.
  intros HJ. induction i as [|i IH].
  - destruct J as [|c J]; [reflexivity|].
    cbn [repeat app Fs.leading_slashes].
    cbn [startswith] in HJ. rewrite andb_true_r in HJ.
    rewrite N.eqb_sym, HJ. reflexivity.
  - cbn [repeat app Fs.leading_slashes]. rewrite N.eqb_refl, IH. reflexivity.
Qed.

Lemma filter_empty_pieces (n : nat) :
  filter (fun comp : str => comp <> []) (repeat ([] : str) n) = [].
Proof.
  induction n as [|n IH]; [reflexivity|].
  cbn [repeat]. rewrite filter_cons_False by (intros H; apply H; reflexivity).
  exact IH.
Qed.

Lemma filter_names (comps : list str) :
  Forall is_name comps ->
  filter (fun comp : str => comp <> []) comps = comps.
Proof.
  induction comps as [|c comps IH]; intros H; [reflexivity|].
  inversion H as [|? ? (Hne & _) Hrest]; subst.
  rewrite filter_cons_True by exact Hne. rewrite IH by assumption. reflexivity.
Qed.

Lemma components_normal (i : nat) (comps : list str) :
  Forall is_name comps ->
  Fs.components (repeat SLASH i ++ join_with SLASH comps) = comps.
Proof.
  intros H. unfold Fs.components.
  rewrite split_leading_slashes, filter_app, filter_empty_pieces.
  destruct comps as [|c cs].
  - cbn [join_with split app].
    rewrite filter_cons_False by (intros E; apply E; reflexivity). reflexivity.
  - rewrite split_join_names by (assumption || discriminate).
    apply filter_names, H.
Qed.

(** A path in normal form other than the root ends its own chain. *)
Lemma chain_contains_path (i : nat) (comps : list str) :
  Forall is_name comps -> comps <> [] ->
  repeat SLASH i ++ join_with SLASH comps
    ∈ Fs.chain (repeat SLASH i ++ join_with SLASH comps).
Proof.
  intros H Hne. unfold Fs.chain.
  rewrite components_normal by assumption.
  rewrite leading_slashes_normal by (apply join_names_head, H).
  apply list_elem_of_In, in_map_iff. exists (length comps). split.
  - rewrite firstn_all. reflexivity.
  - apply in_seq. destruct comps; [contradiction|]. simpl. lia.
Qed.

Lemma all_slashes_repeat (i : nat) : all_slashes (repeat SLASH i) = true.
Proof. induction i as [|i IH]; [reflexivity|]. simpl. exact IH. Qed.

End ChainFacts.

Section SourceAndDirectory.
Import Py OsPath Agent.
Context {service_state : Type}.
Variable chat :
  service_state -> llm_client -> list message -> result (list N) * service_state.

Implicit Types (w : world service_state) (m : agent_module).

(** X13. The source file is never overwritten. With an absolute
    working directory the output path never resolves to the path of the
    source, whatever [out_dir] is, also when the source is itself named
    like a test file; and whatever the outcome of the call, what the
    file system holds at the path of the source is what it held
    before. *)
Theorem source_is_never_overwritten m (src_path out_dir : str) w
    (r : result str) w' :
  startswith (cwd w) [SLASH] = true ->
  generate_tests_for_file chat m src_path out_dir w = (r, w') ->
  abspath (cwd w) (out_fname (cwd w) src_path out_dir) <> abspath (cwd w) src_path
  /\ files w' !! abspath (cwd w) src_path = files w !! abspath (cwd w) src_path.
Proof.
  intros Hwd Hgen.
  pose proof (output_key_differs (cwd w) src_path out_dir Hwd) as Hne.
  split; [exact Hne|].
  destruct (files w !! abspath (cwd w) src_path) as [n|] eqn:Hk.
  - eapply generate_keeps_entries; [eassumption|congruence|exact Hk].
  - apply generate_cases in Hgen
      as [(e & -> & ->)
         |(source & prompt & w1 & s & Hread & _)].
    + exact Hk.
    + apply read_text_inv in Hread.
      rewrite abspath_stable, Hk in Hread by assumption. discriminate.
Qed.

(** X14. After a successful call the output directory exists: with an
    absolute working directory, [out_dir] resolves to a directory, and
    so does every directory on the way to it. *)
Theorem output_directory_exists m (src_path out_dir : str) w (p : str) w' :
  startswith (cwd w) [SLASH] = true ->
  generate_tests_for_file chat m src_path out_dir w = (inr p, w') ->
  Fs.lookup_node (files w') (abspath (cwd w) out_dir) = Some Dir
  /\ (forall d, d ∈ Fs.chain (abspath (cwd w) out_dir) ->
                Fs.lookup_node (files w') d = Some Dir)
  /\ out_dir <> [].
Proof.
  intros Hwd Hgen.
  apply generate_success_inv in Hgen
    as (source & prompt & resp & w0 & s & fs & _ & _ & _ & _ & _
        & Hout & Hmk & _ & _ & Hk & _ & _ & _ & _ & Hfiles).
  assert (Hchain : forall d, d ∈ Fs.chain (abspath (cwd w) out_dir) ->
                             Fs.lookup_node (files w') d = Some Dir).
  { intros d Hd. rewrite Hfiles.
    apply lookup_node_insert_file; [exact Hk|].
    eapply mkdirs_all_dirs; eassumption. }
  split; [|split; [exact Hchain|]].
  - destruct (abspath_shape (cwd w) out_dir Hwd) as (i & comps & Hi & Hcomps & E).
    destruct comps as [|c cs].
    + rewrite E. cbn [join_with]. rewrite app_nil_r.
      unfold Fs.lookup_node. rewrite all_slashes_repeat. reflexivity.
    + apply Hchain. rewrite E. apply chain_contains_path; [assumption|discriminate].
  - intros ->. discriminate Hout.
Qed.

End SourceAndDirectory.

Section PromptContent.
Import Py OsPath Agent.
Context {service_state : Type}.
Variable chat :
  service_state -> llm_client -> list message -> result (list N) * service_state.

Implicit Types (w : world service_state) (m : agent_module).

(** X15. With a template made of text without braces around the two
    placeholders [{src_path}] and [{source}], the model is asked, and
    the user message it receives is the template with the resolved path
    and the text of the source copied in as they are, braces and quotes
    in the source included. *)
Theorem source_reaches_model_verbatim m (src_path out_dir : str) w
    (source pre mid post : str) w1 (r : result str) w' :
  read_text (abspath (cwd w) src_path) w = (inr source, w1) ->
  PROMPT_HEADER m = pre ++ u "{src_path}" ++ mid ++ u "{source}" ++ post ->
  LBRACE ∉ pre -> RBRACE ∉ pre ->
  LBRACE ∉ mid -> RBRACE ∉ mid ->
  LBRACE ∉ post -> RBRACE ∉ post ->
  generate_tests_for_file chat m src_path out_dir w = (r, w') ->
  exists evs,
    added w w'
      (EvOpenRead (abspath (cwd w) src_path)
       :: EvChat (llm m)
            [SystemMessage system_text;
             HumanMessage
               (pre ++ abspath (cwd w) src_path ++ mid ++ source ++ post)]
       :: evs).
Proof.
  intros Hread Hhdr H1 H2 H3 H4 H5 H6 Hgen.
  assert (Hprompt : build_prompt (PROMPT_HEADER m) (abspath (cwd w) src_path) source
                    = inr (pre ++ abspath (cwd w) src_path ++ mid ++ source ++ post))
    by (rewrite Hhdr; apply build_prompt_verbatim; assumption).
  set (prompt := pre ++ abspath (cwd w) src_path ++ mid ++ source ++ post) in *.
  unfold added.
  destruct (chat (service w) (llm m) (request prompt)) as [[e|resp] s] eqn:Hchat.
  { rewrite (generate_chat_failure chat m src_path out_dir w source prompt w1 e s)
      in Hgen by assumption.
    inversion Hgen; subst. exists []. apply answered_trace. }
  rewrite (generate_run chat m src_path out_dir w source prompt resp w1 s)
    in Hgen by assumption.
  destruct (negb (startswith (strip resp) (u "import pytest"))).
  { inversion Hgen; subst. exists []. apply answered_trace. }
  destruct (negb (contains (strip resp) (u "def test_"))).
  { inversion Hgen; subst. exists []. apply answered_trace. }
  apply write_out_trace in Hgen as (evs & Htr & _).
  exists evs. rewrite Htr, answered_trace, <- app_assoc. reflexivity.
Qed.

End PromptContent.

Section OnScenarioPaths.
Import Py OsPath Agent Scenario ScenarioMore.

Lemma resolved_path_is_normal_witness :
  let w := world_with [inr good_answer] in
  let given := u "./examples/../examples//strings.py" in
  (startswith (cwd w) [SLASH] = true
   /\ read_text (abspath (cwd w) given) w
      = (inr strings_py, log (EvOpenRead abs0) w))
  /\ startswith (abspath (cwd w) given) [SLASH] = true
  /\ abspath (cwd w) (abspath (cwd w) given) = abspath (cwd w) given
  /\ (forall comp, comp ∈ split (abspath (cwd w) given) SLASH ->
                   comp <> u "." /\ comp <> u "..")
  /\ files w !! abspath (cwd w) given = Some (File strings_py).
Proof.
  intros w given.
  assert (H0 : startswith (cwd w) [SLASH] = true) by reflexivity.
  assert (H1 : read_text (abspath (cwd w) given) w
               = (inr strings_py, log (EvOpenRead abs0) w))
    by (vm_compute; reflexivity).
  split; [split; assumption|].
  destruct (resolved_path_is_normal given w H0) as (A & B & C & D).
  split; [exact A|]. split; [exact B|]. split; [exact C|].
  exact (D _ _ H1).
Defined.

Lemma source_is_never_overwritten_witness :
  let w :=
    World (u "/repo")
      (<[u "/repo/examples/test_strings.py" := File strings_py]> fs0)
      [inr good_answer] [] in
  let src := u "examples/test_strings.py" in
  let run := generate_tests_for_file scripted m0 src (u "examples") w in
  (startswith (cwd w) [SLASH] = true
   /\ run = (fst run, snd run))
  /\ abspath (cwd w) (out_fname (cwd w) src (u "examples")) <> abspath (cwd w) src
  /\ files (snd run) !! abspath (cwd w) src = files w !! abspath (cwd w) src.
Proof.
  intros w src run.
  assert (H0 : startswith (cwd w) [SLASH] = true) by reflexivity.
  assert (H1 : run = (fst run, snd run)) by apply surjective_pairing.
  split; [split; assumption|].
  exact (source_is_never_overwritten scripted m0 src (u "examples") w
           (fst run) (snd run) H0 H1).
Defined.

Lemma output_directory_exists_witness :
  let w := world_with [inr good_answer] in
  let out_dir := u "build/tests" in
  let w' := snd (generate_tests_for_file scripted m0 src0 out_dir w) in
  (startswith (cwd w) [SLASH] = true
   /\ generate_tests_for_file scripted m0 src0 out_dir w
      = (inr (u "build/tests/test_strings.py"), w'))
  /\ Fs.lookup_node (files w') (abspath (cwd w) out_dir) = Some Dir
  /\ (forall d, d ∈ Fs.chain (abspath (cwd w) out_dir) ->
                Fs.lookup_node (files w') d = Some Dir)
  /\ out_dir <> [].
Proof.
  intros w out_dir w'.
  assert (H0 : startswith (cwd w) [SLASH] = true) by reflexivity.
  assert (H1 : generate_tests_for_file scripted m0 src0 out_dir w
               = (inr (u "build/tests/test_strings.py"), w'))
    by (vm_compute; reflexivity).
  split; [split; assumption|].
  exact (output_directory_exists scripted m0 src0 out_dir w _ _ H0 H1).
Defined.

Lemma source_reaches_model_verbatim_witness :
  let w :=
    World (u "/repo") (<[abs0 := File braces_py]> fs0) [inr good_answer] [] in
  let run := generate_tests_for_file scripted m0 src0 (u "out") w in
  let mid := NL :: u "Source code:" ++ [NL] in
  (read_text (abspath (cwd w) src0) w = (inr braces_py, log (EvOpenRead abs0) w)
   /\ PROMPT_HEADER m0
      = u "Source file path: " ++ u "{src_path}" ++ mid ++ u "{source}" ++ [NL]
   /\ (LBRACE ∉ u "Source file path: ") /\ (RBRACE ∉ u "Source file path: ")
   /\ (LBRACE ∉ mid) /\ (RBRACE ∉ mid)
   /\ (LBRACE ∉ [NL]) /\ (RBRACE ∉ [NL])
   /\ run = (fst run, snd run))
  /\ exists evs,
       added w (snd run)
         (EvOpenRead (abspath (cwd w) src0)
          :: EvChat (llm m0)
               [SystemMessage system_text;
                HumanMessage
                  (u "Source file path: " ++ abspath (cwd w) src0 ++ mid
                     ++ braces_py ++ [NL])]
          :: evs).
Proof.
  intros w run mid.
  assert (Hnot : forall (c : N) (l : str), forallb (fun x => negb (x =? c)%N) l = true
                                          -> c ∉ l).
  { intros c l. induction l as [|x l IH]; simpl; intros H.
    - apply not_elem_of_nil.
    - apply andb_true_iff in H as [Hx Hl].
      apply not_elem_of_cons. split; [|apply IH, Hl].
      intros ->. rewrite N.eqb_refl in Hx. discriminate. }
  assert (H1 : read_text (abspath (cwd w) src0) w
               = (inr braces_py, log (EvOpenRead abs0) w))
    by (vm_compute; reflexivity).
  assert (H2 : PROMPT_HEADER m0
               = u "Source file path: " ++ u "{src_path}" ++ mid
                   ++ u "{source}" ++ [NL])
    by (vm_compute; reflexivity).
  assert (H3 : LBRACE ∉ u "Source file path: ") by (apply Hnot; reflexivity).
  assert (H4 : RBRACE ∉ u "Source file path: ") by (apply Hnot; reflexivity).
  assert (H5 : LBRACE ∉ mid) by (apply Hnot; reflexivity).
  assert (H6 : RBRACE ∉ mid) by (apply Hnot; reflexivity).
  assert (H7 : LBRACE ∉ [NL]) by (apply Hnot; reflexivity).
  assert (H8 : RBRACE ∉ [NL]) by (apply Hnot; reflexivity).
  assert (H9 : run = (fst run, snd run)) by apply surjective_pairing.
  split; [repeat split; assumption|].
  exact (source_reaches_model_verbatim scripted m0 src0 (u "out") w braces_py
           (u "Source file path: ") mid [NL] _ (fst run) (snd run)
           H1 H2 H3 H4 H5 H6 H7 H8 H9).
Defined.

End OnScenarioPaths.

(** ** The environment and the [.env] file *)

Section Precedence.
Import Py OsPath Agent.

Lemma load_dotenv_lookup (dotenv environ : gmap (list N) (list N)) (name : str) :
  load_dotenv dotenv environ !! name
  = match environ !! name with
    | Some v => Some v
    | None => dotenv !! name
    end.
Proof.
  unfold load_dotenv. rewrite lookup_union.
  destruct (environ !! name), (dotenv !! name); reflexivity.
Qed.

(** X16. A variable set in the process environment is not replaced by
    the [.env] file, which only supplies the variables that are not
    set: when the module initialises, each setting of the client is the
    value of the environment if there is one and that of the [.env]
    file otherwise. Hence a required variable set to the empty string
    in the environment makes the module fail even when the [.env] file
    gives it a value. *)
Theorem environment_takes_precedence (prompt_header : str)
    (dotenv environ : gmap (list N) (list N)) :
  (forall m,
     module_body prompt_header dotenv environ = inr m ->
     Some (openai_api_base (llm m))
     = match environ !! u "AZURE_OPENAI_ENDPOINT" with
       | Some v => Some v
       | None => dotenv !! u "AZURE_OPENAI_ENDPOINT"
       end
     /\ Some (openai_api_key (llm m))
        = match environ !! u "AZURE_OPENAI_KEY" with
          | Some v => Some v
          | None => dotenv !! u "AZURE_OPENAI_KEY"
          end
     /\ Some (deployment_name (llm m))
        = match environ !! u "AZURE_OPENAI_DEPLOYMENT" with
          | Some v => Some v
          | None => dotenv !! u "AZURE_OPENAI_DEPLOYMENT"
          end)
  /\ (forall name,
        name ∈ required_names ->
        environ !! name = Some [] ->
        module_body prompt_header dotenv environ
        = inl (RuntimeError (u "Configure AZURE_OPENAI_* env vars or .env file"))).
Proof.
  split.
  - intros m Hm.
    apply module_body_inv in Hm
      as (e & k & d & v & He & Hk & Hd & _ & _ & _ & _ & _ & ->).
    cbn [llm openai_api_base openai_api_key deployment_name].
    rewrite <- !load_dotenv_lookup, He, Hk, Hd. repeat split.
  - intros name Hin Hempty.
    eapply module_body_without_variable; [exact Hin|].
    rewrite load_dotenv_lookup, Hempty. reflexivity.
Qed.

Lemma environment_takes_precedence_witness :
  let dotenv : gmap (list N) (list N) :=
    <[u "AZURE_OPENAI_ENDPOINT" := u "https://dotenv.example"]>
      (<[u "AZURE_OPENAI_KEY" := u "from-dotenv"]>
         {[ u "OPENAI_API_VERSION" := u "2023-05-15" ]}) in
  let environ : gmap (list N) (list N) :=
    <[u "AZURE_OPENAI_ENDPOINT" := u "https://env.example"]>
      {[ u "AZURE_OPENAI_DEPLOYMENT" := u "gpt" ]} in
  let blank : gmap (list N) (list N) := <[u "AZURE_OPENAI_KEY" := []]> environ in
  let m :=
    {| PROMPT_HEADER := Scenario.template;
       AZ_ENDPOINT := u "https://env.example";
       AZ_KEY := u "from-dotenv";
       AZ_DEPLOY := u "gpt";
       llm := {| deployment_name := u "gpt";
                 openai_api_base := u "https://env.example";
                 openai_api_key := u "from-dotenv";
                 openai_api_version := u "2023-05-15";
                 temperature := 0 # 1;
                 max_tokens := 1000;
                 request_timeout := 120 |} |} in
  (module_body Scenario.template dotenv environ = inr m
   /\ u "AZURE_OPENAI_KEY" ∈ required_names
   /\ blank !! u "AZURE_OPENAI_KEY" = Some [])
  /\ Some (openai_api_base (llm m)) = Some (u "https://env.example")
  /\ Some (openai_api_key (llm m)) = Some (u "from-dotenv")
  /\ module_body Scenario.template dotenv blank
     = inl (RuntimeError (u "Configure AZURE_OPENAI_* env vars or .env file")).
Proof.
  intros dotenv environ blank m.
  assert (H1 : module_body Scenario.template dotenv environ = inr m)
    by (vm_compute; reflexivity).
  assert (H2 : u "AZURE_OPENAI_KEY" ∈ required_names).
  { unfold required_names. apply elem_of_cons. right.
    apply elem_of_cons. left. reflexivity. }
  assert (H3 : blank !! u "AZURE_OPENAI_KEY" = Some [])
    by (vm_compute; reflexivity).
  split; [repeat split; assumption|].
  destruct (proj1 (environment_takes_precedence Scenario.template dotenv environ)
              m H1) as (A & B & _).
  split; [exact A|]. split; [exact B|].
  exact (proj2 (environment_takes_precedence Scenario.template dotenv blank)
           _ H2 H3).
Defined.

End Precedence.
